(** * NexusTrader: the Binance/OKX enum parsers, the Binance private
      connector, the Binance execution management system and the
      strategy-facing algo-order constructors, embedded from the Python
      sources and checked against the specification. *)

From Stdlib Require Import ZArith NArith QArith Qpower Bool List Ascii String Lia.
From Stdlib Require Import SpecFloat.
From stdpp Require Import base decidable option list strings finite gmap.

Local Open Scope string_scope.
Local Open Scope Z_scope.

(* ===================================================================== *)
(** * Python runtime: exceptions, results, insertion-ordered dicts        *)
(* ===================================================================== *)

Module Py.

(** Exceptions are identified by their class; messages are not modelled.
    [ApiError] stands for whatever the REST transport raises. *)
Inductive exn : Type :=
  | KeyError
  | ValueError
  | TypeError
  | AttributeError
  | UnboundLocalError
  | RuntimeError
  | NotImplementedError
  | ZeroDivisionError
  | InvalidOperation
  | OrderError
  | KlineSupportedError
  | ApiError (cls : string).

#[global] Instance exn_eq_dec : EqDecision exn.
Proof. solve_decision. Defined.

Definition exn_name (e : exn) : string :=
  match e with
  | KeyError => "KeyError"
  | ValueError => "ValueError"
  | TypeError => "TypeError"
  | AttributeError => "AttributeError"
  | UnboundLocalError => "UnboundLocalError"
  | RuntimeError => "RuntimeError"
  | NotImplementedError => "NotImplementedError"
  | ZeroDivisionError => "ZeroDivisionError"
  | InvalidOperation => "InvalidOperation"
  | OrderError => "OrderError"
  | KlineSupportedError => "KlineSupportedError"
  | ApiError cls => cls
  end.

(** The outcome of evaluating an expression: a value or a raised exception. *)
Inductive result (A : Type) : Type :=
  | Ok (a : A)
  | Raise (e : exn).
Arguments Ok {A} a.
Arguments Raise {A} e.

Definition rbind {A B} (r : result A) (k : A -> result B) : result B :=
  match r with
  | Ok a => k a
  | Raise e => Raise e
  end.

#[global] Instance result_ret : MRet result := fun _ a => Ok a.
#[global] Instance result_bind : MBind result := fun _ _ k r => rbind r k.

Definition is_ok {A} (r : result A) : bool :=
  match r with Ok _ => true | Raise _ => false end.

(** ** Dicts

    A Python dict keeps its keys in insertion order; assigning to an
    existing key overwrites the value in place. *)
Section Dict.
Context {K V : Type} `{EqDecision K}.

Definition dict : Type := list (K * V).

Fixpoint dict_get (d : dict) (k : K) : option V :=
  match d with
  | [] => None
  | (k', v) :: d' => if decide (k' = k) then Some v else dict_get d' k
  end.

Fixpoint dict_set (d : dict) (k : K) (v : V) : dict :=
  match d with
  | [] => [(k, v)]
  | (k', v') :: d' =>
      if decide (k' = k) then (k, v) :: d' else (k', v') :: dict_set d' k v
  end.

Fixpoint dict_del (d : dict) (k : K) : dict :=
  match d with
  | [] => []
  | (k', v') :: d' =>
      if decide (k' = k) then d' else (k', v') :: dict_del d' k
  end.

(** [{k1: v1, ...}] and [{k: v for k, v in items}]. *)
Definition dict_of_items (items : list (K * V)) : dict :=
  fold_left (fun d kv => dict_set d kv.1 kv.2) items [].

(** [d[k]] *)
Definition dict_getitem (d : dict) (k : K) : result V :=
  match dict_get d k with
  | Some v => Ok v
  | None => Raise KeyError
  end.

(** [k in d] *)
Definition dict_mem (d : dict) (k : K) : bool :=
  match dict_get d k with Some _ => true | None => false end.

(** [d.pop(k, default)] *)
Definition dict_pop (d : dict) (k : K) (default : V) : V * dict :=
  match dict_get d k with
  | Some v => (v, dict_del d k)
  | None => (default, d)
  end.

(** [d.update(other)] *)
Definition dict_update (d other : dict) : dict :=
  fold_left (fun d kv => dict_set d kv.1 kv.2) other d.
End Dict.
Arguments dict K V : clear implicits.

(** [{v: k for k, v in d.items()}] *)
Definition dict_invert {K V} `{EqDecision V} (d : dict K V) : dict V K :=
  dict_of_items (map (fun kv => (kv.2, kv.1)) d).

End Py.
Export Py.

(* ===================================================================== *)
(** * Numbers: decimal literals, [decimal.Decimal], [float]               *)
(* ===================================================================== *)

(** ** Plain decimal literals

    The numeric strings of the exchange messages: an optional sign,
    digits, an optional fraction ([12], [-0.5], [.5], [7.]).  The exponent
    form, [NaN], [Infinity], underscores and surrounding blanks that
    Python's constructors also accept are outside this model. *)
Module Literal.

Record t : Type := Lit { neg : bool; coef : N; exp10 : Z }.

Definition digit_of (c : ascii) : option N :=
  let n := N_of_ascii c in
  if ((48 <=? n) && (n <=? 57))%N then Some (n - 48)%N else None.

(** Reads the longest prefix of digits: the accumulated value, how many
    digits were read, and the rest of the string. *)
Fixpoint read_digits (s : string) (acc : N) (cnt : nat) : N * nat * string :=
  match s with
  | EmptyString => (acc, cnt, s)
  | String c s' =>
      match digit_of c with
      | Some d => read_digits s' (acc * 10 + d)%N (S cnt)
      | None => (acc, cnt, s)
      end
  end.

Definition parse_unsigned (sign : bool) (s : string) : option t :=
  let '(ip, ni, rest) := read_digits s 0%N 0%nat in
  match rest with
  | EmptyString =>
      if (0 <? ni)%nat then Some (Lit sign ip 0) else None
  | String c rest' =>
      if decide (c = "."%char) then
        let '(cf, nf, rest'') := read_digits rest' ip 0%nat in
        match rest'' with
        | EmptyString =>
            if (0 <? ni + nf)%nat then Some (Lit sign cf (- Z.of_nat nf))
            else None
        | String _ _ => None
        end
      else None
  end.

Definition parse (s : string) : option t :=
  match s with
  | String c s' =>
      if decide (c = "-"%char) then parse_unsigned true s'
      else if decide (c = "+"%char) then parse_unsigned false s'
      else parse_unsigned false s
  | EmptyString => None
  end.

End Literal.

(** ** [decimal.Decimal] under the default context

    A finite decimal is a sign, a coefficient and an exponent, as
    [Decimal.as_tuple] shows it.  Arithmetic computes the exact result and
    rounds it to the context precision of 28 significant digits, half to
    even; the exponent limits of the context ([Emax = 999999]) are out of
    reach of plain literals and are not modelled. *)
Module Dec.

Record decimal : Type := Dec { d_neg : bool; d_coef : N; d_exp : Z }.

#[global] Instance decimal_eq_dec : EqDecision decimal.
Proof. solve_decision. Defined.

Definition prec : N := 28.

(** How many low digits must go for the coefficient to fit [prec] digits. *)
Fixpoint excess_digits (fuel : nat) (c : N) : N :=
  match fuel with
  | O => 0
  | S fuel' =>
      if (c <? 10 ^ prec)%N then 0%N
      else (1 + excess_digits fuel' (c / 10))%N
  end.

Definition round_half_even (q r p : N) : N :=
  match (2 * r ?= p)%N with
  | Lt => q
  | Gt => (q + 1)%N
  | Eq => if N.even q then q else (q + 1)%N
  end.

(** [Decimal._fix]: round a result to the context precision. *)
Definition fix_context (d : decimal) : decimal :=
  let c := d_coef d in
  let k := excess_digits (N.size_nat c) c in
  if (k =? 0)%N then d
  else
    let p := (10 ^ k)%N in
    let q := round_half_even (c / p) (c mod p) p in
    if (q =? 10 ^ prec)%N
    then Dec (d_neg d) (10 ^ (prec - 1))%N (d_exp d + Z.of_N k + 1)
    else Dec (d_neg d) q (d_exp d + Z.of_N k).

Definition of_literal (l : Literal.t) : decimal :=
  Dec (Literal.neg l) (Literal.coef l) (Literal.exp10 l).

(** [Decimal(s)] for a string [s]; the constructor itself does not round. *)
Definition Decimal (s : string) : result decimal :=
  match Literal.parse s with
  | Some l => Ok (of_literal l)
  | None => Raise InvalidOperation
  end.

(** [Decimal(n)] for an int [n]. *)
Definition of_Z (n : Z) : decimal := Dec (n <? 0) (Z.abs_N n) 0.


(** Signed coefficient. *)
Definition scoef (d : decimal) : Z :=
  if d_neg d then - Z.of_N (d_coef d) else Z.of_N (d_coef d).

(** [bool(d)] *)
Definition truthy (d : decimal) : bool := negb (d_coef d =? 0)%N.

(** [d == 0], [d > 0], [d < 0] *)
Definition is_zero (d : decimal) : bool := (d_coef d =? 0)%N.
Definition is_pos (d : decimal) : bool := negb (is_zero d) && negb (d_neg d).
Definition is_neg (d : decimal) : bool := negb (is_zero d) && d_neg d.

(** [a * b] *)
Definition mul (a b : decimal) : decimal :=
  fix_context (Dec (xorb (d_neg a) (d_neg b)) (d_coef a * d_coef b)
                   (d_exp a + d_exp b)).

(** The signed coefficient of [d] at the smaller exponent [e <= d_exp d]. *)
Definition align (d : decimal) (e : Z) : Z := scoef d * 10 ^ (d_exp d - e).

(** [a + b] and [a - b]: the exact sum at the smaller exponent, rounded.
    A zero sum is negative only when both operands are. *)
Definition add (a b : decimal) : decimal :=
  let e := Z.min (d_exp a) (d_exp b) in
  let s := align a e + align b e in
  let sg := if s =? 0 then d_neg a && d_neg b else s <? 0 in
  fix_context (Dec sg (Z.abs_N s) e).

Definition opp (a : decimal) : decimal :=
  Dec (negb (d_neg a)) (d_coef a) (d_exp a).

Definition sub (a b : decimal) : decimal := add a (opp b).

(** [a == b]: numeric equality, whatever the exponents. *)
Definition eqb (a b : decimal) : bool :=
  let e := Z.min (d_exp a) (d_exp b) in
  align a e =? align b e.

(** The rational number a decimal denotes. *)
Definition value (d : decimal) : Q :=
  inject_Z (scoef d) * Qpower (inject_Z 10) (d_exp d).

(** The coefficient has at most [prec] digits: rounding leaves it alone. *)
Definition fits (d : decimal) : Prop := (d_coef d < 10 ^ prec)%N.


End Dec.

(** ** [float]: IEEE 754 binary64, round to nearest even *)
Module Flt.

Definition float : Type := spec_float.

Definition fprec : Z := 53.
Definition femax : Z := 1024.

(** The binary64 number nearest to [(-1)^neg * c * 10^e]. *)
Definition of_triple (neg : bool) (c : N) (e : Z) : float :=
  match c with
  | N0 => S754_zero neg
  | Npos p =>
      if 0 <=? e then
        binary_round fprec femax neg (p * Z.to_pos (10 ^ e))%positive 0
      else
        let '(mz, ez, lz) :=
          SFdiv_core_binary fprec femax (Zpos p) 0 (10 ^ (- e)) 0 in
        binary_round_aux fprec femax neg mz ez lz
  end.

(** [float(s)] for a string [s]. *)
Definition of_string (s : string) : result float :=
  match Literal.parse s with
  | Some l => Ok (of_triple (Literal.neg l) (Literal.coef l) (Literal.exp10 l))
  | None => Raise ValueError
  end.

(** [float(d)] for a [Decimal]. *)
Definition of_decimal (d : Dec.decimal) : float :=
  of_triple (Dec.d_neg d) (Dec.d_coef d) (Dec.d_exp d).

(** [float(n)] for an int. *)
Definition of_Z (n : Z) : float := of_triple (n <? 0) (Z.abs_N n) 0.


(** [x == 0] *)
Definition is_zero (x : float) : bool := SFeqb x (S754_zero false).

(** [x / y] raises on a zero divisor. *)
Definition fdiv (x y : float) : result float :=
  if is_zero y then Raise ZeroDivisionError else Ok (SFdiv fprec femax x y).


End Flt.

(* ===================================================================== *)
(** * Canonical enums                                                     *)
(* ===================================================================== *)

(** The canonical enums are declared in [nexustrader/constants.py], which
    is not part of the sources at hand.  Each one lists the members the
    sources refer to; [Other] stands for any further member, by name. *)

Module OrderStatus.
Inductive t : Type :=
  | PENDING | ACCEPTED | PARTIALLY_FILLED | FILLED
  | CANCELING | CANCELED | EXPIRED | FAILED
  | Other (name : string).
#[global] Instance eq_dec : EqDecision t.
Proof. solve_decision. Defined.
End OrderStatus.

Module PositionSide.
Inductive t : Type := LONG | SHORT | FLAT | Other (name : string).
#[global] Instance eq_dec : EqDecision t.
Proof. solve_decision. Defined.
End PositionSide.

Module OrderSide.
Inductive t : Type := BUY | SELL | Other (name : string).
#[global] Instance eq_dec : EqDecision t.
Proof. solve_decision. Defined.
End OrderSide.

Module TimeInForce.
Inductive t : Type := GTC | IOC | FOK | Other (name : string).
#[global] Instance eq_dec : EqDecision t.
Proof. solve_decision. Defined.
End TimeInForce.

Module OrderType.
Inductive t : Type := LIMIT | MARKET | Other (name : string).
#[global] Instance eq_dec : EqDecision t.
Proof. solve_decision. Defined.
End OrderType.

Module KlineInterval.
Inductive t : Type :=
  | SECOND_1 | MINUTE_1 | MINUTE_3 | MINUTE_5 | MINUTE_15 | MINUTE_30
  | HOUR_1 | HOUR_4 | HOUR_6 | HOUR_12
  | DAY_1 | DAY_3 | WEEK_1 | MONTH_1
  | Other (name : string).
#[global] Instance eq_dec : EqDecision t.
Proof. solve_decision. Defined.
End KlineInterval.

(* ===================================================================== *)
(** * Binance constants ([tradebot/exchange/binance/constants.py])        *)
(* ===================================================================== *)

Module BinanceBusinessUnit.
Inductive t : Type := UM | CM.
#[global] Instance eq_dec : EqDecision t.
Proof. solve_decision. Defined.
End BinanceBusinessUnit.

Module BinanceTimeInForce.
Inductive t : Type := GTC | IOC | FOK | GTX | GTD | GTE_GTC.
#[global] Instance eq_dec : EqDecision t.
Proof. solve_decision. Defined.
End BinanceTimeInForce.

Module BinanceOrderSide.
Inductive t : Type := BUY | SELL.
#[global] Instance eq_dec : EqDecision t.
Proof. solve_decision. Defined.
End BinanceOrderSide.

Module BinanceOrderType.
Inductive t : Type :=
  | LIMIT | MARKET | STOP | STOP_LOSS | STOP_LOSS_LIMIT
  | TAKE_PROFIT | TAKE_PROFIT_LIMIT | LIMIT_MAKER
  | TRAILING_STOP_MARKET | TAKE_PROFIT_MARKET | STOP_MARKET.
#[global] Instance eq_dec : EqDecision t.
Proof. solve_decision. Defined.
End BinanceOrderType.

Module BinanceOrderStatus.
Inductive t : Type := NEW | PARTIALLY_FILLED | FILLED | CANCELED | EXPIRED.
#[global] Instance eq_dec : EqDecision t.
Proof. solve_decision. Defined.
End BinanceOrderStatus.

Module BinancePositionSide.
Inductive t : Type := BOTH | LONG | SHORT.
#[global] Instance eq_dec : EqDecision t.
Proof. solve_decision. Defined.
End BinancePositionSide.

Module BinanceAccountType.
Inductive t : Type :=
  | SPOT | MARGIN | ISOLATED_MARGIN | USD_M_FUTURE | COIN_M_FUTURE
  | PORTFOLIO_MARGIN | SPOT_TESTNET | USD_M_FUTURE_TESTNET
  | COIN_M_FUTURE_TESTNET.
#[global] Instance eq_dec : EqDecision t.
Proof. solve_decision. Defined.

Definition all : list t :=
  [SPOT; MARGIN; ISOLATED_MARGIN; USD_M_FUTURE; COIN_M_FUTURE;
   PORTFOLIO_MARGIN; SPOT_TESTNET; USD_M_FUTURE_TESTNET;
   COIN_M_FUTURE_TESTNET].

#[global, program] Instance finite : Finite t := {| enum := all |}.
Next Obligation. by apply (bool_decide_unpack _). Qed.
Next Obligation. by intros []; apply (bool_decide_unpack _). Qed.

(** [self in (a, b, ...)] *)
Definition mem (x : t) (l : list t) : bool := bool_decide (x ∈ l).

Definition is_spot (x : t) : bool := mem x [SPOT; SPOT_TESTNET].
Definition is_margin (x : t) : bool := mem x [MARGIN].
Definition is_isolated_margin (x : t) : bool := mem x [ISOLATED_MARGIN].
Definition is_isolated_margin_or_margin (x : t) : bool :=
  mem x [MARGIN; ISOLATED_MARGIN].
Definition is_spot_or_margin (x : t) : bool :=
  mem x [SPOT; MARGIN; ISOLATED_MARGIN; SPOT_TESTNET].
Definition is_future (x : t) : bool :=
  mem x [USD_M_FUTURE; COIN_M_FUTURE; USD_M_FUTURE_TESTNET;
         COIN_M_FUTURE_TESTNET].
Definition is_linear (x : t) : bool :=
  mem x [USD_M_FUTURE; USD_M_FUTURE_TESTNET].
Definition is_inverse (x : t) : bool :=
  mem x [COIN_M_FUTURE; COIN_M_FUTURE_TESTNET].
Definition is_portfolio_margin (x : t) : bool := mem x [PORTFOLIO_MARGIN].
Definition is_testnet (x : t) : bool :=
  mem x [SPOT_TESTNET; USD_M_FUTURE_TESTNET; COIN_M_FUTURE_TESTNET].
End BinanceAccountType.

(** [class BinanceEnumParser]: fixed tables, and their inverses built by
    the comprehension [{v: k for k, v in table.items()}]. *)
Module BinanceEnumParser.

Definition _binance_order_status_map
  : dict BinanceOrderStatus.t OrderStatus.t :=
  dict_of_items
    [(BinanceOrderStatus.NEW, OrderStatus.ACCEPTED);
     (BinanceOrderStatus.PARTIALLY_FILLED, OrderStatus.PARTIALLY_FILLED);
     (BinanceOrderStatus.FILLED, OrderStatus.FILLED);
     (BinanceOrderStatus.CANCELED, OrderStatus.CANCELED);
     (BinanceOrderStatus.EXPIRED, OrderStatus.EXPIRED)].

Definition _binance_position_side_map
  : dict BinancePositionSide.t PositionSide.t :=
  dict_of_items
    [(BinancePositionSide.LONG, PositionSide.LONG);
     (BinancePositionSide.SHORT, PositionSide.SHORT);
     (BinancePositionSide.BOTH, PositionSide.FLAT)].

Definition _binance_order_side_map
  : dict BinanceOrderSide.t OrderSide.t :=
  dict_of_items
    [(BinanceOrderSide.BUY, OrderSide.BUY);
     (BinanceOrderSide.SELL, OrderSide.SELL)].

Definition _binance_order_time_in_force_map
  : dict BinanceTimeInForce.t TimeInForce.t :=
  dict_of_items
    [(BinanceTimeInForce.IOC, TimeInForce.IOC);
     (BinanceTimeInForce.GTC, TimeInForce.GTC);
     (BinanceTimeInForce.FOK, TimeInForce.FOK)].

Definition _binance_order_type_map
  : dict BinanceOrderType.t OrderType.t :=
  dict_of_items
    [(BinanceOrderType.LIMIT, OrderType.LIMIT);
     (BinanceOrderType.MARKET, OrderType.MARKET)].

Definition _order_status_to_binance_map :=
  dict_invert _binance_order_status_map.
Definition _position_side_to_binance_map :=
  dict_invert _binance_position_side_map.
Definition _order_side_to_binance_map :=
  dict_invert _binance_order_side_map.
Definition _time_in_force_to_binance_map :=
  dict_invert _binance_order_time_in_force_map.
Definition _order_type_to_binance_map :=
  dict_invert _binance_order_type_map.

Definition parse_order_status (status : BinanceOrderStatus.t) :=
  dict_getitem _binance_order_status_map status.
Definition parse_position_side (side : BinancePositionSide.t) :=
  dict_getitem _binance_position_side_map side.
Definition parse_order_side (side : BinanceOrderSide.t) :=
  dict_getitem _binance_order_side_map side.
Definition parse_time_in_force (tif : BinanceTimeInForce.t) :=
  dict_getitem _binance_order_time_in_force_map tif.
Definition parse_order_type (order_type : BinanceOrderType.t) :=
  dict_getitem _binance_order_type_map order_type.

Definition to_binance_order_status (status : OrderStatus.t) :=
  dict_getitem _order_status_to_binance_map status.
Definition to_binance_position_side (side : PositionSide.t) :=
  dict_getitem _position_side_to_binance_map side.
Definition to_binance_order_side (side : OrderSide.t) :=
  dict_getitem _order_side_to_binance_map side.
Definition to_binance_time_in_force (tif : TimeInForce.t) :=
  dict_getitem _time_in_force_to_binance_map tif.
Definition to_binance_order_type (order_type : OrderType.t) :=
  dict_getitem _order_type_to_binance_map order_type.

End BinanceEnumParser.

(* ===================================================================== *)
(** * OKX constants ([nexustrader/exchange/okx/constants.py])             *)
(* ===================================================================== *)

Module OkxKlineInterval.
Inductive t : Type :=
  | SECOND_1 | MINUTE_1 | MINUTE_3 | MINUTE_5 | MINUTE_15 | MINUTE_30
  | HOUR_1 | HOUR_4 | HOUR_6 | HOUR_12
  | DAY_1 | DAY_3 | WEEK_1 | MONTH_1.
#[global] Instance eq_dec : EqDecision t.
Proof. solve_decision. Defined.
End OkxKlineInterval.

Module OkxPositionSide.
Inductive t : Type := LONG | SHORT | NET | NONE.
#[global] Instance eq_dec : EqDecision t.
Proof. solve_decision. Defined.

Definition parse_to_position_side (self : t) : result PositionSide.t :=
  if decide (self = NET) then Ok PositionSide.FLAT
  else if decide (self = LONG) then Ok PositionSide.LONG
  else if decide (self = SHORT) then Ok PositionSide.SHORT
  else Raise RuntimeError.
End OkxPositionSide.

Module OkxOrderSide.
Inductive t : Type := BUY | SELL.
#[global] Instance eq_dec : EqDecision t.
Proof. solve_decision. Defined.
End OkxOrderSide.

Module OkxOrderType.
Inductive t : Type :=
  | MARKET | LIMIT | POST_ONLY | FOK | IOC | OPTIMAL_LIMIT_IOC
  | MMP | MMP_AND_POST_ONLY.
#[global] Instance eq_dec : EqDecision t.
Proof. solve_decision. Defined.
End OkxOrderType.

Module OkxOrderStatus.
Inductive t : Type :=
  | CANCELED | LIVE | PARTIALLY_FILLED | FILLED | MMP_CANCELED.
#[global] Instance eq_dec : EqDecision t.
Proof. solve_decision. Defined.
End OkxOrderStatus.

Module OkxEnumParser.

Definition _okx_kline_interval_map
  : dict OkxKlineInterval.t KlineInterval.t :=
  dict_of_items
    [(OkxKlineInterval.SECOND_1, KlineInterval.SECOND_1);
     (OkxKlineInterval.MINUTE_1, KlineInterval.MINUTE_1);
     (OkxKlineInterval.MINUTE_3, KlineInterval.MINUTE_3);
     (OkxKlineInterval.MINUTE_5, KlineInterval.MINUTE_5);
     (OkxKlineInterval.MINUTE_15, KlineInterval.MINUTE_15);
     (OkxKlineInterval.MINUTE_30, KlineInterval.MINUTE_30);
     (OkxKlineInterval.HOUR_1, KlineInterval.HOUR_1);
     (OkxKlineInterval.HOUR_4, KlineInterval.HOUR_4);
     (OkxKlineInterval.HOUR_6, KlineInterval.HOUR_6);
     (OkxKlineInterval.HOUR_12, KlineInterval.HOUR_12);
     (OkxKlineInterval.DAY_1, KlineInterval.DAY_1);
     (OkxKlineInterval.DAY_3, KlineInterval.DAY_3);
     (OkxKlineInterval.WEEK_1, KlineInterval.WEEK_1);
     (OkxKlineInterval.MONTH_1, KlineInterval.MONTH_1)].

Definition _okx_order_status_map
  : dict OkxOrderStatus.t OrderStatus.t :=
  dict_of_items
    [(OkxOrderStatus.LIVE, OrderStatus.ACCEPTED);
     (OkxOrderStatus.PARTIALLY_FILLED, OrderStatus.PARTIALLY_FILLED);
     (OkxOrderStatus.FILLED, OrderStatus.FILLED);
     (OkxOrderStatus.CANCELED, OrderStatus.CANCELED)].

(** [OkxPositionSide.NONE] maps to Python's [None]. *)
Definition _okx_position_side_map
  : dict OkxPositionSide.t (option PositionSide.t) :=
  dict_of_items
    [(OkxPositionSide.NET, Some PositionSide.FLAT);
     (OkxPositionSide.LONG, Some PositionSide.LONG);
     (OkxPositionSide.SHORT, Some PositionSide.SHORT);
     (OkxPositionSide.NONE, None)].

Definition _okx_order_side_map : dict OkxOrderSide.t OrderSide.t :=
  dict_of_items
    [(OkxOrderSide.BUY, OrderSide.BUY);
     (OkxOrderSide.SELL, OrderSide.SELL)].

Definition _order_status_to_okx_map := dict_invert _okx_order_status_map.

Definition _position_side_to_okx_map
  : dict PositionSide.t OkxPositionSide.t :=
  dict_of_items
    [(PositionSide.FLAT, OkxPositionSide.NET);
     (PositionSide.LONG, OkxPositionSide.LONG);
     (PositionSide.SHORT, OkxPositionSide.SHORT)].

Definition _order_side_to_okx_map := dict_invert _okx_order_side_map.
Definition _kline_interval_to_okx_map :=
  dict_invert _okx_kline_interval_map.

Definition parse_kline_interval (interval : OkxKlineInterval.t) :=
  dict_getitem _okx_kline_interval_map interval.
Definition parse_order_status (status : OkxOrderStatus.t) :=
  dict_getitem _okx_order_status_map status.
Definition parse_position_side (side : OkxPositionSide.t) :=
  dict_getitem _okx_position_side_map side.
Definition parse_order_side (side : OkxOrderSide.t) :=
  dict_getitem _okx_order_side_map side.

Definition parse_order_type (ordType : OkxOrderType.t)
  : result OrderType.t :=
  match ordType with
  | OkxOrderType.MARKET => Ok OrderType.MARKET
  | OkxOrderType.LIMIT => Ok OrderType.LIMIT
  | OkxOrderType.IOC => Ok OrderType.LIMIT
  | OkxOrderType.FOK => Ok OrderType.LIMIT
  | OkxOrderType.POST_ONLY => Ok OrderType.LIMIT
  | _ => Raise NotImplementedError
  end.

Definition parse_time_in_force (ordType : OkxOrderType.t)
  : result TimeInForce.t :=
  match ordType with
  | OkxOrderType.MARKET => Ok TimeInForce.GTC
  | OkxOrderType.LIMIT => Ok TimeInForce.GTC
  | OkxOrderType.POST_ONLY => Ok TimeInForce.GTC
  | OkxOrderType.FOK => Ok TimeInForce.FOK
  | OkxOrderType.IOC => Ok TimeInForce.IOC
  | _ => Raise NotImplementedError
  end.

Definition to_okx_order_status (status : OrderStatus.t) :=
  dict_getitem _order_status_to_okx_map status.
Definition to_okx_position_side (side : PositionSide.t) :=
  dict_getitem _position_side_to_okx_map side.
Definition to_okx_order_side (side : OrderSide.t) :=
  dict_getitem _order_side_to_okx_map side.

Definition to_okx_order_type (order_type : OrderType.t)
    (time_in_force : TimeInForce.t) : result OkxOrderType.t :=
  if decide (order_type = OrderType.MARKET) then Ok OkxOrderType.MARKET
  else
    match time_in_force with
    | TimeInForce.GTC => Ok OkxOrderType.LIMIT
    | TimeInForce.FOK => Ok OkxOrderType.FOK
    | TimeInForce.IOC => Ok OkxOrderType.IOC
    | _ => Raise RuntimeError
    end.

Definition to_okx_kline_interval (interval : KlineInterval.t)
  : result OkxKlineInterval.t :=
  if negb (dict_mem _kline_interval_to_okx_map interval)
  then Raise KlineSupportedError
  else dict_getitem _kline_interval_to_okx_map interval.

End OkxEnumParser.

(* ===================================================================== *)
(** * Schema: the value types the connector and the EMS exchange          *)
(* ===================================================================== *)

Import Dec Flt.

(** A dynamically typed Python value, where the sources store values of
    several types in one slot (request parameters, a few order fields). *)
Inductive pyval : Type :=
  | PNone
  | PBool (b : bool)
  | PInt (n : Z)
  | PStr (s : string)
  | PDec (d : decimal)
  | PFloat (f : float).

#[global] Instance spec_float_eq_dec : EqDecision spec_float.
Proof. solve_decision. Defined.
#[global] Instance pyval_eq_dec : EqDecision pyval.
Proof. solve_decision. Defined.

(** [bool(v)] *)
Definition py_truthy (v : pyval) : bool :=
  match v with
  | PNone => false
  | PBool b => b
  | PInt n => negb (n =? 0)
  | PStr s => negb (bool_decide (s = ""))
  | PDec d => Dec.truthy d
  | PFloat f => negb (Flt.is_zero f)
  end.

(** The schema classes live in [nexustrader/schema.py] and
    [nexustrader/exchange/binance/schema.py], which are not part of the
    sources at hand; the records carry the fields the connector and the EMS
    read and write, typed by how they use them. *)

Module BinanceMarket.
Record t : Type := Build {
  id : string;
  spot : bool;
  margin : bool;
  linear : bool;
  inverse : bool;
  limits_cost_min : option float;
  limits_amount_min : option float;
}.
End BinanceMarket.

Module Order.
Record t : Type := Build {
  exchange : string;
  symbol : string;
  status : OrderStatus.t;
  id : option Z;
  amount : pyval;
  filled : option decimal;
  client_order_id : option string;
  timestamp : option Z;
  type : option OrderType.t;
  side : option OrderSide.t;
  time_in_force : option TimeInForce.t;
  price : pyval;
  average : pyval;
  last_filled_price : option float;
  last_filled : option float;
  remaining : option decimal;
  fee : option decimal;
  fee_currency : option string;
  cum_cost : option decimal;
  cost : option decimal;
  reduce_only : option bool;
  position_side : option PositionSide.t;
}.
End Order.

Module Position.
Record t : Type := Build {
  symbol : string;
  exchange : string;
  signed_amount : decimal;
  side : option PositionSide.t;
  entry_price : float;
  unrealized_pnl : float;
  realized_pnl : option float;
}.
End Position.

Module Balance.
Record t : Type := Build { asset : string; free : decimal; locked : decimal }.
End Balance.

(** [ORDER_TRADE_UPDATE]: the futures order event. *)
Module BinanceFuturesOrderData.
Record t : Type := Build {
  s : string;
  c : string;
  S : BinanceOrderSide.t;
  o : BinanceOrderType.t;
  f : BinanceTimeInForce.t;
  q : string;
  p : string;
  ap : string;
  X : BinanceOrderStatus.t;
  i : Z;
  l : string;
  z : string;
  L : string;
  n : string;
  N : option string;
  R : bool;
  ps : BinancePositionSide.t;
}.
End BinanceFuturesOrderData.

Module BinanceFuturesOrderUpdateMsg.
Record t : Type := Build {
  E : Z;
  fs : option BinanceBusinessUnit.t;
  o : BinanceFuturesOrderData.t;
}.
End BinanceFuturesOrderUpdateMsg.

(** [executionReport]: the spot order event. *)
Module BinanceSpotOrderUpdateMsg.
Record t : Type := Build {
  E : Z;
  s : string;
  c : string;
  S : BinanceOrderSide.t;
  o : BinanceOrderType.t;
  f : BinanceTimeInForce.t;
  q : string;
  p : string;
  X : BinanceOrderStatus.t;
  i : Z;
  l : string;
  z : string;
  L : string;
  n : string;
  N : option string;
  Z_ : string;   (* field [Z], cumulative quote quantity *)
  Y : string;
}.
End BinanceSpotOrderUpdateMsg.

(** [ACCOUNT_UPDATE]: one position entry of the futures account event. *)
Module BinanceFuturesPositionData.
Record t : Type := Build {
  s : string;
  pa : string;
  ps : BinancePositionSide.t;
  ep : string;
  up : string;
  cr : string;
}.
End BinanceFuturesPositionData.

(** [a_balances] is what [res.a.parse_to_balances()] returns. *)
Module BinanceFuturesUpdateMsg.
Record t : Type := Build {
  fs : option BinanceBusinessUnit.t;
  a_balances : list Balance.t;
  a_P : list BinanceFuturesPositionData.t;
}.
End BinanceFuturesUpdateMsg.

(** One position entry of the REST account snapshot. *)
Module BinanceFuturesPositionInfo.
Record t : Type := Build {
  symbol : string;
  positionSide : BinancePositionSide.t;
  positionAmt : string;
  entryPrice : string;
  unrealizedProfit : string;
}.
End BinanceFuturesPositionInfo.

(** The REST account snapshot; [balances] is what [parse_to_balances()]
    returns, [positions] is absent from the spot answer. *)
Module BinanceAccountInfo.
Record t : Type := Build {
  balances : list Balance.t;
  positions : option (list BinanceFuturesPositionInfo.t);
}.
End BinanceAccountInfo.

(** The REST answer to an order request. *)
Module BinanceOrder.
Record t : Type := Build {
  orderId : Z;
  clientOrderId : string;
  updateTime : Z;
  price : option string;
  avgPrice : option string;
  origQty : option string;
  executedQty : option string;
  type : option BinanceOrderType.t;
  side : option BinanceOrderSide.t;
  timeInForce : option BinanceTimeInForce.t;
  reduceOnly : option bool;
  positionSide : option BinancePositionSide.t;
}.
End BinanceOrder.

(** The [.value] of the native enum members sent as request parameters. *)
Definition BinanceOrderSide_value (x : BinanceOrderSide.t) : string :=
  match x with
  | BinanceOrderSide.BUY => "BUY"
  | BinanceOrderSide.SELL => "SELL"
  end.

Definition BinanceOrderType_value (x : BinanceOrderType.t) : string :=
  match x with
  | BinanceOrderType.LIMIT => "LIMIT"
  | BinanceOrderType.MARKET => "MARKET"
  | BinanceOrderType.STOP => "STOP"
  | BinanceOrderType.STOP_LOSS => "STOP_LOSS"
  | BinanceOrderType.STOP_LOSS_LIMIT => "STOP_LOSS_LIMIT"
  | BinanceOrderType.TAKE_PROFIT => "TAKE_PROFIT"
  | BinanceOrderType.TAKE_PROFIT_LIMIT => "TAKE_PROFIT_LIMIT"
  | BinanceOrderType.LIMIT_MAKER => "LIMIT_MAKER"
  | BinanceOrderType.TRAILING_STOP_MARKET => "TRAILING_STOP_MARKET"
  | BinanceOrderType.TAKE_PROFIT_MARKET => "TAKE_PROFIT_MARKET"
  | BinanceOrderType.STOP_MARKET => "STOP_MARKET"
  end.

Definition BinanceTimeInForce_value (x : BinanceTimeInForce.t) : string :=
  match x with
  | BinanceTimeInForce.GTC => "GTC"
  | BinanceTimeInForce.IOC => "IOC"
  | BinanceTimeInForce.FOK => "FOK"
  | BinanceTimeInForce.GTX => "GTX"
  | BinanceTimeInForce.GTD => "GTD"
  | BinanceTimeInForce.GTE_GTC => "GTE_GTC"
  end.

Definition BinancePositionSide_value (x : BinancePositionSide.t) : string :=
  match x with
  | BinancePositionSide.BOTH => "BOTH"
  | BinancePositionSide.LONG => "LONG"
  | BinancePositionSide.SHORT => "SHORT"
  end.

(** Modelled from the spec: [BinancePositionSide.parse_to_position_side]
    is declared in [nexustrader/exchange/binance/constants.py], which is
    not part of the sources at hand.  The netted "both" side is the
    canonical [FLAT], as in [_binance_position_side_map] and in the
    sibling [OkxPositionSide.parse_to_position_side]. *)
Definition BinancePositionSide_parse_to_position_side
    (self : BinancePositionSide.t) : result PositionSide.t :=
  if decide (self = BinancePositionSide.BOTH) then Ok PositionSide.FLAT
  else if decide (self = BinancePositionSide.LONG) then Ok PositionSide.LONG
  else if decide (self = BinancePositionSide.SHORT) then Ok PositionSide.SHORT
  else Raise RuntimeError.

(* ===================================================================== *)
(** * The Binance private connector                                       *)
(**   ([nexustrader/exchange/binance/connector.py])                       *)
(* ===================================================================== *)

Module BinancePrivateConnector.

(** The REST endpoints of [BinanceApiClient] the connector calls. *)
Inductive endpoint : Type :=
  | post_api_v3_order | post_sapi_v1_margin_order | post_fapi_v1_order
  | post_dapi_v1_order | post_papi_v1_margin_order | post_papi_v1_um_order
  | post_papi_v1_cm_order
  | delete_api_v3_order | delete_sapi_v1_margin_order | delete_fapi_v1_order
  | delete_dapi_v1_order | delete_papi_v1_margin_order
  | delete_papi_v1_um_order | delete_papi_v1_cm_order
  | get_api_v3_account | get_fapi_v2_account | get_dapi_v1_account.

Definition params : Type := dict string pyval.

(** What the connector is built from and does not change.  The REST
    transport is an oracle: any answer or exception per request.
    [is_market], [is_limit], [parse_futures_order_type] and
    [parse_spot_order_type] belong to
    [nexustrader/exchange/binance/constants.py], which is not part of the
    sources at hand: they are taken as given. *)
Record env : Type := Env {
  _account_type : BinanceAccountType.t;
  _market : gmap string BinanceMarket.t;
  _market_id : gmap string string;
  _exchange_id : string;
  _limiter : bool;
  api_order : endpoint -> params -> result BinanceOrder.t;
  api_account : endpoint -> result BinanceAccountInfo.t;
  clock_timestamp_ms : Z;
  is_market : BinanceOrderType.t -> bool;
  is_limit : BinanceOrderType.t -> bool;
  parse_futures_order_type : BinanceOrderType.t -> result OrderType.t;
  parse_spot_order_type : BinanceOrderType.t -> result OrderType.t;
}.

(** Modelled from the spec: the async cache ([nexustrader/core/cache.py])
    is not part of the sources at hand.  [_apply_balance] replaces the
    wallet of an account type wholesale; [_apply_position] upserts by
    (symbol, exchange). *)
Record cache : Type := Cache {
  balances : gmap BinanceAccountType.t (list Balance.t);
  positions : gmap (string * string) Position.t;
}.

(** What a call can change: the cache, the messages published on the
    bus, the REST requests sent, the error log, the rate limiter. *)
Record state : Type := State {
  st_cache : cache;
  st_published : list (string * Order.t);
  st_rest_calls : list (endpoint * params);
  st_errors : list string;
  st_limiter_acquired : nat;
}.

Definition initial_state : state :=
  State (Cache ∅ ∅) [] [] [] 0.

(** Connector code: it reads and writes the state and returns a value or
    raises; what it wrote before raising stays written. *)
Definition M (A : Type) : Type := state -> result A * state.

#[global] Instance M_ret : MRet M := fun _ a st => (Ok a, st).
#[global] Instance M_bind : MBind M := fun _ _ k m st =>
  match m st with
  | (Ok a, st') => k a st'
  | (Raise e, st') => (Raise e, st')
  end.

Definition raise {A} (e : exn) : M A := fun st => (Raise e, st).

Definition lift {A} (r : result A) : M A := fun st => (r, st).

(** [try: body except Exception as e: handler(e)] *)
Definition try_except {A} (body : M A) (handler : exn -> M A) : M A :=
  fun st =>
    match body st with
    | (Ok a, st') => (Ok a, st')
    | (Raise e, st') => handler e st'
    end.

Definition _apply_balance (account_type : BinanceAccountType.t)
    (bs : list Balance.t) : M unit := fun st =>
  (Ok tt,
   State (Cache (<[account_type := bs]> (balances (st_cache st)))
                (positions (st_cache st)))
         (st_published st) (st_rest_calls st) (st_errors st)
         (st_limiter_acquired st)).

Definition _apply_position (position : Position.t) : M unit := fun st =>
  (Ok tt,
   State (Cache (balances (st_cache st))
                (<[(Position.symbol position, Position.exchange position)
                   := position]> (positions (st_cache st))))
         (st_published st) (st_rest_calls st) (st_errors st)
         (st_limiter_acquired st)).

(** [self._msgbus.publish(topic=..., msg=order)] *)
Definition publish (topic : string) (msg : Order.t) : M unit := fun st =>
  (Ok tt,
   State (st_cache st) (st_published st ++ [(topic, msg)])
         (st_rest_calls st) (st_errors st) (st_limiter_acquired st)).

(** [self._log.error(...)] *)
Definition log_error (what : string) : M unit := fun st =>
  (Ok tt,
   State (st_cache st) (st_published st) (st_rest_calls st)
         (st_errors st ++ [what]) (st_limiter_acquired st)).

(** [if self._limiter: await self._limiter.acquire()] *)
Definition limiter_acquire (E : env) : M unit := fun st =>
  if _limiter E then
    (Ok tt,
     State (st_cache st) (st_published st) (st_rest_calls st)
           (st_errors st) (S (st_limiter_acquired st)))
  else (Ok tt, st).

(** [await self._api_client.<endpoint>] with the request parameters. *)
Definition rest_order (E : env) (ep : endpoint) (ps : params)
  : M BinanceOrder.t := fun st =>
  (api_order E ep ps,
   State (st_cache st) (st_published st) (st_rest_calls st ++ [(ep, ps)])
         (st_errors st) (st_limiter_acquired st)).

Definition rest_account (E : env) (ep : endpoint)
  : M BinanceAccountInfo.t := fun st =>
  (api_account E ep,
   State (st_cache st) (st_published st) (st_rest_calls st ++ [(ep, [])])
         (st_errors st) (st_limiter_acquired st)).

Section Connector.
Variable E : env.

(** The [market_type] property; it falls off its end, returning
    [None], for the margin and portfolio-margin account types. *)
Definition market_type : option string :=
  if BinanceAccountType.is_spot (_account_type E) then Some "_spot"
  else if BinanceAccountType.is_linear (_account_type E) then Some "_linear"
  else if BinanceAccountType.is_inverse (_account_type E)
  then Some "_inverse"
  else None.

(** [self._market_id[id]] *)
Definition market_id_getitem (id : string) : result string :=
  match _market_id E !! id with
  | Some symbol => Ok symbol
  | None => Raise KeyError
  end.

(** [s + self.market_type] *)
Definition add_market_type (s : string) : result string :=
  match market_type with
  | Some suffix => Ok (s +:+ suffix)
  | None => Raise TypeError
  end.

(** The symbol of an event of business unit [event_unit]: only
    portfolio margin has "UM" and "CM". *)
Definition event_symbol (event_unit : option BinanceBusinessUnit.t)
    (s : string) : result string :=
  match event_unit with
  | Some BinanceBusinessUnit.UM => market_id_getitem (s +:+ "_linear")
  | Some BinanceBusinessUnit.CM => market_id_getitem (s +:+ "_inverse")
  | None => id ← add_market_type s; market_id_getitem id
  end.

(** The side of a position, recomputed from the signed amount. *)
Definition position_side_of (signed_amount : decimal)
    (side : PositionSide.t) : option PositionSide.t :=
  if Dec.is_zero signed_amount then None
  else if decide (side = PositionSide.FLAT) then
    if Dec.is_pos signed_amount then Some PositionSide.LONG
    else if Dec.is_neg signed_amount then Some PositionSide.SHORT
    else Some side
  else Some side.

(** ** [_init_account_balance] *)

Definition position_of_info (position : BinanceFuturesPositionInfo.t)
  : result Position.t :=
  id ← add_market_type (BinanceFuturesPositionInfo.symbol position);
  symbol ← market_id_getitem id;
  side ← BinancePositionSide_parse_to_position_side
            (BinanceFuturesPositionInfo.positionSide position);
  signed_amount ← Decimal (BinanceFuturesPositionInfo.positionAmt position);
  let side := position_side_of signed_amount side in
  entry_price ← Flt.of_string (BinanceFuturesPositionInfo.entryPrice position);
  unrealized_pnl ←
    Flt.of_string (BinanceFuturesPositionInfo.unrealizedProfit position);
  Ok (Position.Build symbol (_exchange_id E) signed_amount side
                     entry_price unrealized_pnl None).

Fixpoint init_positions (l : list BinanceFuturesPositionInfo.t) : M unit :=
  match l with
  | [] => mret tt
  | position :: l' =>
      p ← lift (position_of_info position);
      _apply_position p;;
      init_positions l'
  end.

Definition _init_account_balance : M unit :=
  let a := _account_type E in
  res ←
    (if BinanceAccountType.is_spot a
        || BinanceAccountType.is_isolated_margin_or_margin a
     then r ← rest_account E get_api_v3_account; mret (Some r)
     else if BinanceAccountType.is_linear a
     then r ← rest_account E get_fapi_v2_account; mret (Some r)
     else if BinanceAccountType.is_inverse a
     then r ← rest_account E get_dapi_v1_account; mret (Some r)
     else mret None);
  match res with
  | None => raise UnboundLocalError
  | Some res =>
      _apply_balance a (BinanceAccountInfo.balances res);;
      if BinanceAccountType.is_linear a || BinanceAccountType.is_inverse a
      then
        match BinanceAccountInfo.positions res with
        | Some ps => init_positions ps
        | None => raise AttributeError
        end
      else mret tt
  end.

(** ** [_parse_account_update] *)

Definition position_of_update (event_unit : option BinanceBusinessUnit.t)
    (position : BinanceFuturesPositionData.t) : result Position.t :=
  symbol ← event_symbol event_unit (BinanceFuturesPositionData.s position);
  signed_amount ← Decimal (BinanceFuturesPositionData.pa position);
  side ← BinancePositionSide_parse_to_position_side
            (BinanceFuturesPositionData.ps position);
  let side := position_side_of signed_amount side in
  entry_price ← Flt.of_string (BinanceFuturesPositionData.ep position);
  unrealized_pnl ← Flt.of_string (BinanceFuturesPositionData.up position);
  realized_pnl ← Flt.of_string (BinanceFuturesPositionData.cr position);
  Ok (Position.Build symbol (_exchange_id E) signed_amount side
                     entry_price unrealized_pnl (Some realized_pnl)).

Fixpoint apply_positions (event_unit : option BinanceBusinessUnit.t)
    (l : list BinanceFuturesPositionData.t) : M unit :=
  match l with
  | [] => mret tt
  | position :: l' =>
      p ← lift (position_of_update event_unit position);
      _apply_position p;;
      apply_positions event_unit l'
  end.

Definition _parse_account_update (res : BinanceFuturesUpdateMsg.t)
  : M unit :=
  _apply_balance (_account_type E) (BinanceFuturesUpdateMsg.a_balances res);;
  apply_positions (BinanceFuturesUpdateMsg.fs res)
                  (BinanceFuturesUpdateMsg.a_P res).

(** ** [_parse_order_trade_update] *)

(** [cost] and [cum_cost], from the last filled quantity; both stay
    unbound when the order type is neither market nor limit. *)
Definition order_trade_costs (event_data : BinanceFuturesOrderData.t)
  : result (option (decimal * decimal)) :=
  let type := BinanceFuturesOrderData.o event_data in
  if is_market E type then
    l ← Decimal (BinanceFuturesOrderData.l event_data);
    ap ← Decimal (BinanceFuturesOrderData.ap event_data);
    let cost := Dec.mul l ap in
    z ← Decimal (BinanceFuturesOrderData.z event_data);
    ap' ← Decimal (BinanceFuturesOrderData.ap event_data);
    let cum_cost := Dec.mul z ap' in
    Ok (Some (cost, cum_cost))
  else if is_limit E type then
    ap ← Decimal (BinanceFuturesOrderData.ap event_data);
    price ← (if Dec.truthy ap then Ok ap
             else Decimal (BinanceFuturesOrderData.p event_data));
    l ← Decimal (BinanceFuturesOrderData.l event_data);
    let cost := Dec.mul l price in
    z ← Decimal (BinanceFuturesOrderData.z event_data);
    let cum_cost := Dec.mul z price in
    Ok (Some (cost, cum_cost))
  else Ok None.

Definition order_of_order_trade_update
    (res : BinanceFuturesOrderUpdateMsg.t) : result Order.t :=
  let event_data := BinanceFuturesOrderUpdateMsg.o res in
  let event_unit := BinanceFuturesOrderUpdateMsg.fs res in
  symbol ← event_symbol event_unit (BinanceFuturesOrderData.s event_data);
  costs ← order_trade_costs event_data;
  status ← BinanceEnumParser.parse_order_status
              (BinanceFuturesOrderData.X event_data);
  amount ← Decimal (BinanceFuturesOrderData.q event_data);
  filled ← Decimal (BinanceFuturesOrderData.z event_data);
  type ← parse_futures_order_type E (BinanceFuturesOrderData.o event_data);
  side ← BinanceEnumParser.parse_order_side
            (BinanceFuturesOrderData.S event_data);
  time_in_force ← BinanceEnumParser.parse_time_in_force
                     (BinanceFuturesOrderData.f event_data);
  price ← Flt.of_string (BinanceFuturesOrderData.p event_data);
  average ← Flt.of_string (BinanceFuturesOrderData.ap event_data);
  last_filled_price ← Flt.of_string (BinanceFuturesOrderData.L event_data);
  last_filled ← Flt.of_string (BinanceFuturesOrderData.l event_data);
  q ← Decimal (BinanceFuturesOrderData.q event_data);
  z ← Decimal (BinanceFuturesOrderData.z event_data);
  let remaining := Dec.sub q z in
  fee ← Decimal (BinanceFuturesOrderData.n event_data);
  '(cost, cum_cost) ←
      match costs with
      | Some cc => Ok cc
      | None => Raise UnboundLocalError
      end;
  position_side ← BinanceEnumParser.parse_position_side
                     (BinanceFuturesOrderData.ps event_data);
  Ok {| Order.exchange := _exchange_id E;
        Order.symbol := symbol;
        Order.status := status;
        Order.id := Some (BinanceFuturesOrderData.i event_data);
        Order.amount := PDec amount;
        Order.filled := Some filled;
        Order.client_order_id := Some (BinanceFuturesOrderData.c event_data);
        Order.timestamp := Some (BinanceFuturesOrderUpdateMsg.E res);
        Order.type := Some type;
        Order.side := Some side;
        Order.time_in_force := Some time_in_force;
        Order.price := PFloat price;
        Order.average := PFloat average;
        Order.last_filled_price := Some last_filled_price;
        Order.last_filled := Some last_filled;
        Order.remaining := Some remaining;
        Order.fee := Some fee;
        Order.fee_currency := BinanceFuturesOrderData.N event_data;
        Order.cum_cost := Some cum_cost;
        Order.cost := Some cost;
        Order.reduce_only := Some (BinanceFuturesOrderData.R event_data);
        Order.position_side := Some position_side |}.

Definition _parse_order_trade_update
    (res : BinanceFuturesOrderUpdateMsg.t) : M unit :=
  order ← lift (order_of_order_trade_update res);
  publish "binance.order" order.

(** ** [_parse_execution_report] *)

(** [float(Z) / float(z) if float(z) != 0 else None] *)
Definition execution_average (event_data : BinanceSpotOrderUpdateMsg.t)
  : result (option float) :=
  z ← Flt.of_string (BinanceSpotOrderUpdateMsg.z event_data);
  if negb (Flt.is_zero z) then
    Z ← Flt.of_string (BinanceSpotOrderUpdateMsg.Z_ event_data);
    z' ← Flt.of_string (BinanceSpotOrderUpdateMsg.z event_data);
    avg ← Flt.fdiv Z z';
    Ok (Some avg)
  else Ok None.

Definition order_of_execution_report
    (event_data : BinanceSpotOrderUpdateMsg.t) : result Order.t :=
  id ← add_market_type (BinanceSpotOrderUpdateMsg.s event_data);
  symbol ← market_id_getitem id;
  average ← execution_average event_data;
  status ← BinanceEnumParser.parse_order_status
              (BinanceSpotOrderUpdateMsg.X event_data);
  amount ← Decimal (BinanceSpotOrderUpdateMsg.q event_data);
  filled ← Decimal (BinanceSpotOrderUpdateMsg.z event_data);
  type ← parse_spot_order_type E (BinanceSpotOrderUpdateMsg.o event_data);
  side ← BinanceEnumParser.parse_order_side
            (BinanceSpotOrderUpdateMsg.S event_data);
  time_in_force ← BinanceEnumParser.parse_time_in_force
                     (BinanceSpotOrderUpdateMsg.f event_data);
  price ← Flt.of_string (BinanceSpotOrderUpdateMsg.p event_data);
  last_filled_price ← Flt.of_string (BinanceSpotOrderUpdateMsg.L event_data);
  last_filled ← Flt.of_string (BinanceSpotOrderUpdateMsg.l event_data);
  q ← Decimal (BinanceSpotOrderUpdateMsg.q event_data);
  z ← Decimal (BinanceSpotOrderUpdateMsg.z event_data);
  let remaining := Dec.sub q z in
  fee ← Decimal (BinanceSpotOrderUpdateMsg.n event_data);
  cum_cost ← Decimal (BinanceSpotOrderUpdateMsg.Z_ event_data);
  cost ← Decimal (BinanceSpotOrderUpdateMsg.Y event_data);
  Ok {| Order.exchange := _exchange_id E;
        Order.symbol := symbol;
        Order.status := status;
        Order.id := Some (BinanceSpotOrderUpdateMsg.i event_data);
        Order.amount := PDec amount;
        Order.filled := Some filled;
        Order.client_order_id := Some (BinanceSpotOrderUpdateMsg.c event_data);
        Order.timestamp := Some (BinanceSpotOrderUpdateMsg.E event_data);
        Order.type := Some type;
        Order.side := Some side;
        Order.time_in_force := Some time_in_force;
        Order.price := PFloat price;
        Order.average :=
          match average with Some a => PFloat a | None => PNone end;
        Order.last_filled_price := Some last_filled_price;
        Order.last_filled := Some last_filled;
        Order.remaining := Some remaining;
        Order.fee := Some fee;
        Order.fee_currency := BinanceSpotOrderUpdateMsg.N event_data;
        Order.cum_cost := Some cum_cost;
        Order.cost := Some cost;
        Order.reduce_only := None;
        Order.position_side := None |}.

Definition _parse_execution_report
    (event_data : BinanceSpotOrderUpdateMsg.t) : M unit :=
  order ← lift (order_of_execution_report event_data);
  publish "binance.order" order.

(** ** [_execute_order_request] and [_execute_cancel_order_request] *)

(** The answer is [None] where the Python function falls off its end. *)
Definition _execute_order_request (market : BinanceMarket.t)
    (symbol : string) (ps : params) : M (option BinanceOrder.t) :=
  let a := _account_type E in
  if BinanceAccountType.is_spot a then
    if negb (BinanceMarket.spot market) then raise ValueError
    else r ← rest_order E post_api_v3_order ps; mret (Some r)
  else if BinanceAccountType.is_isolated_margin_or_margin a then
    if negb (BinanceMarket.margin market) then raise ValueError
    else r ← rest_order E post_sapi_v1_margin_order ps; mret (Some r)
  else if BinanceAccountType.is_linear a then
    if negb (BinanceMarket.linear market) then raise ValueError
    else r ← rest_order E post_fapi_v1_order ps; mret (Some r)
  else if BinanceAccountType.is_inverse a then
    if negb (BinanceMarket.inverse market) then raise ValueError
    else r ← rest_order E post_dapi_v1_order ps; mret (Some r)
  else if BinanceAccountType.is_portfolio_margin a then
    if BinanceMarket.margin market
    then r ← rest_order E post_papi_v1_margin_order ps; mret (Some r)
    else if BinanceMarket.linear market
    then r ← rest_order E post_papi_v1_um_order ps; mret (Some r)
    else if BinanceMarket.inverse market
    then r ← rest_order E post_papi_v1_cm_order ps; mret (Some r)
    else mret None
  else mret None.

Definition _execute_cancel_order_request (market : BinanceMarket.t)
    (symbol : string) (ps : params) : M (option BinanceOrder.t) :=
  let a := _account_type E in
  if BinanceAccountType.is_spot a then
    if negb (BinanceMarket.spot market) then raise ValueError
    else r ← rest_order E delete_api_v3_order ps; mret (Some r)
  else if BinanceAccountType.is_isolated_margin_or_margin a then
    if negb (BinanceMarket.margin market) then raise ValueError
    else r ← rest_order E delete_sapi_v1_margin_order ps; mret (Some r)
  else if BinanceAccountType.is_linear a then
    if negb (BinanceMarket.linear market) then raise ValueError
    else r ← rest_order E delete_fapi_v1_order ps; mret (Some r)
  else if BinanceAccountType.is_inverse a then
    if negb (BinanceMarket.inverse market) then raise ValueError
    else r ← rest_order E delete_dapi_v1_order ps; mret (Some r)
  else if BinanceAccountType.is_portfolio_margin a then
    if BinanceMarket.margin market
    then r ← rest_order E delete_papi_v1_margin_order ps; mret (Some r)
    else if BinanceMarket.linear market
    then r ← rest_order E delete_papi_v1_um_order ps; mret (Some r)
    else if BinanceMarket.inverse market
    then r ← rest_order E delete_papi_v1_cm_order ps; mret (Some r)
    else mret None
  else mret None.

(** [res.<field>] on the answer; [None] has no fields. *)
Definition answer (res : option BinanceOrder.t) : result BinanceOrder.t :=
  match res with
  | Some r => Ok r
  | None => Raise AttributeError
  end.

(** [float(x) if x else None] on an optional string. *)
Definition float_if (x : option string) : result pyval :=
  match x with
  | Some s => if bool_decide (s = "") then Ok PNone
              else f ← Flt.of_string s; Ok (PFloat f)
  | None => Ok PNone
  end.

(** [parse_position_side(x) if x else None] *)
Definition position_side_if (x : option BinancePositionSide.t)
  : result (option PositionSide.t) :=
  match x with
  | Some ps => r ← BinanceEnumParser.parse_position_side ps; Ok (Some r)
  | None => Ok None
  end.

(** ** [create_order] *)

(** [kwargs.pop("reduceOnly", False) or kwargs.pop("reduce_only", False)]:
    the second pop runs only when the first value is falsy. *)
Definition pop_reduce_only (kwargs : params) : pyval * params :=
  let '(v1, kwargs1) := dict_pop kwargs "reduceOnly" (PBool false) in
  if py_truthy v1 then (v1, kwargs1)
  else dict_pop kwargs1 "reduce_only" (PBool false).

(** The request parameters, up to [params.update(kwargs)]. *)
Definition create_order_params (market : BinanceMarket.t)
    (side : OrderSide.t) (type : OrderType.t) (amount : decimal)
    (price : option decimal) (time_in_force : TimeInForce.t)
    (position_side : option PositionSide.t) (kwargs : params)
  : result params :=
  bside ← BinanceEnumParser.to_binance_order_side side;
  btype ← BinanceEnumParser.to_binance_order_type type;
  let ps : params :=
    dict_of_items
      [("symbol", PStr (BinanceMarket.id market));
       ("side", PStr (BinanceOrderSide_value bside));
       ("type", PStr (BinanceOrderType_value btype));
       ("quantity", PDec amount)] in
  ps ← (if decide (type = OrderType.LIMIT) then
          match price with
          | Some pr =>
              if negb (Dec.truthy pr) then Raise ValueError
              else
                let ps := dict_set ps "price" (PDec pr) in
                tif ← BinanceEnumParser.to_binance_time_in_force
                         time_in_force;
                Ok (dict_set ps "timeInForce"
                             (PStr (BinanceTimeInForce_value tif)))
          | None => Raise ValueError
          end
        else Ok ps);
  ps ← match position_side with
       | Some s =>
           bps ← BinanceEnumParser.to_binance_position_side s;
           Ok (dict_set ps "positionSide"
                        (PStr (BinancePositionSide_value bps)))
       | None => Ok ps
       end;
  let '(reduce_only, kwargs) := pop_reduce_only kwargs in
  let ps := if py_truthy reduce_only
            then dict_set ps "reduceOnly" (PBool true) else ps in
  Ok (dict_update ps kwargs).

(** The order built from the REST acknowledgment. *)
Definition pending_order (symbol : string) (side : OrderSide.t)
    (type : OrderType.t) (amount : decimal)
    (time_in_force : TimeInForce.t) (res : option BinanceOrder.t)
  : result Order.t :=
  r ← answer res;
  price ← float_if (BinanceOrder.price r);
  average ← float_if (BinanceOrder.avgPrice r);
  position_side ← position_side_if (BinanceOrder.positionSide r);
  Ok {| Order.exchange := _exchange_id E;
        Order.symbol := symbol;
        Order.status := OrderStatus.PENDING;
        Order.id := Some (BinanceOrder.orderId r);
        Order.amount := PDec amount;
        Order.filled := Some (Dec.of_Z 0);
        Order.client_order_id := Some (BinanceOrder.clientOrderId r);
        Order.timestamp := Some (BinanceOrder.updateTime r);
        Order.type := Some type;
        Order.side := Some side;
        Order.time_in_force := Some time_in_force;
        Order.price := price;
        Order.average := average;
        Order.last_filled_price := None;
        Order.last_filled := None;
        Order.remaining := Some amount;
        Order.fee := None;
        Order.fee_currency := None;
        Order.cum_cost := None;
        Order.cost := None;
        Order.reduce_only :=
          match BinanceOrder.reduceOnly r with
          | Some true => Some true
          | _ => None
          end;
        Order.position_side := position_side |}.

(** The synthetic order of the [except] branch. *)
Definition failed_order (symbol : string) (side : OrderSide.t)
    (type : OrderType.t) (amount : decimal) (price : option decimal)
    (time_in_force : TimeInForce.t)
    (position_side : option PositionSide.t) : Order.t :=
  {| Order.exchange := _exchange_id E;
     Order.symbol := symbol;
     Order.status := OrderStatus.FAILED;
     Order.id := None;
     Order.amount := PDec amount;
     Order.filled := Some (Dec.of_Z 0);
     Order.client_order_id := None;
     Order.timestamp := Some (clock_timestamp_ms E);
     Order.type := Some type;
     Order.side := Some side;
     Order.time_in_force := Some time_in_force;
     Order.price :=
       match price with
       | Some pr => if Dec.truthy pr then PFloat (Flt.of_decimal pr)
                    else PNone
       | None => PNone
       end;
     Order.average := PNone;
     Order.last_filled_price := None;
     Order.last_filled := None;
     Order.remaining := Some amount;
     Order.fee := None;
     Order.fee_currency := None;
     Order.cum_cost := None;
     Order.cost := None;
     Order.reduce_only := None;
     Order.position_side := position_side |}.

(** The body of the [try]: the REST dispatch, then the order built
    from its answer. *)
Definition create_order_attempt (market : BinanceMarket.t)
    (symbol : string) (side : OrderSide.t) (type : OrderType.t)
    (amount : decimal) (time_in_force : TimeInForce.t) (ps : params)
  : M Order.t :=
  res ← _execute_order_request market symbol ps;
  lift (pending_order symbol side type amount time_in_force res).

Definition create_order (symbol : string) (side : OrderSide.t)
    (type : OrderType.t) (amount : decimal) (price : option decimal)
    (time_in_force : TimeInForce.t)
    (position_side : option PositionSide.t) (kwargs : params)
  : M Order.t :=
  limiter_acquire E;;
  match _market E !! symbol with
  | None => raise ValueError
  | Some market =>
      ps ← lift (create_order_params market side type amount price
                                      time_in_force position_side kwargs);
      try_except
        (create_order_attempt market symbol side type amount
                              time_in_force ps)
        (fun e =>
           log_error "Error creating order";;
           mret (failed_order symbol side type amount price time_in_force
                              position_side))
  end.

(** ** [cancel_order] *)

(** [Decimal(x)] on an optional string. *)
Definition Decimal_opt (x : option string) : result decimal :=
  match x with
  | Some s => Decimal s
  | None => Raise TypeError
  end.

Definition pyval_of_str (x : option string) : pyval :=
  match x with Some s => PStr s | None => PNone end.

Definition canceling_order (symbol : string) (res : option BinanceOrder.t)
  : result Order.t :=
  r ← answer res;
  filled ← Decimal_opt (BinanceOrder.executedQty r);
  type ← match BinanceOrder.type r with
         | Some t => x ← BinanceEnumParser.parse_order_type t; Ok (Some x)
         | None => Ok None
         end;
  side ← match BinanceOrder.side r with
         | Some s => x ← BinanceEnumParser.parse_order_side s; Ok (Some x)
         | None => Ok None
         end;
  time_in_force ←
    match BinanceOrder.timeInForce r with
    | Some t => x ← BinanceEnumParser.parse_time_in_force t; Ok (Some x)
    | None => Ok None
    end;
  origQty ← Decimal_opt (BinanceOrder.origQty r);
  executedQty ← Decimal_opt (BinanceOrder.executedQty r);
  let remaining := Dec.sub origQty executedQty in
  position_side ← position_side_if (BinanceOrder.positionSide r);
  Ok {| Order.exchange := _exchange_id E;
        Order.symbol := symbol;
        Order.status := OrderStatus.CANCELING;
        Order.id := Some (BinanceOrder.orderId r);
        Order.amount := pyval_of_str (BinanceOrder.origQty r);
        Order.filled := Some filled;
        Order.client_order_id := Some (BinanceOrder.clientOrderId r);
        Order.timestamp := Some (BinanceOrder.updateTime r);
        Order.type := type;
        Order.side := side;
        Order.time_in_force := time_in_force;
        Order.price := pyval_of_str (BinanceOrder.price r);
        Order.average := pyval_of_str (BinanceOrder.avgPrice r);
        Order.last_filled_price := None;
        Order.last_filled := None;
        Order.remaining := Some remaining;
        Order.fee := None;
        Order.fee_currency := None;
        Order.cum_cost := None;
        Order.cost := None;
        Order.reduce_only := BinanceOrder.reduceOnly r;
        Order.position_side := position_side |}.

Definition failed_cancel_order (symbol : string) (order_id : Z)
  : Order.t :=
  {| Order.exchange := _exchange_id E;
     Order.symbol := symbol;
     Order.status := OrderStatus.FAILED;
     Order.id := Some order_id;
     Order.amount := PNone;
     Order.filled := None;
     Order.client_order_id := None;
     Order.timestamp := Some (clock_timestamp_ms E);
     Order.type := None;
     Order.side := None;
     Order.time_in_force := None;
     Order.price := PNone;
     Order.average := PNone;
     Order.last_filled_price := None;
     Order.last_filled := None;
     Order.remaining := None;
     Order.fee := None;
     Order.fee_currency := None;
     Order.cum_cost := None;
     Order.cost := None;
     Order.reduce_only := None;
     Order.position_side := None |}.

(** [{"symbol": symbol, "order_id": order_id, **kwargs}] *)
Definition cancel_order_params (symbol : string) (order_id : Z)
    (kwargs : params) : params :=
  dict_update
    (dict_of_items [("symbol", PStr symbol); ("order_id", PInt order_id)])
    kwargs.

(** The part of the [try] that follows the assignment of [params]. *)
Definition cancel_order_attempt (market : BinanceMarket.t)
    (symbol : string) (ps : params) : M Order.t :=
  res ← _execute_cancel_order_request market symbol ps;
  lift (canceling_order symbol res).

(** The [except] branch formats [params] into the log line.  When the
    symbol lookup has raised, [params] was never assigned, and reading
    it raises [UnboundLocalError] out of the handler. *)
Definition cancel_order (symbol : string) (order_id : Z) (kwargs : params)
  : M Order.t :=
  limiter_acquire E;;
  match _market E !! symbol with
  | None =>
      try_except (raise ValueError) (fun e => raise UnboundLocalError)
  | Some market =>
      let symbol := BinanceMarket.id market in
      let ps := cancel_order_params symbol order_id kwargs in
      try_except
        (cancel_order_attempt market symbol ps)
        (fun e =>
           log_error "Error canceling order";;
           mret (failed_cancel_order symbol order_id))
  end.

(** ** [_ws_msg_handler] *)

(** A frame of the user data stream, as the decoders see it. *)
Inductive ws_message : Type :=
  | Undecodable
  | OtherEvent
  | OrderTradeUpdate (m : BinanceFuturesOrderUpdateMsg.t)
  | ExecutionReport (m : BinanceSpotOrderUpdateMsg.t)
  | AccountUpdate (m : BinanceFuturesUpdateMsg.t)
  | OutboundAccountPosition (bs : list Balance.t).

Definition _parse_out_bound_account_position (bs : list Balance.t)
  : M unit :=
  _apply_balance (_account_type E) bs.

(** Only [msgspec.DecodeError] is caught. *)
Definition _ws_msg_handler (raw : ws_message) : M unit :=
  match raw with
  | Undecodable => log_error "Error decoding message"
  | OtherEvent => mret tt
  | OrderTradeUpdate m => _parse_order_trade_update m
  | ExecutionReport m => _parse_execution_report m
  | AccountUpdate m => _parse_account_update m
  | OutboundAccountPosition bs => _parse_out_bound_account_position bs
  end.

End Connector.

End BinancePrivateConnector.

(* ===================================================================== *)
(** * Order submissions and the Binance execution management system       *)
(**   ([nexustrader/exchange/binance/ems.py])                             *)
(* ===================================================================== *)

Module ExchangeType.
Inductive t : Type := BINANCE | OKX | BYBIT.
#[global] Instance eq_dec : EqDecision t.
Proof. solve_decision. Defined.
#[global, program] Instance finite : Finite t :=
  {| enum := [BINANCE; OKX; BYBIT] |}.
Next Obligation. by apply (bool_decide_unpack _). Qed.
Next Obligation. by intros []; apply (bool_decide_unpack _). Qed.
End ExchangeType.

(** Modelled from the spec: [InstrumentId] is declared in
    [nexustrader/schema.py], which is not part of the sources at hand.  It
    is a canonical symbol, an exchange and an instrument kind
    (spot/linear/inverse/option). *)
Module InstrumentId.
Inductive kind : Type := SPOT | LINEAR | INVERSE | OPTION.
#[global] Instance kind_eq_dec : EqDecision kind.
Proof. solve_decision. Defined.

Record t : Type := Build {
  symbol : string;
  exchange : ExchangeType.t;
  type : kind;
}.

Definition is_spot (i : t) : bool := bool_decide (type i = SPOT).
Definition is_linear (i : t) : bool := bool_decide (type i = LINEAR).
Definition is_inverse (i : t) : bool := bool_decide (type i = INVERSE).
End InstrumentId.

Module SubmitType.
Inductive t : Type :=
  | CREATE | CANCEL | STOP_LOSS | TAKE_PROFIT
  | TWAP | ADP_MAKER | CANCEL_TWAP | CANCEL_ADP_MAKER.
#[global] Instance eq_dec : EqDecision t.
Proof. solve_decision. Defined.
End SubmitType.

(** The command value a strategy hands to the EMS; the fields are those
    the algo-order constructors set. *)
Module OrderSubmit.
Record t : Type := Build {
  symbol : string;
  instrument_id : InstrumentId.t;
  uuid : string;
  submit_type : SubmitType.t;
  side : OrderSide.t;
  amount : decimal;
  duration : Z;
  wait : Z;
  check_interval : float;
  position_side : option PositionSide.t;
  trigger_tp_ratio : option float;
  trigger_sl_ratio : option float;
  tp_ratio : option float;
  sl_ratio : option float;
  kwargs : dict string pyval;
}.
End OrderSubmit.

Module BinanceExecutionManagementSystem.

Definition BINANCE_SPOT_PRIORITY : list BinanceAccountType.t :=
  [BinanceAccountType.ISOLATED_MARGIN;
   BinanceAccountType.MARGIN;
   BinanceAccountType.SPOT_TESTNET;
   BinanceAccountType.SPOT].

(** [_private_connectors] is known by its keys, [_order_submit_queues]
    by the submissions waiting in each queue, oldest first. *)
Record t : Type := Build {
  _private_connectors : gset BinanceAccountType.t;
  _binance_spot_account_type : option BinanceAccountType.t;
  _binance_linear_account_type : option BinanceAccountType.t;
  _binance_inverse_account_type : option BinanceAccountType.t;
  _binance_pm_account_type : option BinanceAccountType.t;
  _order_submit_queues : gmap BinanceAccountType.t (list OrderSubmit.t);
}.

(** [__init__] leaves the four account types at [None]. *)
Definition init (connectors : gset BinanceAccountType.t) : t :=
  Build connectors None None None None ∅.

(** The [for ... break] over the priority list: the first configured
    account type, or the previous value when none is. *)
Fixpoint first_configured (account_types : gset BinanceAccountType.t)
    (priority : list BinanceAccountType.t)
    (current : option BinanceAccountType.t)
  : option BinanceAccountType.t :=
  match priority with
  | [] => current
  | account_type :: rest =>
      if bool_decide (account_type ∈ account_types) then Some account_type
      else first_configured account_types rest current
  end.

Definition _set_account_type (self : t) : t :=
  let account_types := _private_connectors self in
  if bool_decide (BinanceAccountType.PORTFOLIO_MARGIN ∈ account_types) then
    Build account_types
          (_binance_spot_account_type self)
          (_binance_linear_account_type self)
          (_binance_inverse_account_type self)
          (Some BinanceAccountType.PORTFOLIO_MARGIN)
          (_order_submit_queues self)
  else
    Build account_types
          (first_configured account_types BINANCE_SPOT_PRIORITY
                            (_binance_spot_account_type self))
          (Some (if bool_decide
                      (BinanceAccountType.USD_M_FUTURE_TESTNET
                         ∈ account_types)
                 then BinanceAccountType.USD_M_FUTURE_TESTNET
                 else BinanceAccountType.USD_M_FUTURE))
          (Some (if bool_decide
                      (BinanceAccountType.COIN_M_FUTURE_TESTNET
                         ∈ account_types)
                 then BinanceAccountType.COIN_M_FUTURE_TESTNET
                 else BinanceAccountType.COIN_M_FUTURE))
          (_binance_pm_account_type self)
          (_order_submit_queues self).

(** [None] where the Python function returns [None] or falls off. *)
Definition _instrument_id_to_account_type (self : t)
    (instrument_id : InstrumentId.t) : option BinanceAccountType.t :=
  match _binance_pm_account_type self with
  | Some pm => Some pm
  | None =>
      if InstrumentId.is_spot instrument_id
      then _binance_spot_account_type self
      else if InstrumentId.is_linear instrument_id
      then _binance_linear_account_type self
      else if InstrumentId.is_inverse instrument_id
      then _binance_inverse_account_type self
      else None
  end.

Definition _build_order_submit_queues (self : t) : t :=
  Build (_private_connectors self)
        (_binance_spot_account_type self)
        (_binance_linear_account_type self)
        (_binance_inverse_account_type self)
        (_binance_pm_account_type self)
        (set_fold (fun account_type qs => <[account_type := []]> qs)
                  (_order_submit_queues self) (_private_connectors self)).

(** [self._order_submit_queues[account_type].put_nowait(order)] *)
Definition _submit_order (self : t) (order : OrderSubmit.t)
    (account_type : option BinanceAccountType.t) : result t :=
  let account_type :=
    match account_type with
    | Some a => Some a
    | None =>
        _instrument_id_to_account_type self (OrderSubmit.instrument_id order)
    end in
  match account_type with
  | None => Raise KeyError
  | Some a =>
      match _order_submit_queues self !! a with
      | None => Raise KeyError
      | Some queue =>
          Ok (Build (_private_connectors self)
                    (_binance_spot_account_type self)
                    (_binance_linear_account_type self)
                    (_binance_inverse_account_type self)
                    (_binance_pm_account_type self)
                    (<[a := (queue ++ [order])%list]>
                       (_order_submit_queues self)))
      end
  end.

(** The level-1 book; [mid] is the value of its [mid] property. *)
Record BookL1 : Type := { mid : float }.

Inductive mode : Type := Round | Ceil | Floor.

(** [_amount_to_precision] is inherited from the base class
    ([nexustrader/base]), which is not part of the sources at hand, and
    [bookl1] belongs to the cache: both are taken as given. *)
Section MinOrderAmount.
Variable bookl1 : string -> option BookL1.
Variable _amount_to_precision : string -> float -> mode -> result decimal.





End MinOrderAmount.

End BinanceExecutionManagementSystem.

(* ===================================================================== *)
(** * The strategy-facing algo-order constructors                         *)
(**   ([nexustrader/strategy.py])                                         *)
(* ===================================================================== *)

Module Strategy.

Module EMS := BinanceExecutionManagementSystem.

(** [InstrumentId.from_str] and [UUID4] belong to files that are not
    part of the sources at hand: they are taken as given.  [uuid4 n] is
    the value of the [n]-th identifier drawn. *)
Record env : Type := Env {
  from_str : string -> result InstrumentId.t;
  uuid4 : nat -> string;
}.

(** The execution management systems, by exchange, and how many
    identifiers have been drawn. *)
Record state : Type := State {
  _ems : gmap ExchangeType.t EMS.t;
  uuids_drawn : nat;
}.

Definition M (A : Type) : Type := state -> result A * state.

(** [self._ems[exchange]._submit_order(order, account_type)] *)
Definition submit (order : OrderSubmit.t)
    (account_type : option BinanceAccountType.t) (st : state)
  : result unit * state :=
  let exchange := InstrumentId.exchange (OrderSubmit.instrument_id order) in
  match _ems st !! exchange with
  | None => (Raise KeyError, st)
  | Some ems =>
      match EMS._submit_order ems order account_type with
      | Ok ems' =>
          (Ok tt, State (<[exchange := ems']> (_ems st)) (uuids_drawn st))
      | Raise e => (Raise e, st)
      end
  end.

Section Constructors.
Variable E : env.

Definition create_adp_maker (symbol : string) (side : OrderSide.t)
    (amount : decimal) (duration wait : Z) (check_interval : float)
    (position_side : option PositionSide.t)
    (account_type : option BinanceAccountType.t)
    (trigger_tp_ratio trigger_sl_ratio tp_ratio sl_ratio : option float)
    (kwargs : dict string pyval) : M string := fun st =>
  if wait >? duration then (Raise OrderError, st)
  else
    match from_str E symbol with
    | Raise e => (Raise e, st)
    | Ok instrument_id =>
        let uuid := "ALGO-" +:+ uuid4 E (uuids_drawn st) in
        let st := State (_ems st) (S (uuids_drawn st)) in
        let order :=
          OrderSubmit.Build symbol instrument_id uuid
            SubmitType.ADP_MAKER side amount duration wait
            check_interval position_side trigger_tp_ratio
            trigger_sl_ratio tp_ratio sl_ratio kwargs in
        match submit order account_type st with
        | (Ok _, st') => (Ok (OrderSubmit.uuid order), st')
        | (Raise e, st') => (Raise e, st')
        end
    end.

Definition create_twap (symbol : string) (side : OrderSide.t)
    (amount : decimal) (duration wait : Z) (check_interval : float)
    (position_side : option PositionSide.t)
    (account_type : option BinanceAccountType.t)
    (kwargs : dict string pyval) : M string := fun st =>
  match from_str E symbol with
  | Raise e => (Raise e, st)
  | Ok instrument_id =>
      let uuid := "ALGO-" +:+ uuid4 E (uuids_drawn st) in
      let st := State (_ems st) (S (uuids_drawn st)) in
      let order :=
        OrderSubmit.Build symbol instrument_id uuid
          SubmitType.TWAP side amount duration wait
          check_interval position_side None None None None kwargs in
      match submit order account_type st with
      | (Ok _, st') => (Ok (OrderSubmit.uuid order), st')
      | (Raise e, st') => (Raise e, st')
      end
  end.
End Constructors.

(** The submissions waiting in any queue of any EMS. *)
Definition enqueued (st : state) : list OrderSubmit.t :=
  concat (map (fun kv => concat (map snd (map_to_list
                   (EMS._order_submit_queues kv.2))))
              (map_to_list (_ems st))).

End Strategy.

(* ===================================================================== *)
(** * What the specification asks of the values built                     *)
(* ===================================================================== *)

Module Spec.





(** A string that is a plain decimal literal. *)
Definition numeric (s : string) : Prop := is_Some (Literal.parse s).

(** The cache after the positions [ps] were applied in order. *)
Definition positions_applied (ps : list Position.t)
    (m : gmap (string * string) Position.t)
  : gmap (string * string) Position.t :=
  fold_left
    (fun m p => <[(Position.symbol p, Position.exchange p) := p]> m) ps m.

End Spec.

(* ===================================================================== *)
(** * Concrete configurations and messages                                *)
(* ===================================================================== *)

Module Sample.
Import BinancePrivateConnector.

Definition is_market (t : BinanceOrderType.t) : bool :=
  bool_decide (t ∈ [BinanceOrderType.MARKET; BinanceOrderType.STOP_MARKET;
                    BinanceOrderType.TAKE_PROFIT_MARKET;
                    BinanceOrderType.TRAILING_STOP_MARKET]).

Definition is_limit (t : BinanceOrderType.t) : bool :=
  bool_decide (t ∈ [BinanceOrderType.LIMIT; BinanceOrderType.STOP;
                    BinanceOrderType.TAKE_PROFIT;
                    BinanceOrderType.LIMIT_MAKER]).

Definition btc_perp : BinanceMarket.t :=
  BinanceMarket.Build "BTCUSDT" false false true false
    (Some (Flt.of_Z 10)) (Some (Flt.of_triple false 1 (-3))).

Definition btc_spot : BinanceMarket.t :=
  BinanceMarket.Build "BTCUSDT" true true false false
    (Some (Flt.of_Z 10)) (Some (Flt.of_triple false 1 (-3))).

Definition ack : BinanceOrder.t :=
  BinanceOrder.Build 42 "client-1" 1700000000000
    (Some "0") (Some "0") (Some "1") (Some "0")
    (Some BinanceOrderType.MARKET) (Some BinanceOrderSide.BUY)
    (Some BinanceTimeInForce.GTC) None (Some BinancePositionSide.BOTH).

Definition api_up (ep : endpoint) (ps : params) : result BinanceOrder.t :=
  Ok ack.


Definition no_account (ep : endpoint) : result BinanceAccountInfo.t :=
  Raise (ApiError "BinanceClientError").

(** A USD-M futures connector whose REST transport answers. *)
Definition futures (api : endpoint -> params -> result BinanceOrder.t)
  : env :=
  Env BinanceAccountType.USD_M_FUTURE
      {[ "BTC/USDT:USDT" := btc_perp ]}
      {[ "BTCUSDT_linear" := "BTC/USDT:USDT" ]}
      "binance" true api no_account 1700000000123
      is_market is_limit
      BinanceEnumParser.parse_order_type
      BinanceEnumParser.parse_order_type.

(** A spot connector. *)
Definition spot (api : endpoint -> params -> result BinanceOrder.t)
  : env :=
  Env BinanceAccountType.SPOT
      {[ "BTC/USDT" := btc_spot ]}
      {[ "BTCUSDT_spot" := "BTC/USDT" ]}
      "binance" false api no_account 1700000000123
      is_market is_limit
      BinanceEnumParser.parse_order_type
      BinanceEnumParser.parse_order_type.

(** An [ORDER_TRADE_UPDATE] with the given type, last fill [l], average
    price [ap], order price [p] and cumulative fill [z]; the order is
    for 2 BTC and its last fill was at 100. *)
Definition order_trade_update (o : BinanceOrderType.t)
    (l ap p z : string) : BinanceFuturesOrderUpdateMsg.t :=
  BinanceFuturesOrderUpdateMsg.Build 1700000000000 None
    (BinanceFuturesOrderData.Build "BTCUSDT" "client-1"
       BinanceOrderSide.BUY o BinanceTimeInForce.GTC
       "2" p ap BinanceOrderStatus.PARTIALLY_FILLED 42 l z "100"
       "0" (Some "USDT") false BinancePositionSide.BOTH).

Definition first_fill := order_trade_update BinanceOrderType.MARKET
                           "1" "100" "0" "1".
Definition second_fill := order_trade_update BinanceOrderType.MARKET
                            "1" "110" "0" "2".
Definition limit_fill_without_average :=
  order_trade_update BinanceOrderType.LIMIT "1" "0" "105.5" "1".
Definition limit_fill_empty_average :=
  order_trade_update BinanceOrderType.LIMIT "1" "" "105.5" "1".

(** An [executionReport] with cumulative quote [Z] and cumulative
    base [z]. *)
Definition execution_report (Z_ z : string) : BinanceSpotOrderUpdateMsg.t :=
  BinanceSpotOrderUpdateMsg.Build 1700000000000 "BTCUSDT" "client-1"
    BinanceOrderSide.BUY BinanceOrderType.LIMIT BinanceTimeInForce.GTC
    "2" "110" BinanceOrderStatus.PARTIALLY_FILLED 42 "1" z "110"
    "0" (Some "USDT") Z_ "110".

(** An [ACCOUNT_UPDATE] carrying one netted position of amount [pa]. *)
Definition account_update (pa : string) : BinanceFuturesUpdateMsg.t :=
  BinanceFuturesUpdateMsg.Build None []
    [BinanceFuturesPositionData.Build "BTCUSDT" pa
       BinancePositionSide.BOTH "100" "0" "0"].


(** A strategy wired to one Binance EMS with a USD-M futures account. *)
Definition btc_perp_id : InstrumentId.t :=
  InstrumentId.Build "BTC/USDT:USDT" ExchangeType.BINANCE
                     InstrumentId.LINEAR.

Definition strategy_env : Strategy.env :=
  Strategy.Env (fun _ => Ok btc_perp_id) (fun n => "0000").

Definition ems : BinanceExecutionManagementSystem.t :=
  BinanceExecutionManagementSystem._build_order_submit_queues
    (BinanceExecutionManagementSystem._set_account_type
       (BinanceExecutionManagementSystem.init
          {[ BinanceAccountType.USD_M_FUTURE ]})).

Definition strategy_state : Strategy.state :=
  Strategy.State {[ ExchangeType.BINANCE := ems ]} 0.

Definition one_btc : decimal := Dec.of_Z 1.
Definition tenth : float := Flt.of_triple false 1 (-1).
End Sample.

(* ===================================================================== *)
(** * Binance hosts ([tradebot/exchange/binance/constants.py])            *)
(* ===================================================================== *)

Module BinanceUrls.
Import BinanceAccountType.

Definition BASE_URLS : dict BinanceAccountType.t string :=
  dict_of_items
    [(SPOT, "https://api.binance.com");
     (MARGIN, "https://api.binance.com");
     (ISOLATED_MARGIN, "https://api.binance.com");
     (USD_M_FUTURE, "https://fapi.binance.com");
     (COIN_M_FUTURE, "https://dapi.binance.com");
     (PORTFOLIO_MARGIN, "https://papi.binance.com");
     (SPOT_TESTNET, "https://testnet.binance.vision");
     (USD_M_FUTURE_TESTNET, "https://testnet.binancefuture.com");
     (COIN_M_FUTURE_TESTNET, "https://testnet.binancefuture.com")].

Definition STREAM_URLS : dict BinanceAccountType.t string :=
  dict_of_items
    [(SPOT, "wss://stream.binance.com:9443/ws");
     (MARGIN, "wss://stream.binance.com:9443/ws");
     (ISOLATED_MARGIN, "wss://stream.binance.com:9443/ws");
     (USD_M_FUTURE, "wss://fstream.binance.com/ws");
     (COIN_M_FUTURE, "wss://dstream.binance.com/ws");
     (PORTFOLIO_MARGIN, "wss://fstream.binance.com/pm/ws");
     (SPOT_TESTNET, "wss://testnet.binance.vision/ws");
     (USD_M_FUTURE_TESTNET, "wss://stream.binancefuture.com/ws");
     (COIN_M_FUTURE_TESTNET, "wss://dstream.binancefuture.com/ws")].

(** The [base_url] and [ws_url] properties of [BinanceAccountType]. *)
Definition base_url (self : BinanceAccountType.t) : result string :=
  dict_getitem BASE_URLS self.
Definition ws_url (self : BinanceAccountType.t) : result string :=
  dict_getitem STREAM_URLS self.

End BinanceUrls.

(* ===================================================================== *)
(** * The private connector's user data stream                            *)
(**   ([nexustrader/exchange/binance/connector.py])                       *)
(* ===================================================================== *)

Module UserDataStream.

(** The listen-key endpoints of [BinanceApiClient]. *)
Inductive endpoint : Type :=
  | post_api_v3_user_data_stream | post_sapi_v1_user_data_stream
  | post_fapi_v1_listen_key | post_dapi_v1_listen_key
  | post_papi_v1_listen_key
  | put_api_v3_user_data_stream | put_sapi_v1_user_data_stream
  | put_fapi_v1_listen_key | put_dapi_v1_listen_key
  | put_papi_v1_listen_key.

#[global] Instance endpoint_eq_dec : EqDecision endpoint.
Proof. solve_decision. Defined.

(** What the connector does to the outside, in the order it does it. *)
Inductive event : Type :=
  | SuperConnect
  | Request (ep : endpoint) (listen_key : option string)
  | Sleep (seconds : Z)
  | LogError (what : string)
  | CreateTask (listen_key : string)
  | Subscribe (listen_key : string).

(** The REST transport, the websocket client and the base class
    ([nexustrader/base], not part of the sources at hand) are oracles.
    [api_post n ep] is the [listenKey] of the answer to the request sent
    after [n] earlier ones, or the exception it raises; [api_put n ep]
    likewise for a keep-alive request, whose answer is dropped. *)
Record env : Type := Env {
  _account_type : BinanceAccountType.t;
  api_post : nat -> endpoint -> result string;
  api_put : nat -> endpoint -> result unit;
  super_connect : result unit;
  subscribe_user_data_stream : string -> result unit;
}.

Record state : Type := State {
  events : list event;
  requests : nat;
}.

Definition initial_state : state := State [] 0.

Definition M (A : Type) : Type := state -> result A * state.

#[global] Instance M_ret : MRet M := fun _ a st => (Ok a, st).
#[global] Instance M_bind : MBind M := fun _ _ k m st =>
  match m st with
  | (Ok a, st') => k a st'
  | (Raise e, st') => (Raise e, st')
  end.

Definition raise {A} (e : exn) : M A := fun st => (Raise e, st).

(** [try: body except Exception as e: handler(e)] *)
Definition try_except {A} (body : M A) (handler : exn -> M A) : M A :=
  fun st =>
    match body st with
    | (Ok a, st') => (Ok a, st')
    | (Raise e, st') => handler e st'
    end.

Definition emit (ev : event) : M unit := fun st =>
  (Ok tt, State (events st ++ [ev]) (requests st)).

(** [await asyncio.sleep(seconds)] and [self._log.error(...)] *)
Definition sleep (seconds : Z) : M unit := emit (Sleep seconds).
Definition log_error (what : string) : M unit := emit (LogError what).

Section Stream.
Variable E : env.

(** [await self._api_client.<endpoint>(...)] *)
Definition request_post (ep : endpoint) : M string := fun st =>
  (api_post E (requests st) ep,
   State (events st ++ [Request ep None]) (S (requests st))).

Definition request_put (ep : endpoint) (listen_key : option string)
  : M unit := fun st =>
  (api_put E (requests st) ep,
   State (events st ++ [Request ep listen_key]) (S (requests st))).

(** [res] stays unbound when no branch of the chain is taken; the
    value returned is [res.listenKey]. *)
Definition _start_user_data_stream : M string :=
  let a := _account_type E in
  res ←
    (if BinanceAccountType.is_spot a
     then r ← request_post post_api_v3_user_data_stream; mret (Some r)
     else if BinanceAccountType.is_margin a
     then r ← request_post post_sapi_v1_user_data_stream; mret (Some r)
     else if BinanceAccountType.is_linear a
     then r ← request_post post_fapi_v1_listen_key; mret (Some r)
     else if BinanceAccountType.is_inverse a
     then r ← request_post post_dapi_v1_listen_key; mret (Some r)
     else if BinanceAccountType.is_portfolio_margin a
     then r ← request_post post_papi_v1_listen_key; mret (Some r)
     else mret None);
  match res with
  | Some listenKey => mret listenKey
  | None => raise UnboundLocalError
  end.

(** The spot and margin endpoints take the listen key; the futures and
    portfolio-margin ones are called without it. *)
Definition _keep_alive_listen_key (listen_key : string) : M unit :=
  let a := _account_type E in
  if BinanceAccountType.is_spot a
  then request_put put_api_v3_user_data_stream (Some listen_key)
  else if BinanceAccountType.is_margin a
  then request_put put_sapi_v1_user_data_stream (Some listen_key)
  else if BinanceAccountType.is_linear a
  then request_put put_fapi_v1_listen_key None
  else if BinanceAccountType.is_inverse a
  then request_put put_dapi_v1_listen_key None
  else if BinanceAccountType.is_portfolio_margin a
  then request_put put_papi_v1_listen_key None
  else mret tt.

(** Where the [while] loop of [_keep_alive_user_data_stream] stands. *)
Inductive loop_status : Type :=
  | Running (retry_count : Z)
  | Stopped.

(** One pass through the body of the loop: the new [retry_count], and
    whether the pass ended in [break]. *)
Definition keep_alive_pass (listen_key : string) (interval max_retry : Z)
    (retry_count : Z) : M (Z * bool) :=
  sleep (60 * interval);;
  try_except
    (_keep_alive_listen_key listen_key;;
     mret (0, false))
    (fun e =>
       log_error "Failed to keep alive listen key";;
       let retry_count := retry_count + 1 in
       if retry_count <? max_retry
       then sleep 5;; mret (retry_count, false)
       else log_error "Max retries reached. Stopping keep-alive attempts.";;
            mret (retry_count, true)).

(** The loop [while retry_count < max_retry: ...], followed for at most
    [fuel] passes: it has stopped, or it is still running. *)
Fixpoint keep_alive_loop (fuel : nat) (listen_key : string)
    (interval max_retry : Z) (retry_count : Z) : M loop_status :=
  if retry_count <? max_retry then
    match fuel with
    | O => mret (Running retry_count)
    | S fuel' =>
        '(retry_count, stop) ←
          keep_alive_pass listen_key interval max_retry retry_count;
        if (stop : bool) then mret Stopped
        else keep_alive_loop fuel' listen_key interval max_retry retry_count
    end
  else mret Stopped.

Definition _keep_alive_user_data_stream (fuel : nat) (listen_key : string)
    (interval max_retry : Z) : M loop_status :=
  keep_alive_loop fuel listen_key interval max_retry 0.

(** [await super().connect()] *)
Definition connect_base : M unit := fun st =>
  (super_connect E, State (events st ++ [SuperConnect]) (requests st)).

(** [await self._ws_client.subscribe_user_data_stream(listen_key)] *)
Definition ws_subscribe (listen_key : string) : M unit := fun st =>
  (subscribe_user_data_stream E listen_key,
   State (events st ++ [Subscribe listen_key]) (requests st)).

(** [connect]: the keep-alive coroutine is handed to the task manager,
    not run. *)
Definition connect : M unit :=
  connect_base;;
  listen_key ← _start_user_data_stream;
  if negb (bool_decide (listen_key = "")) then
    emit (CreateTask listen_key);;
    ws_subscribe listen_key
  else raise RuntimeError.

End Stream.

End UserDataStream.

(* ===================================================================== *)
(** * The EMS in use                                                      *)
(* ===================================================================== *)

Module EmsRun.
Import BinanceExecutionManagementSystem.

(** [_submit_order(order, account_type)] called for each submission of
    a list in turn; the first call that raises ends the run. *)
Fixpoint submit_orders (self : t) (orders : list OrderSubmit.t)
    (account_type : option BinanceAccountType.t) : result t :=
  match orders with
  | [] => Ok self
  | order :: rest =>
      self' ← _submit_order self order account_type;
      submit_orders self' rest account_type
  end.

(** The EMS of the given connectors once its account types are set and
    its queues are built. *)
Definition built (connectors : gset BinanceAccountType.t) : t :=
  _build_order_submit_queues (_set_account_type (init connectors)).

End EmsRun.

(* ===================================================================== *)
(** * Take-profit and stop-loss orders                                    *)
(**   ([nexustrader/exchange/binance/connector.py])                       *)
(* ===================================================================== *)

(** [TriggerType] is declared in [nexustrader/constants.py], which is not
    part of the sources at hand; LAST_PRICE is the member the connector
    names. *)
Module TriggerType.
Inductive t : Type := LAST_PRICE | Other (name : string).
#[global] Instance eq_dec : EqDecision t.
Proof. solve_decision. Defined.
End TriggerType.

Module TriggerOrders.
Import BinancePrivateConnector.

(** The connector, and what these two methods use beside it.  The three
    translations belong to [nexustrader/exchange/binance/constants.py]
    and [is_limit] to the canonical [OrderType]
    ([nexustrader/constants.py]); neither file is part of the sources at
    hand, so they are taken as given.  [to_binance_trigger_type] gives the
    [.value] of the native member.  [stopPrice] reads the field of that
    name off the REST answer, which the record [BinanceOrder.t] does not
    carry. *)
Record env : Type := Env {
  connector : BinancePrivateConnector.env;
  to_binance_futures_order_type : OrderType.t -> result BinanceOrderType.t;
  to_binance_spot_order_type : OrderType.t -> result BinanceOrderType.t;
  to_binance_trigger_type : TriggerType.t -> result string;
  OrderType_is_limit : OrderType.t -> bool;
  stopPrice : BinanceOrder.t -> option string;
}.

(** An [Order] with the [trigger_price] these two methods set; the
    record [Order.t] holds its other fields. *)
Record TriggerOrder : Type := {
  order : Order.t;
  trigger_price : pyval;
}.

Section Orders.
Variable T : env.

(** [price] as it is stored in the request: a [Decimal], or [None]. *)
Definition pyval_of_price (price : option decimal) : pyval :=
  match price with Some pr => PDec pr | None => PNone end.

(** The request parameters, up to [params.update(kwargs)].
    [binance_type] is assigned for an inverse, linear or spot market
    only; the dict display reads it after translating the side. *)
Definition take_profit_params (market : BinanceMarket.t)
    (side : OrderSide.t) (type : OrderType.t) (amount : decimal)
    (trigger_price : decimal) (trigger_type : TriggerType.t)
    (price : option decimal) (time_in_force : TimeInForce.t)
    (position_side : option PositionSide.t) (kwargs : params)
  : result params :=
  binance_type ←
    (if BinanceMarket.inverse market || BinanceMarket.linear market
     then x ← to_binance_futures_order_type T type; Ok (Some x)
     else if BinanceMarket.spot market
     then x ← to_binance_spot_order_type T type; Ok (Some x)
     else Ok None);
  bside ← BinanceEnumParser.to_binance_order_side side;
  btype ← match binance_type with
          | Some x => Ok x
          | None => Raise UnboundLocalError
          end;
  working_type ← to_binance_trigger_type T trigger_type;
  let ps : params :=
    dict_of_items
      [("symbol", PStr (BinanceMarket.id market));
       ("side", PStr (BinanceOrderSide_value bside));
       ("type", PStr (BinanceOrderType_value btype));
       ("quantity", PDec amount);
       ("stopPrice", PDec trigger_price);
       ("workingType", PStr working_type)] in
  ps ← (if OrderType_is_limit T type then
          let ps := dict_set ps "price" (pyval_of_price price) in
          tif ← BinanceEnumParser.to_binance_time_in_force time_in_force;
          Ok (dict_set ps "timeInForce"
                       (PStr (BinanceTimeInForce_value tif)))
        else Ok ps);
  ps ← match position_side with
       | Some s =>
           bps ← BinanceEnumParser.to_binance_position_side s;
           Ok (dict_set ps "positionSide"
                        (PStr (BinancePositionSide_value bps)))
       | None => Ok ps
       end;
  let '(reduce_only, kwargs) := pop_reduce_only kwargs in
  let ps := if py_truthy reduce_only
            then dict_set ps "reduceOnly" (PBool true) else ps in
  Ok (dict_update ps kwargs).

(** [float(res.stopPrice)] *)
Definition float_of_stopPrice (r : BinanceOrder.t) : result float :=
  match stopPrice T r with
  | Some s => Flt.of_string s
  | None => Raise TypeError
  end.

(** The order built from the REST acknowledgment. *)
Definition pending_trigger_order (symbol : string) (side : OrderSide.t)
    (type : OrderType.t) (amount : decimal)
    (time_in_force : TimeInForce.t) (res : option BinanceOrder.t)
  : result TriggerOrder :=
  r ← answer res;
  price ← float_if (BinanceOrder.price r);
  average ← float_if (BinanceOrder.avgPrice r);
  trigger ← float_of_stopPrice r;
  position_side ← position_side_if (BinanceOrder.positionSide r);
  Ok {| order :=
          {| Order.exchange := _exchange_id (connector T);
             Order.symbol := symbol;
             Order.status := OrderStatus.PENDING;
             Order.id := Some (BinanceOrder.orderId r);
             Order.amount := PDec amount;
             Order.filled := Some (Dec.of_Z 0);
             Order.client_order_id := Some (BinanceOrder.clientOrderId r);
             Order.timestamp := Some (BinanceOrder.updateTime r);
             Order.type := Some type;
             Order.side := Some side;
             Order.time_in_force := Some time_in_force;
             Order.price := price;
             Order.average := average;
             Order.last_filled_price := None;
             Order.last_filled := None;
             Order.remaining := Some amount;
             Order.fee := None;
             Order.fee_currency := None;
             Order.cum_cost := None;
             Order.cost := None;
             Order.reduce_only :=
               match BinanceOrder.reduceOnly r with
               | Some true => Some true
               | _ => None
               end;
             Order.position_side := position_side |};
        trigger_price := PFloat trigger |}.

(** The synthetic order of the [except] branch: the one [create_order]
    builds, with the trigger price asked for. *)
Definition failed_trigger_order (symbol : string) (side : OrderSide.t)
    (type : OrderType.t) (amount : decimal) (trigger_price : decimal)
    (price : option decimal) (time_in_force : TimeInForce.t)
    (position_side : option PositionSide.t) : TriggerOrder :=
  {| order := failed_order (connector T) symbol side type amount price
                           time_in_force position_side;
     trigger_price := PDec trigger_price |}.

Definition create_take_profit_order (symbol : string) (side : OrderSide.t)
    (type : OrderType.t) (amount : decimal) (trigger_price : decimal)
    (trigger_type : TriggerType.t) (price : option decimal)
    (time_in_force : TimeInForce.t)
    (position_side : option PositionSide.t) (kwargs : params)
  : M TriggerOrder :=
  limiter_acquire (connector T);;
  match _market (connector T) !! symbol with
  | None => raise ValueError
  | Some market =>
      ps ← lift (take_profit_params market side type amount trigger_price
                                    trigger_type price time_in_force
                                    position_side kwargs);
      try_except
        (res ← _execute_order_request (connector T) market symbol ps;
         lift (pending_trigger_order symbol side type amount time_in_force
                                     res))
        (fun e =>
           log_error "Error creating order";;
           mret (failed_trigger_order symbol side type amount trigger_price
                                      price time_in_force position_side))
  end.

(** [create_stop_loss_order] hands its arguments on unchanged. *)
Definition create_stop_loss_order (symbol : string) (side : OrderSide.t)
    (type : OrderType.t) (amount : decimal) (trigger_price : decimal)
    (trigger_type : TriggerType.t) (price : option decimal)
    (time_in_force : TimeInForce.t)
    (position_side : option PositionSide.t) (kwargs : params)
  : M TriggerOrder :=
  create_take_profit_order symbol side type amount trigger_price
    trigger_type price time_in_force position_side kwargs.

End Orders.

End TriggerOrders.

(* ===================================================================== *)
(** * The Binance public connector                                        *)
(**   ([nexustrader/exchange/binance/connector.py])                       *)
(* ===================================================================== *)

Module BinanceWsEventType.
Inductive t : Type :=
  | TRADE | AGG_TRADE | BOOK_TICKER | KLINE | MARK_PRICE_UPDATE
  | DEPTH_UPDATE.
#[global] Instance eq_dec : EqDecision t.
Proof. solve_decision. Defined.
End BinanceWsEventType.

Module BinanceKlineInterval.
Inductive t : Type :=
  | SECOND_1 | MINUTE_1 | MINUTE_3 | MINUTE_5 | MINUTE_15 | MINUTE_30
  | HOUR_1 | HOUR_2 | HOUR_4 | HOUR_6 | HOUR_8 | HOUR_12
  | DAY_1 | DAY_3 | WEEK_1 | MONTH_1.
#[global] Instance eq_dec : EqDecision t.
Proof. solve_decision. Defined.
End BinanceKlineInterval.

Module BinancePublicConnector.

(** The stream payloads ([nexustrader/exchange/binance/schema.py]) and
    the market data values ([nexustrader/schema.py]); neither file is part
    of the sources at hand, and the records carry the fields the
    connector reads and sets. *)
Module BinanceTradeData.
Record t : Type := Build { s : string; p : string; q : string; T : Z }.
End BinanceTradeData.

Module BinanceSpotBookTicker.
Record t : Type := Build {
  s : string; b : string; a : string; B : string; A : string;
}.
End BinanceSpotBookTicker.

Module BinanceFuturesBookTicker.
Record t : Type := Build {
  s : string; b : string; a : string; B : string; A : string; E : Z;
}.
End BinanceFuturesBookTicker.

Module BinanceKlineData.
Record t : Type := Build {
  i : BinanceKlineInterval.t;
  o : string; h : string; l : string; c : string; v : string;
  t_ : Z;   (* field [t], the start time *)
  x : bool;
}.
End BinanceKlineData.

Module BinanceKline.
Record t : Type := Build { s : string; E : Z; k : BinanceKlineData.t }.
End BinanceKline.

Module BinanceMarkPrice.
Record t : Type := Build {
  s : string; p : string; r : string; i : string; E : Z; T : Z;
}.
End BinanceMarkPrice.

Module Trade.
Record t : Type := Build {
  exchange : string; symbol : string;
  price : float; size : float; timestamp : Z;
}.
End Trade.

Module BookL1.
Record t : Type := Build {
  exchange : string; symbol : string;
  bid : float; ask : float; bid_size : float; ask_size : float;
  timestamp : Z;
}.
End BookL1.

Module Kline.
Record t : Type := Build {
  exchange : string; symbol : string; interval : KlineInterval.t;
  open : float; high : float; low : float; close : float; volume : float;
  start : Z; timestamp : Z; confirm : bool;
}.
End Kline.

Module MarkPrice.
Record t : Type := Build {
  exchange : string; symbol : string; price : float; timestamp : Z;
}.
End MarkPrice.

Module FundingRate.
Record t : Type := Build {
  exchange : string; symbol : string; rate : float; timestamp : Z;
  next_funding_time : Z;
}.
End FundingRate.

Module IndexPrice.
Record t : Type := Build {
  exchange : string; symbol : string; price : float; timestamp : Z;
}.
End IndexPrice.

(** What goes on the message bus. *)
Inductive message : Type :=
  | OfTrade (m : Trade.t)
  | OfBookL1 (m : BookL1.t)
  | OfKline (m : Kline.t)
  | OfMarkPrice (m : MarkPrice.t)
  | OfFundingRate (m : FundingRate.t)
  | OfIndexPrice (m : IndexPrice.t).

Definition message_exchange (m : message) : string :=
  match m with
  | OfTrade m => Trade.exchange m
  | OfBookL1 m => BookL1.exchange m
  | OfKline m => Kline.exchange m
  | OfMarkPrice m => MarkPrice.exchange m
  | OfFundingRate m => FundingRate.exchange m
  | OfIndexPrice m => IndexPrice.exchange m
  end.

Definition message_symbol (m : message) : string :=
  match m with
  | OfTrade m => Trade.symbol m
  | OfBookL1 m => BookL1.symbol m
  | OfKline m => Kline.symbol m
  | OfMarkPrice m => MarkPrice.symbol m
  | OfFundingRate m => FundingRate.symbol m
  | OfIndexPrice m => IndexPrice.symbol m
  end.

(** A frame of the market stream is what each [msgspec] decoder of the
    connector makes of it: a value, or [None] where the decoder raises
    [msgspec.DecodeError].  The general decoder reads the event type [e]
    and the update id [u], either of which may be missing. *)
Record ws_message : Type := Frame {
  general : option (option BinanceWsEventType.t * option Z);
  trade : option BinanceTradeData.t;
  spot_book_ticker : option BinanceSpotBookTicker.t;
  futures_book_ticker : option BinanceFuturesBookTicker.t;
  kline : option BinanceKline.t;
  mark_price : option BinanceMarkPrice.t;
}.

(** What the connector is built from.  [parse_kline_interval] and
    [to_binance_kline_interval] belong to
    [nexustrader/exchange/binance/constants.py], which is not part of the
    sources at hand: they are taken as given. *)
Record env : Type := Env {
  _account_type : BinanceAccountType.t;
  _market : gmap string BinanceMarket.t;
  _market_id : gmap string string;
  _exchange_id : string;
  clock_timestamp_ms : Z;
  parse_kline_interval : BinanceKlineInterval.t -> result KlineInterval.t;
  to_binance_kline_interval :
    KlineInterval.t -> result BinanceKlineInterval.t;
}.

(** What a call can change: the messages published, the error log, the
    subscriptions asked of the websocket client (stream, native symbol,
    interval). *)
Record state : Type := State {
  published : list (string * message);
  errors : list string;
  subscribed : list (string * string * option BinanceKlineInterval.t);
}.

Definition initial_state : state := State [] [] [].

Definition M (A : Type) : Type := state -> result A * state.

#[global] Instance M_ret : MRet M := fun _ a st => (Ok a, st).
#[global] Instance M_bind : MBind M := fun _ _ k m st =>
  match m st with
  | (Ok a, st') => k a st'
  | (Raise e, st') => (Raise e, st')
  end.

Definition lift {A} (r : result A) : M A := fun st => (r, st).

(** [self._msgbus.publish(topic=..., msg=...)] *)
Definition publish (topic : string) (msg : message) : M unit := fun st =>
  (Ok tt, State (published st ++ [(topic, msg)]) (errors st) (subscribed st)).

Definition log_error (what : string) : M unit := fun st =>
  (Ok tt, State (published st) (errors st ++ [what]) (subscribed st)).

(** [await self._ws_client.subscribe_...(symbol, ...)] *)
Definition ws_subscribe (stream symbol : string)
    (interval : option BinanceKlineInterval.t) : M unit := fun st =>
  (Ok tt,
   State (published st) (errors st)
         (subscribed st ++ [(stream, symbol, interval)])).

(** [__init__] takes spot and futures account types only. *)
Definition __init__ (account_type : BinanceAccountType.t)
    (market : gmap string BinanceMarket.t) (market_id : gmap string string)
    (exchange_id : string) (clock : Z)
    (parse : BinanceKlineInterval.t -> result KlineInterval.t)
    (to_binance : KlineInterval.t -> result BinanceKlineInterval.t)
  : result env :=
  if negb (BinanceAccountType.is_spot account_type)
     && negb (BinanceAccountType.is_future account_type)
  then Raise ValueError
  else Ok (Env account_type market market_id exchange_id clock parse
               to_binance).

Section Connector.
Variable E : env.

(** The [market_type] property. *)
Definition market_type : result string :=
  if BinanceAccountType.is_spot (_account_type E) then Ok "_spot"
  else if BinanceAccountType.is_linear (_account_type E) then Ok "_linear"
  else if BinanceAccountType.is_inverse (_account_type E)
  then Ok "_inverse"
  else Raise ValueError.

(** [self._market_id[s + self.market_type]] *)
Definition symbol_of (s : string) : result string :=
  suffix ← market_type;
  match _market_id E !! (s +:+ suffix) with
  | Some symbol => Ok symbol
  | None => Raise KeyError
  end.

(** [market.id if market else symbol] *)
Definition native_symbol (symbol : string) : string :=
  match _market E !! symbol with
  | Some market => BinanceMarket.id market
  | None => symbol
  end.

Definition subscribe_trade (symbol : string) : M unit :=
  ws_subscribe "trade" (native_symbol symbol) None.

Definition subscribe_bookl1 (symbol : string) : M unit :=
  ws_subscribe "bookTicker" (native_symbol symbol) None.

Definition subscribe_kline (symbol : string) (interval : KlineInterval.t)
  : M unit :=
  interval ← lift (to_binance_kline_interval E interval);
  ws_subscribe "kline" (native_symbol symbol) (Some interval).

Definition _parse_kline (res : BinanceKline.t) : M unit :=
  ticker ← lift (
    symbol ← symbol_of (BinanceKline.s res);
    let k := BinanceKline.k res in
    interval ← parse_kline_interval E (BinanceKlineData.i k);
    open ← Flt.of_string (BinanceKlineData.o k);
    high ← Flt.of_string (BinanceKlineData.h k);
    low ← Flt.of_string (BinanceKlineData.l k);
    close ← Flt.of_string (BinanceKlineData.c k);
    volume ← Flt.of_string (BinanceKlineData.v k);
    Ok (Kline.Build (_exchange_id E) symbol interval open high low close
                    volume (BinanceKlineData.t_ k) (BinanceKline.E res)
                    (BinanceKlineData.x k)));
  publish "kline" (OfKline ticker).

Definition _parse_trade (res : BinanceTradeData.t) : M unit :=
  trade ← lift (
    symbol ← symbol_of (BinanceTradeData.s res);
    price ← Flt.of_string (BinanceTradeData.p res);
    size ← Flt.of_string (BinanceTradeData.q res);
    Ok (Trade.Build (_exchange_id E) symbol price size
                    (BinanceTradeData.T res)));
  publish "trade" (OfTrade trade).

(** The spot ticker carries no event time: the local clock stands in. *)
Definition _parse_spot_book_ticker (res : BinanceSpotBookTicker.t)
  : M unit :=
  bookl1 ← lift (
    symbol ← symbol_of (BinanceSpotBookTicker.s res);
    bid ← Flt.of_string (BinanceSpotBookTicker.b res);
    ask ← Flt.of_string (BinanceSpotBookTicker.a res);
    bid_size ← Flt.of_string (BinanceSpotBookTicker.B res);
    ask_size ← Flt.of_string (BinanceSpotBookTicker.A res);
    Ok (BookL1.Build (_exchange_id E) symbol bid ask bid_size ask_size
                     (clock_timestamp_ms E)));
  publish "bookl1" (OfBookL1 bookl1).

Definition _parse_futures_book_ticker (res : BinanceFuturesBookTicker.t)
  : M unit :=
  bookl1 ← lift (
    symbol ← symbol_of (BinanceFuturesBookTicker.s res);
    bid ← Flt.of_string (BinanceFuturesBookTicker.b res);
    ask ← Flt.of_string (BinanceFuturesBookTicker.a res);
    bid_size ← Flt.of_string (BinanceFuturesBookTicker.B res);
    ask_size ← Flt.of_string (BinanceFuturesBookTicker.A res);
    Ok (BookL1.Build (_exchange_id E) symbol bid ask bid_size ask_size
                     (BinanceFuturesBookTicker.E res)));
  publish "bookl1" (OfBookL1 bookl1).

(** The three values are built before any of them is published. *)
Definition _parse_mark_price (res : BinanceMarkPrice.t) : M unit :=
  '(mark_price, funding_rate, index_price) ← lift (
    symbol ← symbol_of (BinanceMarkPrice.s res);
    price ← Flt.of_string (BinanceMarkPrice.p res);
    rate ← Flt.of_string (BinanceMarkPrice.r res);
    index ← Flt.of_string (BinanceMarkPrice.i res);
    Ok (MarkPrice.Build (_exchange_id E) symbol price
                        (BinanceMarkPrice.E res),
        FundingRate.Build (_exchange_id E) symbol rate
                          (BinanceMarkPrice.E res) (BinanceMarkPrice.T res),
        IndexPrice.Build (_exchange_id E) symbol index
                         (BinanceMarkPrice.E res)));
  publish "mark_price" (OfMarkPrice mark_price);;
  publish "funding_rate" (OfFundingRate funding_rate);;
  publish "index_price" (OfIndexPrice index_price).

(** A parser starts by decoding the frame; the [DecodeError] of a frame
    it cannot decode is the one exception [_ws_msg_handler] catches. *)
Definition decoded {A} (res : option A) (parse : A -> M unit) : M unit :=
  match res with
  | Some res => parse res
  | None => log_error "Error decoding message"
  end.

(** [if msg.e: ... elif msg.u: ...]: the spot book ticker has no [e],
    and is told by a truthy update id. *)
Definition _ws_msg_handler (raw : ws_message) : M unit :=
  match general raw with
  | None => log_error "Error decoding message"
  | Some (Some e, _) =>
      match e with
      | BinanceWsEventType.TRADE => decoded (trade raw) _parse_trade
      | BinanceWsEventType.BOOK_TICKER =>
          decoded (futures_book_ticker raw) _parse_futures_book_ticker
      | BinanceWsEventType.KLINE => decoded (kline raw) _parse_kline
      | BinanceWsEventType.MARK_PRICE_UPDATE =>
          decoded (mark_price raw) _parse_mark_price
      | _ => mret tt
      end
  | Some (None, u) =>
      if match u with Some n => negb (n =? 0) | None => false end
      then decoded (spot_book_ticker raw) _parse_spot_book_ticker
      else mret tt
  end.

End Connector.

End BinancePublicConnector.

(** What a run of the public connector has put on the bus since [st]:
    at most three messages, none if the run raised, each naming the
    connector's exchange and a canonical symbol that the market-id table
    lists under a native id with the connector's market suffix, and all
    naming the same symbol. *)
Module PublicRun.
Import BinancePublicConnector.

Definition listed (E : env) (m : message) : Prop :=
  message_exchange m = _exchange_id E /\
  exists s suffix,
    market_type E = Ok suffix /\
    _market_id E !! (s +:+ suffix) = Some (message_symbol m).

Definition sound (E : env) (st : state) (run : result unit * state)
  : Prop :=
  exists new,
    published run.2 = (published st ++ new)%list /\
    (is_ok run.1 = false -> new = []) /\
    (length new <= 3)%nat /\
    Forall (fun m : string * message => listed E m.2) new /\
    (forall m1 m2, m1 ∈ new -> m2 ∈ new ->
                   message_symbol m1.2 = message_symbol m2.2).

End PublicRun.

(* ===================================================================== *)
(** * What a strategy subscribes to ([nexustrader/strategy.py])           *)
(* ===================================================================== *)

Module StrategyCore.

(** [StrategyBuildError] is declared in [nexustrader/error.py]; the
    other exceptions are Python's own. *)
Inductive raised : Type :=
  | StrategyBuildError
  | Builtin (e : exn).

Inductive outcome (A : Type) : Type :=
  | Done (a : A)
  | Raised (e : raised).
Arguments Done {A} a.
Arguments Raised {A} e.

(** A job of the scheduler: the function, the trigger and the keyword
    arguments handed to [add_job]. *)
Record job : Type := Job {
  func : string;
  trigger : string;
  job_kwargs : dict string pyval;
}.

Section Strategy.

(** What [_init_core] is handed by the engine (the exchanges, the
    private connectors, the cache, the task manager and the execution
    management systems), kept as one value. *)
Variable Core : Type.

(** The strategy and what it has asked of the message bus and of the
    scheduler.  [_subscriptions] is a dict of two sets and a dict, by
    data type. *)
Record t : Type := Build {
  _subscriptions_BOOKL1 : gset string;
  _subscriptions_TRADE : gset string;
  _subscriptions_KLINE : gmap string KlineInterval.t;
  _initialized : bool;
  core : option Core;
  topics : list string;
  endpoints : list string;
  jobs : list job;
}.

Definition __init__ : t := Build ∅ ∅ ∅ false None [] [] [].

(** [_init_core] returns at once on an initialised strategy. *)
Definition _init_core (c : Core) (self : t) : t :=
  if _initialized self then self
  else
    Build (_subscriptions_BOOKL1 self) (_subscriptions_TRADE self)
          (_subscriptions_KLINE self)
          true (Some c)
          (topics self ++ ["trade"; "bookl1"; "kline"])
          (endpoints self ++
             ["pending"; "accepted"; "partially_filled"; "filled";
              "canceling"; "canceled"; "failed"; "cancel_failed";
              "balance"])
          (jobs self).

Definition schedule (f : string) (trigger : string)
    (kwargs : dict string pyval) (self : t) : outcome t :=
  if negb (_initialized self) then Raised (Builtin RuntimeError)
  else
    Done (Build (_subscriptions_BOOKL1 self) (_subscriptions_TRADE self)
                (_subscriptions_KLINE self) (_initialized self) (core self)
                (topics self) (endpoints self)
                (jobs self ++ [Job f trigger kwargs])).

(** [self._subscriptions[DataType.BOOKL1].add(symbol)] *)
Definition add_bookl1 (self : t) (symbol : string) : t :=
  Build (_subscriptions_BOOKL1 self ∪ {[symbol]}) (_subscriptions_TRADE self)
        (_subscriptions_KLINE self) (_initialized self) (core self)
        (topics self) (endpoints self) (jobs self).

(** [self._subscriptions[DataType.TRADE].add(symbol)] *)
Definition add_trade (self : t) (symbol : string) : t :=
  Build (_subscriptions_BOOKL1 self) (_subscriptions_TRADE self ∪ {[symbol]})
        (_subscriptions_KLINE self) (_initialized self) (core self)
        (topics self) (endpoints self) (jobs self).

(** [self._subscriptions[DataType.KLINE][symbol] = interval] *)
Definition set_kline (interval : KlineInterval.t) (self : t)
    (symbol : string) : t :=
  Build (_subscriptions_BOOKL1 self) (_subscriptions_TRADE self)
        (<[symbol := interval]> (_subscriptions_KLINE self))
        (_initialized self) (core self)
        (topics self) (endpoints self) (jobs self).

Definition subscribe_bookl1 (symbols : list string) (self : t) : outcome t :=
  if negb (_initialized self) then Raised StrategyBuildError
  else Done (foldl add_bookl1 self symbols).

Definition subscribe_trade (symbols : list string) (self : t) : outcome t :=
  if negb (_initialized self) then Raised StrategyBuildError
  else Done (foldl add_trade self symbols).

Definition subscribe_kline (symbols : list string)
    (interval : KlineInterval.t) (self : t) : outcome t :=
  if negb (_initialized self) then Raised StrategyBuildError
  else Done (foldl (set_kline interval) self symbols).

(** One call after the other; the first exception ends the run. *)
Definition and_then (m : outcome t) (k : t -> outcome t) : outcome t :=
  match m with
  | Done self => k self
  | Raised e => Raised e
  end.

End Strategy.

Arguments Build {Core}.
Arguments __init__ {Core}.
Arguments _subscriptions_BOOKL1 {Core}.
Arguments _subscriptions_TRADE {Core}.
Arguments _subscriptions_KLINE {Core}.
Arguments _initialized {Core}.
Arguments core {Core}.
Arguments topics {Core}.
Arguments endpoints {Core}.
Arguments jobs {Core}.
Arguments _init_core {Core}.
Arguments schedule {Core}.
Arguments subscribe_bookl1 {Core}.
Arguments subscribe_trade {Core}.
Arguments subscribe_kline {Core}.
Arguments and_then {Core}.
Arguments add_bookl1 {Core}.
Arguments add_trade {Core}.
Arguments set_kline {Core}.

End StrategyCore.

(* ===================================================================== *)
(** * The engine's checks ([tradebot/engine.py])                          *)
(* ===================================================================== *)

(** The Bybit account types the engine names; the enum and its
    [is_testnet] belong to [tradebot/exchange/bybit/constants.py], which
    is not part of the sources at hand. *)
Module BybitAccountType.
Inductive t : Type :=
  | SPOT | LINEAR | INVERSE | UNIFIED
  | SPOT_TESTNET | LINEAR_TESTNET | INVERSE_TESTNET | UNIFIED_TESTNET.
#[global] Instance eq_dec : EqDecision t.
Proof. solve_decision. Defined.
End BybitAccountType.

(** [nexustrader/exchange/okx/constants.py] *)
Module OkxAccountType.
Inductive t : Type := LIVE | AWS | DEMO.
#[global] Instance eq_dec : EqDecision t.
Proof. solve_decision. Defined.

Definition is_testnet (x : t) : bool := bool_decide (x = DEMO).
End OkxAccountType.

Module Engine.

(** [EngineBuildError] is declared in [tradebot/error.py]. *)
Inductive raised : Type :=
  | EngineBuildError
  | Builtin (e : exn).

Inductive outcome (A : Type) : Type :=
  | Done (a : A)
  | Raised (e : raised).
Arguments Done {A} a.
Arguments Raised {A} e.

(** An account type is told by its class ([isinstance]); [Unsupported]
    stands for a key of any other class. *)
Inductive account_type : Type :=
  | OfBybit (a : BybitAccountType.t)
  | OfBinance (a : BinanceAccountType.t)
  | OfOkx (a : OkxAccountType.t)
  | Unsupported (name : string).

Definition is_okx (a : account_type) : bool :=
  match a with OfOkx _ => true | _ => false end.

(** The configuration, as far as the checks read it:
    [basic_config.get(exchange)] gives the [testnet] flag of the entry,
    or nothing; [public_conn_config.get(exchange)] gives the account types
    of the public connectors configured, in order. *)
Record env : Type := Env {
  basic_config : ExchangeType.t -> option bool;
  public_conn_config : ExchangeType.t -> option (list account_type);
  bybit_is_testnet : BybitAccountType.t -> bool;
}.

Section Engine.
Variable E : env.

(** [if not config: raise ... else: if config.testnet != is_testnet:
    raise ...] *)
Definition check_testnet (exchange : ExchangeType.t) (is_testnet : bool)
  : outcome unit :=
  match basic_config E exchange with
  | None => Raised EngineBuildError
  | Some testnet =>
      if negb (Bool.eqb testnet is_testnet) then Raised EngineBuildError
      else Done tt
  end.

(** The body of the loop of [_public_connector_check]: it returns the
    count of OKX connectors seen. *)
Definition check_key (okx_public_conn_count : nat) (key : account_type)
  : outcome nat :=
  match key with
  | OfBybit a =>
      if bool_decide (a = BybitAccountType.UNIFIED)
         || bool_decide (a = BybitAccountType.UNIFIED_TESTNET)
      then Raised EngineBuildError
      else
        match check_testnet ExchangeType.BYBIT (bybit_is_testnet E a) with
        | Raised e => Raised e
        | Done _ => Done okx_public_conn_count
        end
  | OfBinance a =>
      if BinanceAccountType.is_isolated_margin_or_margin a
         || BinanceAccountType.is_portfolio_margin a
      then Raised EngineBuildError
      else
        match check_testnet ExchangeType.BINANCE
                (BinanceAccountType.is_testnet a) with
        | Raised e => Raised e
        | Done _ => Done okx_public_conn_count
        end
  | OfOkx a =>
      if (1 <? okx_public_conn_count)%nat then Raised EngineBuildError
      else
        match check_testnet ExchangeType.OKX (OkxAccountType.is_testnet a)
        with
        | Raised e => Raised e
        | Done _ => Done (okx_public_conn_count + 1)%nat
        end
  | Unsupported _ => Raised EngineBuildError
  end.

Fixpoint check_keys (okx_public_conn_count : nat) (keys : list account_type)
  : outcome unit :=
  match keys with
  | [] => Done tt
  | key :: keys =>
      match check_key okx_public_conn_count key with
      | Raised e => Raised e
      | Done count => check_keys count keys
      end
  end.

(** [keys] are the keys of [self._public_connectors], in order. *)
Definition _public_connector_check (keys : list account_type)
  : outcome unit :=
  check_keys 0 keys.

(** The account type an instrument is routed to. *)
Definition _instrument_id_to_account_type (instrument_id : InstrumentId.t)
  : outcome account_type :=
  match InstrumentId.exchange instrument_id with
  | ExchangeType.BYBIT =>
      match basic_config E ExchangeType.BYBIT with
      | None => Raised EngineBuildError
      | Some is_testnet =>
          if InstrumentId.is_spot instrument_id then
            Done (OfBybit (if is_testnet then BybitAccountType.SPOT_TESTNET
                           else BybitAccountType.SPOT))
          else if InstrumentId.is_linear instrument_id then
            Done (OfBybit (if is_testnet then BybitAccountType.LINEAR_TESTNET
                           else BybitAccountType.LINEAR))
          else if InstrumentId.is_inverse instrument_id then
            Done (OfBybit (if is_testnet then BybitAccountType.INVERSE_TESTNET
                           else BybitAccountType.INVERSE))
          else Raised (Builtin ValueError)
      end
  | ExchangeType.BINANCE =>
      match basic_config E ExchangeType.BINANCE with
      | None => Raised EngineBuildError
      | Some is_testnet =>
          if InstrumentId.is_spot instrument_id then
            Done (OfBinance (if is_testnet
                             then BinanceAccountType.SPOT_TESTNET
                             else BinanceAccountType.SPOT))
          else if InstrumentId.is_linear instrument_id then
            Done (OfBinance (if is_testnet
                             then BinanceAccountType.USD_M_FUTURE_TESTNET
                             else BinanceAccountType.USD_M_FUTURE))
          else if InstrumentId.is_inverse instrument_id then
            Done (OfBinance (if is_testnet
                             then BinanceAccountType.COIN_M_FUTURE_TESTNET
                             else BinanceAccountType.COIN_M_FUTURE))
          else Raised (Builtin ValueError)
      end
  | ExchangeType.OKX =>
      match public_conn_config E ExchangeType.OKX with
      | None | Some [] => Raised EngineBuildError
      | Some (account_type :: _) => Done account_type
      end
  end.

End Engine.

End Engine.

(** What [_public_connector_check] asks of one key, whatever its place
    among the keys. *)
Module EngineCheck.
Import Engine.

Definition accepted (E : env) (key : account_type) : Prop :=
  match key with
  | OfBybit a =>
      a <> BybitAccountType.UNIFIED /\
      a <> BybitAccountType.UNIFIED_TESTNET /\
      basic_config E ExchangeType.BYBIT = Some (bybit_is_testnet E a)
  | OfBinance a =>
      BinanceAccountType.is_isolated_margin_or_margin a
      || BinanceAccountType.is_portfolio_margin a = false /\
      basic_config E ExchangeType.BINANCE
        = Some (BinanceAccountType.is_testnet a)
  | OfOkx a =>
      basic_config E ExchangeType.OKX = Some (OkxAccountType.is_testnet a)
  | Unsupported _ => False
  end.

End EngineCheck.

(* ===================================================================== *)
(** * Further concrete configurations                                     *)
(* ===================================================================== *)

Module Scenario.

(** A USD-M futures connector whose listen key is [key]; every
    keep-alive request raises when [down], and otherwise every third
    one does. *)
Definition stream (down : bool) : UserDataStream.env :=
  UserDataStream.Env BinanceAccountType.USD_M_FUTURE
    (fun _ _ => Ok "key")
    (fun n _ => if down || (n mod 3 =? 2)%nat
                then Raise (ApiError "BinanceClientError") else Ok tt)
    (Ok tt)
    (fun _ => Ok tt).

(** An isolated-margin connector. *)
Definition isolated_stream : UserDataStream.env :=
  UserDataStream.Env BinanceAccountType.ISOLATED_MARGIN
    (fun _ _ => Ok "key") (fun _ _ => Ok tt) (Ok tt) (fun _ => Ok tt).


(** A submission for the perpetual of [Sample], told apart by its
    [uuid]. *)
Definition submission (uuid : string) (submit_type : SubmitType.t)
  : OrderSubmit.t :=
  OrderSubmit.Build "BTC/USDT:USDT-BINANCE" Sample.btc_perp_id uuid
    submit_type OrderSide.BUY Sample.one_btc 0 0 Sample.tenth
    None None None None None [].


(** A market that is neither spot nor linear nor inverse (an option),
    and a connector that lists it beside the perpetual of [Sample]. *)
Definition btc_option : BinanceMarket.t :=
  BinanceMarket.Build "BTC-250627-100000-C" false false false false
    None None.

Definition with_option : BinancePrivateConnector.env :=
  BinancePrivateConnector.Env BinanceAccountType.USD_M_FUTURE
    {[ "BTC/USDT:USDT" := Sample.btc_perp;
       "BTC/USDT:USDT-250627-100000-C" := btc_option ]}
    {[ "BTCUSDT_linear" := "BTC/USDT:USDT" ]}
    "binance" true Sample.api_up Sample.no_account 1700000000123
    Sample.is_market Sample.is_limit
    BinanceEnumParser.parse_order_type
    BinanceEnumParser.parse_order_type.

(** The canonical take-profit order types, by name, and their native
    futures counterparts. *)
Definition TAKE_PROFIT_LIMIT : OrderType.t :=
  OrderType.Other "TAKE_PROFIT_LIMIT".
Definition TAKE_PROFIT_MARKET : OrderType.t :=
  OrderType.Other "TAKE_PROFIT_MARKET".

Definition to_futures_order_type (type : OrderType.t)
  : result BinanceOrderType.t :=
  if decide (type = TAKE_PROFIT_LIMIT) then Ok BinanceOrderType.TAKE_PROFIT
  else if decide (type = TAKE_PROFIT_MARKET)
  then Ok BinanceOrderType.TAKE_PROFIT_MARKET
  else Raise KeyError.

Definition trigger : TriggerOrders.env :=
  TriggerOrders.Env with_option
    to_futures_order_type to_futures_order_type
    (fun _ => Ok "CONTRACT_PRICE")
    (fun type => bool_decide (type ∈ [OrderType.LIMIT; TAKE_PROFIT_LIMIT]))
    (fun _ => Some "99000").

Definition strike : decimal := Dec.of_Z 99000.

(** A strategy the engine has initialised. *)
Definition started : StrategyCore.t unit :=
  StrategyCore._init_core tt StrategyCore.__init__.

(** An engine configured for the live hosts of every exchange, with no
    public connector for OKX. *)
Definition live_engine : Engine.env :=
  Engine.Env (fun _ => Some false) (fun _ => None)
    (fun a =>
       bool_decide (a ∈ [BybitAccountType.SPOT_TESTNET;
                         BybitAccountType.LINEAR_TESTNET;
                         BybitAccountType.INVERSE_TESTNET;
                         BybitAccountType.UNIFIED_TESTNET])).

End Scenario.

(* ===================================================================== *)
(** * Properties                                                          *)
(* ===================================================================== *)

(** ** Dicts *)

Section DictFacts.
Context {K V : Type} `{EqDecision K}.
Implicit Types (d : dict K V) (k : K) (v : V).

Lemma dict_get_set d k v k' :
  dict_get (dict_set d k v) k' =
  if decide (k = k') then Some v else dict_get d k'.
Proof.
  induction d as [|[k0 v0] d IH]; simpl.
  - repeat case_decide; congruence.
  - destruct (decide (k0 = k)) as [->|Hne]; simpl.
    + repeat case_decide; congruence.
    + rewrite IH. repeat case_decide; congruence.
Qed.

Lemma dict_get_elem_of d k v : dict_get d k = Some v -> (k, v) ∈ d.
Proof.
  induction d as [|[k0 v0] d IH]; simpl; [done|].
  case_decide as Hk.
  - intros [= ->]. subst. left.
  - intros Hd. right. auto.
Qed.

Lemma dict_set_keys_subseteq d k v k' :
  k' ∈ (dict_set d k v).*1 -> k' = k \/ k' ∈ d.*1.
Proof.
  induction d as [|[k0 v0] d IH]; simpl.
  - rewrite list_elem_of_singleton. auto.
  - case_decide as Hk; simpl; rewrite !elem_of_cons.
    + intros [->|Hin]; auto.
    + intros [->|Hin]; auto. destruct (IH Hin); auto.
Qed.

Lemma dict_set_NoDup d k v : NoDup d.*1 -> NoDup (dict_set d k v).*1.
Proof.
  induction d as [|[k0 v0] d IH]; simpl; intros Hnd.
  - apply NoDup_singleton.
  - apply NoDup_cons in Hnd as [Hnotin Hnd].
    case_decide as Hk; simpl; apply NoDup_cons.
    + subst. auto.
    + split; [|auto]. intros Hin.
      apply dict_set_keys_subseteq in Hin as [?|?]; [congruence|done].
Qed.

Lemma dict_fold_NoDup (items : list (K * V)) d :
  NoDup d.*1 ->
  NoDup (fold_left (fun d kv => dict_set d kv.1 kv.2) items d).*1.
Proof.
  revert d. induction items as [|[k v] items IH]; simpl; [done|].
  intros d Hnd. apply IH, dict_set_NoDup, Hnd.
Qed.

(** A dict built from items never holds a key twice. *)
Lemma dict_of_items_NoDup (items : list (K * V)) :
  NoDup (dict_of_items items).*1.
Proof. apply dict_fold_NoDup. constructor. Qed.

Lemma elem_of_dict_get d k v :
  NoDup d.*1 -> (k, v) ∈ d -> dict_get d k = Some v.
Proof.
  induction d as [|[k0 v0] d IH]; simpl; intros Hnd Hin.
  - by apply elem_of_nil in Hin.
  - apply NoDup_cons in Hnd as [Hnotin Hnd].
    apply elem_of_cons in Hin as [[= -> ->]|Hin].
    + by rewrite decide_True.
    + case_decide as Hk; [|auto].
      subst. exfalso. apply Hnotin.
      apply list_elem_of_fmap. by exists (k, v).
Qed.

Lemma dict_fold_get_elem_of (items : list (K * V)) d k v :
  dict_get (fold_left (fun d kv => dict_set d kv.1 kv.2) items d) k = Some v ->
  (k, v) ∈ items \/ dict_get d k = Some v.
Proof.
  revert d. induction items as [|[k0 v0] items IH]; simpl; [auto|].
  intros d Hget. apply IH in Hget as [Hin|Hget].
  - left. by right.
  - rewrite dict_get_set in Hget. case_decide as Hk.
    + injection Hget as ->. subst. left. left.
    + auto.
Qed.

(** What a dict built from items holds was among the items. *)
Lemma dict_of_items_get_elem_of (items : list (K * V)) k v :
  dict_get (dict_of_items items) k = Some v -> (k, v) ∈ items.
Proof.
  intros Hget. apply dict_fold_get_elem_of in Hget as [?|Hget]; [done|].
  discriminate Hget.
Qed.
End DictFacts.

(** The inverse built by [{v: k for k, v in d.items()}] sends a value
    back to a key that [d] maps to it. *)
Lemma dict_invert_get {K V} `{EqDecision K, EqDecision V}
    (items : list (K * V)) (v : V) (k : K) :
  dict_get (dict_invert (dict_of_items items)) v = Some k ->
  dict_get (dict_of_items items) k = Some v.
Proof.
  unfold dict_invert. intros Hget.
  apply dict_of_items_get_elem_of in Hget.
  apply list_elem_of_fmap in Hget as [[k' v'] [[= -> ->] Hin]].
  apply elem_of_dict_get; [apply dict_of_items_NoDup | done].
Qed.

Lemma dict_invert_getitem {K V} `{EqDecision K, EqDecision V}
    (items : list (K * V)) (v : V) (k : K) :
  dict_getitem (dict_invert (dict_of_items items)) v = Ok k ->
  dict_getitem (dict_of_items items) k = Ok v.
Proof.
  unfold dict_getitem.
  destruct (dict_get (dict_invert _) v) as [k'|] eqn:Hget; [|done].
  intros [= ->]. by rewrite (dict_invert_get _ _ _ Hget).
Qed.

(** ** Enum parsers: translating to the native enum and parsing back *)

Module EnumRoundTrip.

Lemma binance_order_status v n :
  BinanceEnumParser.to_binance_order_status v = Ok n ->
  BinanceEnumParser.parse_order_status n = Ok v.
Proof. apply dict_invert_getitem. Qed.

Lemma binance_position_side v n :
  BinanceEnumParser.to_binance_position_side v = Ok n ->
  BinanceEnumParser.parse_position_side n = Ok v.
Proof. apply dict_invert_getitem. Qed.

Lemma binance_order_side v n :
  BinanceEnumParser.to_binance_order_side v = Ok n ->
  BinanceEnumParser.parse_order_side n = Ok v.
Proof. apply dict_invert_getitem. Qed.

Lemma binance_time_in_force v n :
  BinanceEnumParser.to_binance_time_in_force v = Ok n ->
  BinanceEnumParser.parse_time_in_force n = Ok v.
Proof. apply dict_invert_getitem. Qed.

Lemma binance_order_type v n :
  BinanceEnumParser.to_binance_order_type v = Ok n ->
  BinanceEnumParser.parse_order_type n = Ok v.
Proof. apply dict_invert_getitem. Qed.

Lemma okx_order_status v n :
  OkxEnumParser.to_okx_order_status v = Ok n ->
  OkxEnumParser.parse_order_status n = Ok v.
Proof. apply dict_invert_getitem. Qed.

Lemma okx_order_side v n :
  OkxEnumParser.to_okx_order_side v = Ok n ->
  OkxEnumParser.parse_order_side n = Ok v.
Proof. apply dict_invert_getitem. Qed.

Lemma okx_kline_interval v n :
  OkxEnumParser.to_okx_kline_interval v = Ok n ->
  OkxEnumParser.parse_kline_interval n = Ok v.
Proof.
  unfold OkxEnumParser.to_okx_kline_interval.
  destruct (negb _); [done|]. apply dict_invert_getitem.
Qed.

(** The OKX position-side table back is written out by hand. *)
Lemma okx_position_side v n :
  OkxEnumParser.to_okx_position_side v = Ok n ->
  OkxEnumParser.parse_position_side n = Ok (Some v).
Proof. destruct v; intros [= <-]; reflexivity. Qed.

(** OKX folds the time in force into the native order type. *)
Lemma okx_order_type t tif n :
  OkxEnumParser.to_okx_order_type t tif = Ok n ->
  (t = OrderType.MARKET \/ t = OrderType.LIMIT ->
   OkxEnumParser.parse_order_type n = Ok t) /\
  (t <> OrderType.MARKET -> OkxEnumParser.parse_time_in_force n = Ok tif) /\
  (t = OrderType.MARKET ->
   OkxEnumParser.parse_time_in_force n = Ok TimeInForce.GTC).
Proof.
  unfold OkxEnumParser.to_okx_order_type.
  destruct (decide (t = OrderType.MARKET)) as [->|Hne].
  - intros [= <-]. repeat split; [done..|].
    intros Hne. by destruct Hne.
  - destruct tif; intros [= <-]; (split; [|split]); try done.
    all: by intros [->| ->].
Qed.

End EnumRoundTrip.

(** C6, as amended.  For every canonical value [v] that the to-native
    translation accepts, parsing the native value back gives [v]: on
    Binance for order status, position side, order side, time in force
    and order type; on OKX for order status, position side, order side
    and kline interval.  On OKX the order type and the time in force
    travel together in the native order type: MARKET and LIMIT come back
    as themselves, and the time in force comes back unchanged unless the
    order type is MARKET, in which case it comes back as GTC. *)
Theorem enum_round_trip :
  (forall v n, BinanceEnumParser.to_binance_order_status v = Ok n ->
               BinanceEnumParser.parse_order_status n = Ok v) /\
  (forall v n, BinanceEnumParser.to_binance_position_side v = Ok n ->
               BinanceEnumParser.parse_position_side n = Ok v) /\
  (forall v n, BinanceEnumParser.to_binance_order_side v = Ok n ->
               BinanceEnumParser.parse_order_side n = Ok v) /\
  (forall v n, BinanceEnumParser.to_binance_time_in_force v = Ok n ->
               BinanceEnumParser.parse_time_in_force n = Ok v) /\
  (forall v n, BinanceEnumParser.to_binance_order_type v = Ok n ->
               BinanceEnumParser.parse_order_type n = Ok v) /\
  (forall v n, OkxEnumParser.to_okx_order_status v = Ok n ->
               OkxEnumParser.parse_order_status n = Ok v) /\
  (forall v n, OkxEnumParser.to_okx_position_side v = Ok n ->
               OkxEnumParser.parse_position_side n = Ok (Some v)) /\
  (forall v n, OkxEnumParser.to_okx_order_side v = Ok n ->
               OkxEnumParser.parse_order_side n = Ok v) /\
  (forall v n, OkxEnumParser.to_okx_kline_interval v = Ok n ->
               OkxEnumParser.parse_kline_interval n = Ok v) /\
  (forall t tif n,
      OkxEnumParser.to_okx_order_type t tif = Ok n ->
      (t = OrderType.MARKET \/ t = OrderType.LIMIT ->
       OkxEnumParser.parse_order_type n = Ok t) /\
      (t <> OrderType.MARKET ->
       OkxEnumParser.parse_time_in_force n = Ok tif) /\
      (t = OrderType.MARKET ->
       OkxEnumParser.parse_time_in_force n = Ok TimeInForce.GTC)).
Proof.
  repeat split.
  - apply EnumRoundTrip.binance_order_status.
  - apply EnumRoundTrip.binance_position_side.
  - apply EnumRoundTrip.binance_order_side.
  - apply EnumRoundTrip.binance_time_in_force.
  - apply EnumRoundTrip.binance_order_type.
  - apply EnumRoundTrip.okx_order_status.
  - apply EnumRoundTrip.okx_position_side.
  - apply EnumRoundTrip.okx_order_side.
  - apply EnumRoundTrip.okx_kline_interval.
  - eapply EnumRoundTrip.okx_order_type; eauto.
  - eapply EnumRoundTrip.okx_order_type; eauto.
  - eapply EnumRoundTrip.okx_order_type; eauto.
Qed.

(** The round trip at work: an accepted Binance order and an OKX
    fill-or-kill limit order. *)
Lemma enum_round_trip_witness :
  BinanceEnumParser.parse_order_status BinanceOrderStatus.NEW
    = Ok OrderStatus.ACCEPTED /\
  OkxEnumParser.parse_order_type OkxOrderType.FOK = Ok OrderType.LIMIT /\
  OkxEnumParser.parse_time_in_force OkxOrderType.FOK = Ok TimeInForce.FOK.
Proof.
  destruct enum_round_trip as (Hstatus & _ & _ & _ & _ & _ & _ & _ & _ & Hokx).
  split.
  - apply (Hstatus OrderStatus.ACCEPTED). reflexivity.
  - destruct (Hokx OrderType.LIMIT TimeInForce.FOK OkxOrderType.FOK)
      as (Htype & Htif & _); [reflexivity|].
    split; [apply Htype; by right | apply Htif; discriminate].
Defined.

(** C6 as stated fails on OKX: the time in force of a market order does
    not survive the round trip. *)
Lemma okx_market_time_in_force_lost :
  exists n,
    OkxEnumParser.to_okx_order_type OrderType.MARKET TimeInForce.IOC = Ok n /\
    OkxEnumParser.parse_time_in_force n = Ok TimeInForce.GTC /\
    OkxEnumParser.parse_time_in_force n <> Ok TimeInForce.IOC.
Proof. exists OkxOrderType.MARKET. repeat split. discriminate. Qed.

(** Values outside the tables are not representable: translating them
    raises. *)
Example pending_not_representable_on_binance :
  BinanceEnumParser.to_binance_order_status OrderStatus.PENDING
    = Raise KeyError.
Proof. reflexivity. Qed.

(** ** Results *)

Lemma bind_Ok {A B} (r : result A) (k : A -> result B) (b : B) :
  r ≫= k = Ok b -> exists a, r = Ok a /\ k a = Ok b.
Proof. destruct r as [a|e]; [|done]. intros Hk. by exists a. Qed.

(** Peels the successful binds of a hypothesis [H : ... = Ok _]. *)
Ltac ok_inv H :=
  repeat
    (let x := fresh "x" in
     let Hx := fresh "Hx" in
     apply bind_Ok in H as (x & Hx & H)).

(** Merges the values of two successful evaluations of one expression. *)
Ltac same_ok :=
  repeat
    match goal with
    | H1 : ?f = Ok ?a, H2 : ?f = Ok ?b |- _ =>
        assert (b = a) by congruence; subst b; clear H2
    end.

(** ** Decimals *)

Module DecFacts.
Import Dec.

Lemma excess_digits_fits fuel c :
  (c < 10 ^ prec)%N -> excess_digits fuel c = 0%N.
Proof.
  intros Hc. destruct fuel; simpl; [done|].
  by apply N.ltb_lt in Hc as ->.
Qed.

(** Rounding leaves alone what fits the context precision. *)
Lemma fix_context_fits d : fits d -> fix_context d = d.
Proof.
  intros Hd. unfold fix_context.
  by rewrite (excess_digits_fits _ _ Hd).
Qed.

Lemma scoef_mul sa ca ea sb cb eb e :
  scoef (Dec (xorb sa sb) (ca * cb) e) =
  scoef (Dec sa ca ea) * scoef (Dec sb cb eb).
Proof.
  unfold scoef; simpl. rewrite N2Z.inj_mul.
  destruct sa, sb; simpl; lia.
Qed.

(** A product that fits the context precision is the exact product. *)
Lemma mul_value a b :
  (d_coef a * d_coef b < 10 ^ prec)%N ->
  value (mul a b) == value a * value b.
Proof.
  intros Hfit. unfold mul. rewrite fix_context_fits by exact Hfit.
  destruct a as [sa ca ea], b as [sb cb eb]. unfold value. simpl d_exp.
  rewrite (scoef_mul sa ca ea sb cb eb), inject_Z_mult.
  rewrite Qpower_plus by discriminate. ring.
Qed.



End DecFacts.

(** ** The private connector *)

Module ConnectorFacts.
Import BinancePrivateConnector.

Lemma M_bind_unfold {A B} (m : M A) (k : A -> M B) st :
  (m ≫= k) st =
  match m st with
  | (Ok a, st') => k a st'
  | (Raise e, st') => (Raise e, st')
  end.
Proof. reflexivity. Qed.

(** A handler that always returns makes the whole [try] return. *)
Lemma try_except_returns {A} (body : M A) (handler : exn -> M A) st :
  (forall e st1, exists a st2, handler e st1 = (Ok a, st2)) ->
  exists a st', try_except body handler st = (Ok a, st').
Proof.
  intros Hh. unfold try_except.
  destruct (body st) as [[a|e] st1]; [by exists a, st1 | apply Hh].
Qed.



(** *** Submitting with an unknown symbol *)

Section AbsentSymbol.
Variable E : env.
Variables (symbol : string) (st : state).
Hypothesis Habsent : _market E !! symbol = None.

Lemma create_order_absent side type amount price tif pside kwargs :
  create_order E symbol side type amount price tif pside kwargs st =
  (Raise ValueError, (limiter_acquire E st).2).
Proof.
  unfold create_order. rewrite M_bind_unfold.
  unfold limiter_acquire. destruct (_limiter E); simpl;
    by rewrite Habsent.
Qed.

Lemma cancel_order_absent order_id kwargs :
  cancel_order E symbol order_id kwargs st =
  (Raise UnboundLocalError, (limiter_acquire E st).2).
Proof.
  unfold cancel_order. rewrite M_bind_unfold.
  unfold limiter_acquire. destruct (_limiter E); simpl;
    by rewrite Habsent.
Qed.

Lemma limiter_acquire_rest_calls :
  st_rest_calls (limiter_acquire E st).2 = st_rest_calls st.
Proof. unfold limiter_acquire. by destruct (_limiter E). Qed.
End AbsentSymbol.

End ConnectorFacts.

(** C4, as amended.  When the symbol is absent from the market table,
    [create_order] raises [ValueError] without sending a REST request, and
    [cancel_order] sends no REST request either. *)
Theorem absent_symbol_no_rest_call
    (E : BinancePrivateConnector.env) (symbol : string)
    (st : BinancePrivateConnector.state)
    (Habsent : BinancePrivateConnector._market E !! symbol = None)
    side type amount price tif pside kwargs order_id :
  (exists st',
     BinancePrivateConnector.create_order E symbol side type amount price
       tif pside kwargs st = (Raise ValueError, st') /\
     BinancePrivateConnector.st_rest_calls st'
       = BinancePrivateConnector.st_rest_calls st) /\
  (BinancePrivateConnector.st_rest_calls
     (BinancePrivateConnector.cancel_order E symbol order_id kwargs st).2
   = BinancePrivateConnector.st_rest_calls st).
Proof.
  split.
  - eexists. split; [by apply ConnectorFacts.create_order_absent|].
    apply ConnectorFacts.limiter_acquire_rest_calls.
  - rewrite ConnectorFacts.cancel_order_absent by done.
    apply ConnectorFacts.limiter_acquire_rest_calls.
Qed.

Lemma absent_symbol_no_rest_call_witness :
  BinancePrivateConnector._market (Sample.futures Sample.api_up)
    !! "ETH/USDT:USDT" = None /\
  (exists st',
     BinancePrivateConnector.create_order (Sample.futures Sample.api_up)
       "ETH/USDT:USDT" OrderSide.BUY OrderType.MARKET Sample.one_btc None
       TimeInForce.GTC None [] BinancePrivateConnector.initial_state
     = (Raise ValueError, st') /\
     BinancePrivateConnector.st_rest_calls st' = []).
Proof.
  split; [reflexivity|].
  apply (absent_symbol_no_rest_call (Sample.futures Sample.api_up)
           "ETH/USDT:USDT" BinancePrivateConnector.initial_state
           eq_refl OrderSide.BUY OrderType.MARKET Sample.one_btc None
           TimeInForce.GTC None [] 0).
Defined.

(** C4 as stated fails: the exception raised for an absent symbol is a
    [ValueError], not an [UnsupportedSymbolError]. *)
Lemma absent_symbol_raises_value_error :
  BinancePrivateConnector._market (Sample.futures Sample.api_up)
    !! "ETH/USDT:USDT" = None /\
  exists e st',
    BinancePrivateConnector.create_order (Sample.futures Sample.api_up)
      "ETH/USDT:USDT" OrderSide.BUY OrderType.MARKET Sample.one_btc None
      TimeInForce.GTC None [] BinancePrivateConnector.initial_state
    = (Raise e, st') /\
    exn_name e <> "UnsupportedSymbolError".
Proof.
  split; [reflexivity|].
  eexists _, _. split; [reflexivity|]. discriminate.
Qed.

(** *** Submission and cancellation failures *)

Module SubmissionFacts.
Import BinancePrivateConnector ConnectorFacts.

Section ListedSymbol.
Variable E : env.
Variables (symbol : string) (st : state) (market : BinanceMarket.t).
Hypothesis Hmarket : _market E !! symbol = Some market.

Lemma limiter_acquire_Ok : (limiter_acquire E st).1 = Ok tt.
Proof. unfold limiter_acquire. by destruct (_limiter E). Qed.

(** Past its checks, [create_order] is the [try] statement. *)
Lemma create_order_unfold side type amount price tif pside kwargs ps :
  create_order_params market side type amount price tif pside kwargs
    = Ok ps ->
  create_order E symbol side type amount price tif pside kwargs st =
  try_except
    (create_order_attempt E market symbol side type amount tif ps)
    (fun e =>
       log_error "Error creating order";;
       mret (failed_order E symbol side type amount price tif pside))
    (limiter_acquire E st).2.
Proof.
  intros Hps. unfold create_order. rewrite M_bind_unfold.
  destruct (limiter_acquire E st) as [r st1] eqn:Hlim.
  pose proof limiter_acquire_Ok as Hok. rewrite Hlim in Hok.
  simpl in Hok. subst r. rewrite Hmarket, M_bind_unfold.
  unfold lift. by rewrite Hps.
Qed.

Lemma cancel_order_unfold order_id kwargs :
  cancel_order E symbol order_id kwargs st =
  try_except
    (cancel_order_attempt E market (BinanceMarket.id market)
       (cancel_order_params (BinanceMarket.id market) order_id kwargs))
    (fun e =>
       log_error "Error canceling order";;
       mret (failed_cancel_order E (BinanceMarket.id market) order_id))
    (limiter_acquire E st).2.
Proof.
  unfold cancel_order. rewrite M_bind_unfold.
  destruct (limiter_acquire E st) as [r st1] eqn:Hlim.
  pose proof limiter_acquire_Ok as Hok. rewrite Hlim in Hok.
  simpl in Hok. subst r. by rewrite Hmarket.
Qed.
End ListedSymbol.



End SubmissionFacts.




(** A LIMIT order without a price is refused the same way. *)
Example create_order_raises_on_missing_price :
  (BinancePrivateConnector.create_order (Sample.futures Sample.api_up)
     "BTC/USDT:USDT" OrderSide.BUY OrderType.LIMIT Sample.one_btc None
     TimeInForce.GTC None [] BinancePrivateConnector.initial_state).1
  = Raise ValueError.
Proof. reflexivity. Qed.

(** *** The orders built from user-data events *)

Module OrderFacts.
Import BinancePrivateConnector ConnectorFacts.

(** The fields of the order built from an [ORDER_TRADE_UPDATE]. *)
Lemma order_of_order_trade_update_inv E res o :
  order_of_order_trade_update E res = Ok o ->
  let d := BinanceFuturesOrderUpdateMsg.o res in
  exists q z ap cost cum_cost,
    Decimal (BinanceFuturesOrderData.q d) = Ok q /\
    Decimal (BinanceFuturesOrderData.z d) = Ok z /\
    Flt.of_string (BinanceFuturesOrderData.ap d) = Ok ap /\
    order_trade_costs E d = Ok (Some (cost, cum_cost)) /\
    Order.amount o = PDec q /\
    Order.filled o = Some z /\
    Order.remaining o = Some (Dec.sub q z) /\
    Order.average o = PFloat ap /\
    Order.cost o = Some cost /\
    Order.cum_cost o = Some cum_cost.
Proof.
  intros H d. unfold order_of_order_trade_update in H.
  ok_inv H.
  match type of H with
  | context [let '(_, _) := ?x in _] => destruct x as [cost cum_cost]
  end.
  ok_inv H. injection H as <-. simpl.
  match goal with
  | Hc : match ?c with Some _ => _ | None => _ end = Ok _ |- _ =>
      destruct c as [[cost' cum_cost']|]; [injection Hc as -> ->|done]
  end.
  same_ok. subst d. repeat eexists; eauto.
Qed.

(** The fields of the order built from an [executionReport]. *)
Lemma order_of_execution_report_inv E ev o :
  order_of_execution_report E ev = Ok o ->
  exists q z average,
    Decimal (BinanceSpotOrderUpdateMsg.q ev) = Ok q /\
    Decimal (BinanceSpotOrderUpdateMsg.z ev) = Ok z /\
    execution_average ev = Ok average /\
    Order.amount o = PDec q /\
    Order.filled o = Some z /\
    Order.remaining o = Some (Dec.sub q z) /\
    Order.average o =
      match average with Some a => PFloat a | None => PNone end.
Proof.
  intros H. unfold order_of_execution_report in H.
  ok_inv H. injection H as <-. simpl.
  same_ok. repeat eexists; eauto.
Qed.

(** What a handler publishes is the order it built, on the Binance
    order topic; when it raises, it publishes nothing. *)
Lemma _parse_order_trade_update_run E res st :
  _parse_order_trade_update E res st =
  match order_of_order_trade_update E res with
  | Ok o => publish "binance.order" o st
  | Raise e => (Raise e, st)
  end.
Proof.
  unfold _parse_order_trade_update. rewrite M_bind_unfold. unfold lift.
  by destruct (order_of_order_trade_update E res).
Qed.

Lemma _parse_execution_report_run E ev st :
  _parse_execution_report E ev st =
  match order_of_execution_report E ev with
  | Ok o => publish "binance.order" o st
  | Raise e => (Raise e, st)
  end.
Proof.
  unfold _parse_execution_report. rewrite M_bind_unfold. unfold lift.
  by destruct (order_of_execution_report E ev).
Qed.




(** *** The orders [create_order] returns *)


(** An order returned by [create_order] was built from the REST
    acknowledgment, or is the synthetic one of the [except] branch. *)
Lemma create_order_Ok_inv E symbol side type amount price tif pside kwargs
    st o st' :
  create_order E symbol side type amount price tif pside kwargs st
    = (Ok o, st') ->
  (exists res, pending_order E symbol side type amount tif res = Ok o) \/
  o = failed_order E symbol side type amount price tif pside.
Proof.
  unfold create_order. rewrite M_bind_unfold.
  destruct (limiter_acquire E st) as [[[]|e] st1]; [|done].
  destruct (_market E !! symbol) as [market|]; [|done].
  rewrite M_bind_unfold. unfold lift.
  destruct (create_order_params _ _ _ _ _ _ _ _) as [ps|e]; [|done].
  unfold try_except, create_order_attempt. rewrite M_bind_unfold.
  destruct (_execute_order_request E market symbol ps st1)
    as [[res|e] st2].
  - unfold lift.
    destruct (pending_order E symbol side type amount tif res)
      as [o'|e] eqn:Hp.
    + intros [= <- <-]. left. by exists res.
    + rewrite M_bind_unfold. simpl. intros [= <- <-]. by right.
  - rewrite M_bind_unfold. simpl. intros [= <- <-]. by right.
Qed.

End OrderFacts.



(** *** Numeric strings convert *)

Lemma numeric_Decimal s : Spec.numeric s -> exists d, Decimal s = Ok d.
Proof. intros [l Hl]. unfold Decimal. rewrite Hl. by eexists. Qed.

Lemma numeric_float s : Spec.numeric s -> exists x, Flt.of_string s = Ok x.
Proof. intros [l Hl]. unfold Flt.of_string. rewrite Hl. by eexists. Qed.

(** *** The average fill price *)

Module AverageFacts.
Import BinancePrivateConnector.

Lemma execution_average_inv ev average :
  execution_average ev = Ok average ->
  exists z,
    Flt.of_string (BinanceSpotOrderUpdateMsg.z ev) = Ok z /\
    (Flt.is_zero z = true -> average = None) /\
    (Flt.is_zero z = false ->
     exists Z,
       Flt.of_string (BinanceSpotOrderUpdateMsg.Z_ ev) = Ok Z /\
       average = Some (SFdiv Flt.fprec Flt.femax Z z)).
Proof.
  unfold execution_average. intros H.
  apply bind_Ok in H as (z & Hz & H). exists z. split; [exact Hz|].
  destruct (Flt.is_zero z) eqn:Hzero; simpl in H.
  - injection H as <-. by split.
  - split; [done|]. intros _. ok_inv H. same_ok.
    match goal with
    | Hd : Flt.fdiv ?Z _ = Ok _ |- _ =>
        unfold Flt.fdiv in Hd; rewrite Hzero in Hd; injection Hd as <-;
        exists Z
    end.
    injection H as <-. by split.
Qed.

(** A well-formed [executionReport] always yields an order. *)
Lemma order_of_execution_report_total E ev suffix symbol :
  market_type E = Some suffix ->
  _market_id E !! (BinanceSpotOrderUpdateMsg.s ev +:+ suffix) = Some symbol ->
  Spec.numeric (BinanceSpotOrderUpdateMsg.q ev) ->
  Spec.numeric (BinanceSpotOrderUpdateMsg.z ev) ->
  Spec.numeric (BinanceSpotOrderUpdateMsg.p ev) ->
  Spec.numeric (BinanceSpotOrderUpdateMsg.l ev) ->
  Spec.numeric (BinanceSpotOrderUpdateMsg.L ev) ->
  Spec.numeric (BinanceSpotOrderUpdateMsg.n ev) ->
  Spec.numeric (BinanceSpotOrderUpdateMsg.Z_ ev) ->
  Spec.numeric (BinanceSpotOrderUpdateMsg.Y ev) ->
  is_ok (BinanceEnumParser.parse_time_in_force
           (BinanceSpotOrderUpdateMsg.f ev)) = true ->
  is_ok (parse_spot_order_type E (BinanceSpotOrderUpdateMsg.o ev)) = true ->
  exists o, order_of_execution_report E ev = Ok o.
Proof.
  intros Hmt Hid Hq Hz Hp Hl HL Hn HZ HY Htif Htype.
  destruct (numeric_Decimal _ Hq) as (dq & Hdq).
  destruct (numeric_Decimal _ Hz) as (dz & Hdz).
  destruct (numeric_Decimal _ Hn) as (dn & Hdn).
  destruct (numeric_Decimal _ HZ) as (dZ & HdZ).
  destruct (numeric_Decimal _ HY) as (dY & HdY).
  destruct (numeric_float _ Hz) as (fz & Hfz).
  destruct (numeric_float _ HZ) as (fZ & HfZ).
  destruct (numeric_float _ Hp) as (fp & Hfp).
  destruct (numeric_float _ Hl) as (fl & Hfl).
  destruct (numeric_float _ HL) as (fL & HfL).
  destruct (BinanceEnumParser.parse_time_in_force _) as [tif|] eqn:Ht;
    [|done].
  destruct (parse_spot_order_type E _) as [ty|] eqn:Hty; [|done].
  unfold order_of_execution_report, execution_average, add_market_type,
    market_id_getitem, Flt.fdiv.
  rewrite Hmt. simpl. rewrite Hid. simpl.
  rewrite Hfz. simpl.
  destruct (Flt.is_zero fz) eqn:Hzero; simpl;
    rewrite ?HfZ, ?Hfz; simpl; rewrite ?Hzero; simpl;
    rewrite Hdq, Hdz, Hty, Ht, Hfp, HfL, Hfl, Hdn, HdZ, HdY; simpl;
    destruct (BinanceSpotOrderUpdateMsg.X ev),
             (BinanceSpotOrderUpdateMsg.S ev); simpl; by eexists.
Qed.

End AverageFacts.

(** C9.  The order published for a spot [executionReport] has, as average
    fill price, [None] when the cumulative filled quantity [z] is zero and
    the quotient [Z / z] of the cumulative quote volume by [z] otherwise;
    the order published for a futures [ORDER_TRADE_UPDATE] carries the
    event's [ap] itself. *)
Theorem spot_average_is_quote_over_base :
  (forall E ev st st',
      BinancePrivateConnector._parse_execution_report E ev st = (Ok tt, st') ->
      exists o z,
        BinancePrivateConnector.st_published st'
        = (BinancePrivateConnector.st_published st
             ++ [("binance.order", o)])%list /\
        Flt.of_string (BinanceSpotOrderUpdateMsg.z ev) = Ok z /\
        (Flt.is_zero z = true -> Order.average o = PNone) /\
        (Flt.is_zero z = false ->
         exists Z,
           Flt.of_string (BinanceSpotOrderUpdateMsg.Z_ ev) = Ok Z /\
           Order.average o = PFloat (SFdiv Flt.fprec Flt.femax Z z))) /\
  (forall E res st st',
      BinancePrivateConnector._parse_order_trade_update E res st
        = (Ok tt, st') ->
      exists o ap,
        BinancePrivateConnector.st_published st'
        = (BinancePrivateConnector.st_published st
             ++ [("binance.order", o)])%list /\
        Flt.of_string
          (BinanceFuturesOrderData.ap (BinanceFuturesOrderUpdateMsg.o res))
          = Ok ap /\
        Order.average o = PFloat ap).
Proof.
  split.
  - intros E ev st st'. rewrite OrderFacts._parse_execution_report_run.
    destruct (BinancePrivateConnector.order_of_execution_report E ev)
      as [o|e] eqn:Ho; [|done].
    intros [= <-].
    destruct (OrderFacts.order_of_execution_report_inv E ev o Ho)
      as (q & dz & average & _ & _ & Havg & _ & _ & _ & Hfield).
    destruct (AverageFacts.execution_average_inv ev average Havg)
      as (z & Hz & Hzero & Hnonzero).
    exists o, z. repeat split; try done.
    + intros Hz0. by rewrite Hfield, (Hzero Hz0).
    + intros Hz0. destruct (Hnonzero Hz0) as (Z & HZ & ->).
      by exists Z.
  - intros E res st st'. rewrite OrderFacts._parse_order_trade_update_run.
    destruct (BinancePrivateConnector.order_of_order_trade_update E res)
      as [o|e] eqn:Ho; [|done].
    intros [= <-].
    destruct (OrderFacts.order_of_order_trade_update_inv E res o Ho)
      as (q & z & ap & _ & _ & _ & _ & Hap & _ & _ & _ & _ & Havg & _).
    by exists o, ap.
Qed.

(** A spot report with [Z = 220] and [z = 2] publishes an order of average
    [220 / 2 = 110]. *)
Lemma spot_average_is_quote_over_base_witness :
  exists st' o,
    BinancePrivateConnector._parse_execution_report
      (Sample.spot Sample.api_up) (Sample.execution_report "220" "2")
      BinancePrivateConnector.initial_state = (Ok tt, st') /\
    BinancePrivateConnector.st_published st' = [("binance.order", o)] /\
    Order.average o = PFloat (Flt.of_Z 110).
Proof.
  assert (Hrun : exists st',
             BinancePrivateConnector._parse_execution_report
               (Sample.spot Sample.api_up) (Sample.execution_report "220" "2")
               BinancePrivateConnector.initial_state = (Ok tt, st'))
    by (eexists; reflexivity).
  destruct Hrun as (st' & Hrun). exists st'.
  destruct spot_average_is_quote_over_base as (Hspot & _).
  destruct (Hspot _ _ _ _ Hrun) as (o & z & Hpub & Hz & _ & Hnonzero).
  exists o. split; [exact Hrun|]. split; [exact Hpub|].
  injection Hz as <-.
  destruct (Hnonzero eq_refl) as (Z & HZ & ->).
  by injection HZ as <-.
Defined.

(** With nothing filled yet there is no average. *)
Example spot_average_none_when_unfilled :
  exists o,
    BinancePrivateConnector.order_of_execution_report
      (Sample.spot Sample.api_up) (Sample.execution_report "0" "0") = Ok o /\
    Order.average o = PNone.
Proof. eexists. split; reflexivity. Qed.

(** *** Cost and cumulative cost of a futures order update *)

Module CostFacts.
Import BinancePrivateConnector.

(** For a market order: last fill times average price, cumulative fill
    times average price. *)
Lemma market_order_costs E d cc :
  is_market E (BinanceFuturesOrderData.o d) = true ->
  order_trade_costs E d = Ok cc ->
  exists l ap z,
    Decimal (BinanceFuturesOrderData.l d) = Ok l /\
    Decimal (BinanceFuturesOrderData.ap d) = Ok ap /\
    Decimal (BinanceFuturesOrderData.z d) = Ok z /\
    cc = Some (Dec.mul l ap, Dec.mul z ap).
Proof.
  unfold order_trade_costs. intros -> H. ok_inv H. same_ok.
  injection H as <-. repeat eexists; eauto.
Qed.

(** For a limit order the order price stands in for a zero average. *)
Lemma limit_order_costs E d cc :
  is_market E (BinanceFuturesOrderData.o d) = false ->
  is_limit E (BinanceFuturesOrderData.o d) = true ->
  order_trade_costs E d = Ok cc ->
  exists l ap z price,
    Decimal (BinanceFuturesOrderData.l d) = Ok l /\
    Decimal (BinanceFuturesOrderData.ap d) = Ok ap /\
    Decimal (BinanceFuturesOrderData.z d) = Ok z /\
    (if Dec.is_zero ap
     then Decimal (BinanceFuturesOrderData.p d) = Ok price
     else price = ap) /\
    cc = Some (Dec.mul l price, Dec.mul z price).
Proof.
  unfold order_trade_costs. intros -> -> H. ok_inv H.
  injection H as <-.
  match goal with
  | Hap : Decimal (BinanceFuturesOrderData.ap d) = Ok ?ap,
    Hl : Decimal (BinanceFuturesOrderData.l d) = Ok ?l,
    Hz : Decimal (BinanceFuturesOrderData.z d) = Ok ?z,
    Hp : (if Dec.truthy ?ap then _ else _) = Ok ?price |- _ =>
      exists l, ap, z, price; repeat split; try done;
      unfold Dec.truthy in Hp; unfold Dec.is_zero;
      destruct (d_coef ap =? 0)%N; simpl in Hp; congruence
  end.
Qed.

(** A well-formed futures order update always yields an order. *)
Lemma order_of_order_trade_update_total E res symbol :
  let d := BinanceFuturesOrderUpdateMsg.o res in
  event_symbol E (BinanceFuturesOrderUpdateMsg.fs res)
    (BinanceFuturesOrderData.s d) = Ok symbol ->
  Spec.numeric (BinanceFuturesOrderData.q d) ->
  Spec.numeric (BinanceFuturesOrderData.z d) ->
  Spec.numeric (BinanceFuturesOrderData.p d) ->
  Spec.numeric (BinanceFuturesOrderData.ap d) ->
  Spec.numeric (BinanceFuturesOrderData.l d) ->
  Spec.numeric (BinanceFuturesOrderData.L d) ->
  Spec.numeric (BinanceFuturesOrderData.n d) ->
  is_ok (BinanceEnumParser.parse_time_in_force
           (BinanceFuturesOrderData.f d)) = true ->
  is_ok (parse_futures_order_type E (BinanceFuturesOrderData.o d)) = true ->
  is_market E (BinanceFuturesOrderData.o d)
    || is_limit E (BinanceFuturesOrderData.o d) = true ->
  exists o, order_of_order_trade_update E res = Ok o.
Proof.
  intros d Hsym Hq Hz Hp Hap Hl HL Hn Htif Htype Hkind.
  destruct (numeric_Decimal _ Hq) as (dq & Hdq).
  destruct (numeric_Decimal _ Hz) as (dz & Hdz).
  destruct (numeric_Decimal _ Hp) as (dp & Hdp).
  destruct (numeric_Decimal _ Hap) as (dap & Hdap).
  destruct (numeric_Decimal _ Hl) as (dl & Hdl).
  destruct (numeric_Decimal _ Hn) as (dn & Hdn).
  destruct (numeric_float _ Hp) as (fp & Hfp).
  destruct (numeric_float _ Hap) as (fap & Hfap).
  destruct (numeric_float _ Hl) as (fl & Hfl).
  destruct (numeric_float _ HL) as (fL & HfL).
  destruct (BinanceEnumParser.parse_time_in_force _) as [tif|] eqn:Ht;
    [|done].
  destruct (parse_futures_order_type E _) as [ty|] eqn:Hty; [|done].
  unfold order_of_order_trade_update, order_trade_costs. fold d.
  rewrite Hsym. simpl.
  destruct (is_market E (BinanceFuturesOrderData.o d)) eqn:Hm;
    [|destruct (is_limit E (BinanceFuturesOrderData.o d)) eqn:Hlim;
      [|done]];
    rewrite ?Hdl, ?Hdap; simpl;
    try (destruct (Dec.truthy dap); simpl; rewrite ?Hdp; simpl);
    rewrite ?Hdl, ?Hdz, ?Hdap; simpl;
    rewrite ?Hdq, ?Hdz, ?Hty, ?Ht, ?Hfp, ?Hfap, ?HfL, ?Hfl, ?Hdn; simpl;
    destruct (BinanceFuturesOrderData.X d), (BinanceFuturesOrderData.S d),
             (BinanceFuturesOrderData.ps d); simpl; by eexists.
Qed.

End CostFacts.

(** The part of C1 that holds.  The order published for a futures
    [ORDER_TRADE_UPDATE] of a market order has [cost] equal to the last
    filled quantity [l] times the average price [ap] and [cum_cost] equal
    to the cumulative filled quantity [z] times [ap], as [Decimal]
    products; the products are exact whenever they fit the precision of
    the decimal context. *)
Theorem market_order_cost_is_last_fill_times_average
    (E : BinancePrivateConnector.env) (res : BinanceFuturesOrderUpdateMsg.t)
    (st st' : BinancePrivateConnector.state) :
  let d := BinanceFuturesOrderUpdateMsg.o res in
  BinancePrivateConnector.is_market E (BinanceFuturesOrderData.o d) = true ->
  BinancePrivateConnector._parse_order_trade_update E res st = (Ok tt, st') ->
  exists o l ap z,
    BinancePrivateConnector.st_published st'
    = (BinancePrivateConnector.st_published st
         ++ [("binance.order", o)])%list /\
    Decimal (BinanceFuturesOrderData.l d) = Ok l /\
    Decimal (BinanceFuturesOrderData.ap d) = Ok ap /\
    Decimal (BinanceFuturesOrderData.z d) = Ok z /\
    Order.cost o = Some (Dec.mul l ap) /\
    Order.cum_cost o = Some (Dec.mul z ap) /\
    ((d_coef l * d_coef ap < 10 ^ Dec.prec)%N ->
     Dec.value (Dec.mul l ap) == Dec.value l * Dec.value ap) /\
    ((d_coef z * d_coef ap < 10 ^ Dec.prec)%N ->
     Dec.value (Dec.mul z ap) == Dec.value z * Dec.value ap).
Proof.
  intros d Hmarket. rewrite OrderFacts._parse_order_trade_update_run.
  destruct (BinancePrivateConnector.order_of_order_trade_update E res)
    as [o|e] eqn:Ho; [|done].
  intros [= <-].
  destruct (OrderFacts.order_of_order_trade_update_inv E res o Ho)
    as (q & z' & fap & cost & cum_cost & _ & _ & _ & Hcc & _ & _ & _ & _
        & Hcost & Hcum).
  destruct (CostFacts.market_order_costs E _ _ Hmarket Hcc)
    as (l & ap & z & Hl & Hap & Hz & [= -> ->]).
  exists o, l, ap, z. repeat split; try done; apply DecFacts.mul_value.
Qed.

(** The two fills of the specification: [l=1, ap=100, z=1] gives cost 100
    and cumulative cost 100; then [l=1, ap=110, z=2] gives cost 110 and
    cumulative cost 220. *)
Lemma market_order_cost_is_last_fill_times_average_witness :
  (exists st' o,
     BinancePrivateConnector._parse_order_trade_update
       (Sample.futures Sample.api_up) Sample.first_fill
       BinancePrivateConnector.initial_state = (Ok tt, st') /\
     BinancePrivateConnector.st_published st' = [("binance.order", o)] /\
     Order.cost o = Some (Dec.of_Z 100) /\
     Order.cum_cost o = Some (Dec.of_Z 100)) /\
  (exists st' o,
     BinancePrivateConnector._parse_order_trade_update
       (Sample.futures Sample.api_up) Sample.second_fill
       BinancePrivateConnector.initial_state = (Ok tt, st') /\
     BinancePrivateConnector.st_published st' = [("binance.order", o)] /\
     Order.cost o = Some (Dec.of_Z 110) /\
     Order.cum_cost o = Some (Dec.of_Z 220)).
Proof.
  split.
  - assert (Hrun : exists st',
               BinancePrivateConnector._parse_order_trade_update
                 (Sample.futures Sample.api_up) Sample.first_fill
                 BinancePrivateConnector.initial_state = (Ok tt, st'))
      by (eexists; reflexivity).
    destruct Hrun as (st' & Hrun). exists st'.
    destruct (market_order_cost_is_last_fill_times_average
                (Sample.futures Sample.api_up) Sample.first_fill
                _ _ eq_refl Hrun)
      as (o & l & ap & z & Hpub & Hl & Hap & Hz & Hcost & Hcum & _).
    exists o. injection Hl as <-. injection Hap as <-. injection Hz as <-.
    by repeat split.
  - assert (Hrun : exists st',
               BinancePrivateConnector._parse_order_trade_update
                 (Sample.futures Sample.api_up) Sample.second_fill
                 BinancePrivateConnector.initial_state = (Ok tt, st'))
      by (eexists; reflexivity).
    destruct Hrun as (st' & Hrun). exists st'.
    destruct (market_order_cost_is_last_fill_times_average
                (Sample.futures Sample.api_up) Sample.second_fill
                _ _ eq_refl Hrun)
      as (o & l & ap & z & Hpub & Hl & Hap & Hz & Hcost & Hcum & _).
    exists o. injection Hl as <-. injection Hap as <-. injection Hz as <-.
    by repeat split.
Defined.

(** For a limit order whose average price is zero, the order price is
    used: a fill of 1 at order price 105.5 costs 105.5. *)
Example limit_order_cost_uses_price_when_average_is_zero :
  exists o,
    BinancePrivateConnector.order_of_order_trade_update
      (Sample.futures Sample.api_up) Sample.limit_fill_without_average
    = Ok o /\
    Order.cost o = Some (Dec false 1055 (-1)) /\
    Order.cum_cost o = Some (Dec false 1055 (-1)).
Proof. eexists. repeat split; reflexivity. Qed.

(** C1, the failing input.  The source means the order price to stand in
    for an average price that is "0 or empty"; with an empty [ap] the
    conversion [Decimal(event_data.ap)] raises instead, the handler lets
    the exception through and no order is published. *)
Theorem limit_order_with_empty_average_raises :
  BinancePrivateConnector.is_limit (Sample.futures Sample.api_up)
    (BinanceFuturesOrderData.o
       (BinanceFuturesOrderUpdateMsg.o Sample.limit_fill_empty_average))
  = true /\
  BinanceFuturesOrderData.ap
    (BinanceFuturesOrderUpdateMsg.o Sample.limit_fill_empty_average) = "" /\
  BinancePrivateConnector._ws_msg_handler (Sample.futures Sample.api_up)
    (BinancePrivateConnector.OrderTradeUpdate
       Sample.limit_fill_empty_average)
    BinancePrivateConnector.initial_state
  = (Raise InvalidOperation, BinancePrivateConnector.initial_state).
Proof. repeat split; reflexivity. Qed.

(** No futures order update with an empty average price is ever turned
    into an order, whatever the order type. *)
Lemma empty_average_never_publishes
    (E : BinancePrivateConnector.env) (res : BinanceFuturesOrderUpdateMsg.t)
    (st : BinancePrivateConnector.state) :
  BinanceFuturesOrderData.ap (BinanceFuturesOrderUpdateMsg.o res) = "" ->
  (forall o,
      BinancePrivateConnector.order_of_order_trade_update E res <> Ok o) /\
  BinancePrivateConnector.st_published
    (BinancePrivateConnector._ws_msg_handler E
       (BinancePrivateConnector.OrderTradeUpdate res) st).2
  = BinancePrivateConnector.st_published st.
Proof.
  intros Hap.
  assert (Hno : forall o,
             BinancePrivateConnector.order_of_order_trade_update E res <> Ok o).
  { intros o Ho.
    destruct (OrderFacts.order_of_order_trade_update_inv E res o Ho)
      as (_ & _ & ap & _ & _ & _ & _ & Hfloat & _).
    rewrite Hap in Hfloat. discriminate Hfloat. }
  split; [exact Hno|]. simpl.
  rewrite OrderFacts._parse_order_trade_update_run.
  destruct (BinancePrivateConnector.order_of_order_trade_update E res)
    as [o|e] eqn:Ho; [by destruct (Hno o)|done].
Qed.

Lemma empty_average_never_publishes_witness :
  BinancePrivateConnector.st_published
    (BinancePrivateConnector._ws_msg_handler (Sample.futures Sample.api_up)
       (BinancePrivateConnector.OrderTradeUpdate
          Sample.limit_fill_empty_average)
       BinancePrivateConnector.initial_state).2 = [].
Proof.
  apply (empty_average_never_publishes (Sample.futures Sample.api_up)
           Sample.limit_fill_empty_average
           BinancePrivateConnector.initial_state eq_refl).
Defined.

(** ** The algo-order constructors *)

(** [create_adp_maker] checks [wait] against [duration] first: with
    [wait > duration] it raises [OrderError] and touches nothing. *)
Lemma create_adp_maker_rejects_long_wait
    (E : Strategy.env) symbol side amount (duration wait : Z) check_interval
    position_side account_type trigger_tp_ratio trigger_sl_ratio tp_ratio
    sl_ratio kwargs (st : Strategy.state) :
  wait > duration ->
  Strategy.create_adp_maker E symbol side amount duration wait check_interval
    position_side account_type trigger_tp_ratio trigger_sl_ratio tp_ratio
    sl_ratio kwargs st
  = (Raise OrderError, st).
Proof.
  intros Hwait. unfold Strategy.create_adp_maker.
  by rewrite (proj2 (Z.gtb_gt wait duration) Hwait).
Qed.

Lemma create_adp_maker_rejects_long_wait_witness :
  60 > 30 /\
  Strategy.create_adp_maker Sample.strategy_env "BTC/USDT:USDT-BINANCE"
    OrderSide.BUY Sample.one_btc 30 60 Sample.tenth None None
    None None None None [] Sample.strategy_state
  = (Raise OrderError, Sample.strategy_state) /\
  Strategy.enqueued Sample.strategy_state = [].
Proof.
  split; [lia|]. split; [|reflexivity].
  apply create_adp_maker_rejects_long_wait. lia.
Defined.

(** Handing a submission to the EMS can only fail on a missing queue. *)
Lemma submit_raises order account_type (st : Strategy.state) e st' :
  Strategy.submit order account_type st = (Raise e, st') -> e = KeyError.
Proof.
  unfold Strategy.submit.
  destruct (_ !! _) as [ems|]; [|by intros [= <- _]].
  unfold BinanceExecutionManagementSystem._submit_order.
  destruct (match account_type with Some a => Some a | None => _ end)
    as [a|]; [|by intros [= <- _]].
  destruct (_ !! a) as [queue|]; [done|by intros [= <- _]].
Qed.

(** [create_twap] has no such check: it never compares [wait] with
    [duration], and the only exceptions that leave it are a missing queue
    and whatever the parsing of the symbol raises. *)
Lemma create_twap_raises
    (E : Strategy.env) symbol side amount (duration wait : Z) check_interval
    position_side account_type kwargs (st : Strategy.state) e st' :
  Strategy.create_twap E symbol side amount duration wait check_interval
    position_side account_type kwargs st = (Raise e, st') ->
  e = KeyError \/ Strategy.from_str E symbol = Raise e.
Proof.
  unfold Strategy.create_twap.
  destruct (Strategy.from_str E symbol) as [i|e0];
    [|intros [= -> _]; by right].
  destruct (Strategy.submit _ _ _) as [[[]|e0] st0] eqn:Hsub; [done|].
  intros [= <- _]. left. eapply submit_raises, Hsub.
Qed.

(** C3, the failing input.  [create_twap] with [wait = 60] and
    [duration = 30] raises nothing: it returns the identifier of the algo
    order and leaves the [OrderSubmit] in the queue of the EMS. *)
Theorem create_twap_accepts_long_wait :
  exists st' order,
    Strategy.create_twap Sample.strategy_env "BTC/USDT:USDT-BINANCE"
      OrderSide.BUY Sample.one_btc 30 60 Sample.tenth None None []
      Sample.strategy_state
    = (Ok "ALGO-0000", st') /\
    Strategy.enqueued Sample.strategy_state = [] /\
    Strategy.enqueued st' = [order] /\
    OrderSubmit.submit_type order = SubmitType.TWAP /\
    OrderSubmit.wait order = 60 /\
    OrderSubmit.duration order = 30.
Proof.
  eexists _, _. split; [reflexivity|]. split; [reflexivity|].
  split; [vm_compute; reflexivity|]. repeat split.
Qed.

(** ** Position updates *)

Module PositionFacts.
Import BinancePrivateConnector.



(** The sign of a decimal is one of three. *)
Lemma sign_cases a :
  Dec.is_zero a = true \/ Dec.is_pos a = true \/ Dec.is_neg a = true.
Proof.
  unfold Dec.is_pos, Dec.is_neg.
  destruct (Dec.is_zero a), (d_neg a); simpl; auto.
Qed.







End PositionFacts.

(** A well-formed position entry always yields a position. *)
Lemma position_of_update_total E fs x symbol :
  BinancePrivateConnector.event_symbol E fs (BinanceFuturesPositionData.s x)
    = Ok symbol ->
  Spec.numeric (BinanceFuturesPositionData.pa x) ->
  Spec.numeric (BinanceFuturesPositionData.ep x) ->
  Spec.numeric (BinanceFuturesPositionData.up x) ->
  Spec.numeric (BinanceFuturesPositionData.cr x) ->
  exists p, BinancePrivateConnector.position_of_update E fs x = Ok p.
Proof.
  intros Hsym Hpa Hep Hup Hcr.
  destruct (numeric_Decimal _ Hpa) as (a & Ha).
  destruct (numeric_float _ Hep) as (ep & Hfep).
  destruct (numeric_float _ Hup) as (up & Hfup).
  destruct (numeric_float _ Hcr) as (cr & Hfcr).
  unfold BinancePrivateConnector.position_of_update.
  rewrite Hsym, Ha, Hfep, Hfup, Hfcr. simpl.
  destruct (BinanceFuturesPositionData.ps x); simpl; by eexists.
Qed.



(** After the account update of a long position, the cache holds it under
    its symbol with the side LONG. *)
Example account_update_reaches_cache :
  exists p,
    BinancePrivateConnector.positions
      (BinancePrivateConnector.st_cache
         (BinancePrivateConnector._ws_msg_handler
            (Sample.futures Sample.api_up)
            (BinancePrivateConnector.AccountUpdate
               (Sample.account_update "1.5"))
            BinancePrivateConnector.initial_state).2)
    !! ("BTC/USDT:USDT", "binance") = Some p /\
    Position.side p = Some PositionSide.LONG.
Proof. eexists. split; [vm_compute; reflexivity|reflexivity]. Qed.

(** ** The execution management system *)

(** C8.  After [_set_account_type]: with a portfolio-margin connector
    configured, every instrument is routed to PORTFOLIO_MARGIN; otherwise
    a spot instrument goes to the first configured account type among
    ISOLATED_MARGIN, MARGIN, SPOT_TESTNET, SPOT (to none if none is
    configured), a linear instrument to the USD-M futures account type and
    an inverse instrument to the COIN-M one, the testnet type when it is
    configured. *)
Theorem account_type_routing
    (connectors : gset BinanceAccountType.t) (i : InstrumentId.t) :
  let ems :=
    BinanceExecutionManagementSystem._set_account_type
      (BinanceExecutionManagementSystem.init connectors) in
  let route :=
    BinanceExecutionManagementSystem._instrument_id_to_account_type ems i in
  (BinanceAccountType.PORTFOLIO_MARGIN ∈ connectors ->
   route = Some BinanceAccountType.PORTFOLIO_MARGIN) /\
  (BinanceAccountType.PORTFOLIO_MARGIN ∉ connectors ->
   (InstrumentId.is_spot i = true ->
    (BinanceAccountType.ISOLATED_MARGIN ∈ connectors ->
     route = Some BinanceAccountType.ISOLATED_MARGIN) /\
    (BinanceAccountType.ISOLATED_MARGIN ∉ connectors ->
     BinanceAccountType.MARGIN ∈ connectors ->
     route = Some BinanceAccountType.MARGIN) /\
    (BinanceAccountType.ISOLATED_MARGIN ∉ connectors ->
     BinanceAccountType.MARGIN ∉ connectors ->
     BinanceAccountType.SPOT_TESTNET ∈ connectors ->
     route = Some BinanceAccountType.SPOT_TESTNET) /\
    (BinanceAccountType.ISOLATED_MARGIN ∉ connectors ->
     BinanceAccountType.MARGIN ∉ connectors ->
     BinanceAccountType.SPOT_TESTNET ∉ connectors ->
     BinanceAccountType.SPOT ∈ connectors ->
     route = Some BinanceAccountType.SPOT) /\
    (BinanceAccountType.ISOLATED_MARGIN ∉ connectors ->
     BinanceAccountType.MARGIN ∉ connectors ->
     BinanceAccountType.SPOT_TESTNET ∉ connectors ->
     BinanceAccountType.SPOT ∉ connectors ->
     route = None)) /\
   (InstrumentId.is_linear i = true ->
    route =
    Some (if bool_decide (BinanceAccountType.USD_M_FUTURE_TESTNET ∈ connectors)
          then BinanceAccountType.USD_M_FUTURE_TESTNET
          else BinanceAccountType.USD_M_FUTURE)) /\
   (InstrumentId.is_inverse i = true ->
    route =
    Some (if bool_decide
               (BinanceAccountType.COIN_M_FUTURE_TESTNET ∈ connectors)
          then BinanceAccountType.COIN_M_FUTURE_TESTNET
          else BinanceAccountType.COIN_M_FUTURE))).
Proof.
  intros ems route. subst ems route.
  unfold BinanceExecutionManagementSystem._set_account_type,
    BinanceExecutionManagementSystem._instrument_id_to_account_type,
    BinanceExecutionManagementSystem.init,
    InstrumentId.is_spot, InstrumentId.is_linear, InstrumentId.is_inverse.
  split.
  - intros Hpm. by rewrite (bool_decide_eq_true_2 _ Hpm).
  - intros Hpm. rewrite (bool_decide_eq_false_2 _ Hpm).
    cbv beta iota delta
      [BinanceExecutionManagementSystem.first_configured
       BinanceExecutionManagementSystem.BINANCE_SPOT_PRIORITY
       BinanceExecutionManagementSystem._private_connectors
       BinanceExecutionManagementSystem._binance_pm_account_type
       BinanceExecutionManagementSystem._binance_spot_account_type
       BinanceExecutionManagementSystem._binance_linear_account_type
       BinanceExecutionManagementSystem._binance_inverse_account_type].
    split; [|split].
    + intros ->. repeat apply conj.
      * intros Him. by rewrite (bool_decide_eq_true_2 _ Him).
      * intros Him Hm.
        by rewrite (bool_decide_eq_false_2 _ Him),
          (bool_decide_eq_true_2 _ Hm).
      * intros Him Hm Hst.
        by rewrite (bool_decide_eq_false_2 _ Him),
          (bool_decide_eq_false_2 _ Hm), (bool_decide_eq_true_2 _ Hst).
      * intros Him Hm Hst Hs.
        by rewrite (bool_decide_eq_false_2 _ Him),
          (bool_decide_eq_false_2 _ Hm), (bool_decide_eq_false_2 _ Hst),
          (bool_decide_eq_true_2 _ Hs).
      * intros Him Hm Hst Hs.
        by rewrite (bool_decide_eq_false_2 _ Him),
          (bool_decide_eq_false_2 _ Hm), (bool_decide_eq_false_2 _ Hst),
          (bool_decide_eq_false_2 _ Hs).
    + by destruct (InstrumentId.type i).
    + by destruct (InstrumentId.type i).
Qed.

(** With margin, spot and USD-M futures connectors, a spot instrument is
    routed to MARGIN and a linear one to USD_M_FUTURE. *)
Lemma account_type_routing_witness :
  let connectors : gset BinanceAccountType.t :=
    {[ BinanceAccountType.SPOT; BinanceAccountType.MARGIN;
       BinanceAccountType.USD_M_FUTURE ]} in
  let ems :=
    BinanceExecutionManagementSystem._set_account_type
      (BinanceExecutionManagementSystem.init connectors) in
  BinanceExecutionManagementSystem._instrument_id_to_account_type ems
    (InstrumentId.Build "BTC/USDT" ExchangeType.BINANCE InstrumentId.SPOT)
  = Some BinanceAccountType.MARGIN /\
  BinanceExecutionManagementSystem._instrument_id_to_account_type ems
    Sample.btc_perp_id
  = Some BinanceAccountType.USD_M_FUTURE.
Proof.
  intros connectors ems. split.
  - destruct (account_type_routing connectors
                (InstrumentId.Build "BTC/USDT" ExchangeType.BINANCE
                   InstrumentId.SPOT)) as (_ & Hrest).
    destruct Hrest as (Hspot & _); [by apply (bool_decide_unpack _)|].
    destruct (Hspot eq_refl) as (_ & Hmargin & _).
    apply Hmargin; by apply (bool_decide_unpack _).
  - destruct (account_type_routing connectors Sample.btc_perp_id)
      as (_ & Hrest).
    destruct Hrest as (_ & Hlinear & _); [by apply (bool_decide_unpack _)|].
    exact (Hlinear eq_refl).
Defined.

(** With a portfolio-margin connector every instrument goes there. *)
Example portfolio_margin_overrides :
  BinanceExecutionManagementSystem._instrument_id_to_account_type
    (BinanceExecutionManagementSystem._set_account_type
       (BinanceExecutionManagementSystem.init
          {[ BinanceAccountType.SPOT; BinanceAccountType.PORTFOLIO_MARGIN ]}))
    Sample.btc_perp_id
  = Some BinanceAccountType.PORTFOLIO_MARGIN.
Proof. by vm_compute. Qed.



(* ===================================================================== *)
(** * Further properties of the code                                      *)
(* ===================================================================== *)

(** ** Enum parsers: parsing a native value and translating it back *)

(** Every native Binance value that a [parse_*] method accepts is what
    the matching [to_binance_*] method gives back for the parsed value:
    the tables are one-to-one, so the inverses built by the dict
    comprehensions lose nothing. *)
Theorem binance_native_round_trip :
  (forall n v, BinanceEnumParser.parse_order_status n = Ok v ->
               BinanceEnumParser.to_binance_order_status v = Ok n) /\
  (forall n v, BinanceEnumParser.parse_position_side n = Ok v ->
               BinanceEnumParser.to_binance_position_side v = Ok n) /\
  (forall n v, BinanceEnumParser.parse_order_side n = Ok v ->
               BinanceEnumParser.to_binance_order_side v = Ok n) /\
  (forall n v, BinanceEnumParser.parse_time_in_force n = Ok v ->
               BinanceEnumParser.to_binance_time_in_force v = Ok n) /\
  (forall n v, BinanceEnumParser.parse_order_type n = Ok v ->
               BinanceEnumParser.to_binance_order_type v = Ok n).
Proof.
  repeat apply conj; intros [] v H; vm_compute in H;
    first [discriminate H | by injection H as <-].
Qed.

Lemma binance_native_round_trip_witness :
  BinanceEnumParser.parse_position_side BinancePositionSide.BOTH
    = Ok PositionSide.FLAT /\
  BinanceEnumParser.to_binance_position_side PositionSide.FLAT
    = Ok BinancePositionSide.BOTH.
Proof.
  split; [reflexivity|].
  destruct binance_native_round_trip as (_ & Hside & _).
  apply (Hside BinancePositionSide.BOTH). reflexivity.
Defined.

(** [OkxEnumParser.parse_order_type] and [parse_time_in_force] accept the
    same native order types and raise [NotImplementedError] on the same
    ones; translating the parsed pair back gives the native order type
    again, except that POST_ONLY comes back as LIMIT. *)
Theorem okx_native_order_type_round_trip :
  (forall n,
      is_ok (OkxEnumParser.parse_order_type n)
      = is_ok (OkxEnumParser.parse_time_in_force n)) /\
  (forall n,
      is_ok (OkxEnumParser.parse_order_type n) = false ->
      OkxEnumParser.parse_order_type n = Raise NotImplementedError /\
      OkxEnumParser.parse_time_in_force n = Raise NotImplementedError) /\
  (forall n t tif,
      OkxEnumParser.parse_order_type n = Ok t ->
      OkxEnumParser.parse_time_in_force n = Ok tif ->
      OkxEnumParser.to_okx_order_type t tif
      = Ok (if decide (n = OkxOrderType.POST_ONLY) then OkxOrderType.LIMIT
            else n)).
Proof.
  repeat apply conj.
  - by intros [].
  - by intros [].
  - intros [] t tif Ht Htif; simpl in Ht, Htif;
      first [discriminate Ht
            | injection Ht as <-; injection Htif as <-; reflexivity].
Qed.

Lemma okx_native_order_type_round_trip_witness :
  OkxEnumParser.parse_order_type OkxOrderType.IOC = Ok OrderType.LIMIT /\
  OkxEnumParser.parse_time_in_force OkxOrderType.IOC = Ok TimeInForce.IOC /\
  OkxEnumParser.to_okx_order_type OrderType.LIMIT TimeInForce.IOC
    = Ok OkxOrderType.IOC.
Proof.
  split; [reflexivity|]. split; [reflexivity|].
  destruct okx_native_order_type_round_trip as (_ & _ & Hback).
  apply (Hback OkxOrderType.IOC OrderType.LIMIT TimeInForce.IOC);
    reflexivity.
Defined.

(** The two OKX position-side parsers agree wherever the method
    [OkxPositionSide.parse_to_position_side] returns; on the member NONE
    they part: the method raises [RuntimeError], the table of
    [OkxEnumParser.parse_position_side] gives Python's [None]. *)
Theorem okx_position_side_parsers_agree :
  (forall s v,
      OkxPositionSide.parse_to_position_side s = Ok v ->
      OkxEnumParser.parse_position_side s = Ok (Some v)) /\
  (forall s,
      s <> OkxPositionSide.NONE ->
      is_ok (OkxPositionSide.parse_to_position_side s) = true) /\
  OkxPositionSide.parse_to_position_side OkxPositionSide.NONE
    = Raise RuntimeError /\
  OkxEnumParser.parse_position_side OkxPositionSide.NONE = Ok None.
Proof.
  repeat apply conj; try reflexivity.
  - intros [] v H; vm_compute in H;
      first [discriminate H | by injection H as <-].
  - by intros [].
Qed.

Lemma okx_position_side_parsers_agree_witness :
  OkxPositionSide.parse_to_position_side OkxPositionSide.NET
    = Ok PositionSide.FLAT /\
  OkxEnumParser.parse_position_side OkxPositionSide.NET
    = Ok (Some PositionSide.FLAT).
Proof.
  split; [reflexivity|].
  destruct okx_position_side_parsers_agree as (Hagree & _).
  apply (Hagree OkxPositionSide.NET). reflexivity.
Defined.

(** [OkxEnumParser.to_okx_kline_interval] never lets a [KeyError] out:
    it returns a native interval that parses back to the canonical one,
    or raises [KlineSupportedError], and it raises exactly when no native
    interval parses to the canonical one. *)
Theorem okx_kline_interval_supported (v : KlineInterval.t) :
  match OkxEnumParser.to_okx_kline_interval v with
  | Ok n => OkxEnumParser.parse_kline_interval n = Ok v
  | Raise e =>
      e = KlineSupportedError /\
      forall n, OkxEnumParser.parse_kline_interval n <> Ok v
  end.
Proof.
  destruct v; try reflexivity.
  split; [reflexivity|]. by intros [].
Qed.

(** ** Binance account types *)

(** The five families that the connector's [if]/[elif] chains test --
    spot, margin (cross or isolated), linear, inverse, portfolio margin --
    split the account types: every account type is in exactly one.  The
    coarser predicates are unions of them. *)
Theorem account_type_families_partition (a : BinanceAccountType.t) :
  length (filter (fun b : bool => b = true)
            [BinanceAccountType.is_spot a;
             BinanceAccountType.is_isolated_margin_or_margin a;
             BinanceAccountType.is_linear a;
             BinanceAccountType.is_inverse a;
             BinanceAccountType.is_portfolio_margin a]) = 1%nat /\
  BinanceAccountType.is_future a
    = BinanceAccountType.is_linear a || BinanceAccountType.is_inverse a /\
  BinanceAccountType.is_spot_or_margin a
    = BinanceAccountType.is_spot a
      || BinanceAccountType.is_isolated_margin_or_margin a /\
  BinanceAccountType.is_isolated_margin_or_margin a
    = BinanceAccountType.is_margin a
      || BinanceAccountType.is_isolated_margin a.
Proof. by destruct a. Qed.

(** ** The user data stream *)

Module StreamFacts.
Import UserDataStream.

Lemma M_bind_run {A B} (m : M A) (k : A -> M B) st :
  (m ≫= k) st =
  match m st with
  | (Ok a, st') => k a st'
  | (Raise e, st') => (Raise e, st')
  end.
Proof. reflexivity. Qed.

(** Outside isolated margin, keeping the listen key alive is one PUT
    request. *)
Lemma _keep_alive_listen_key_request E listen_key :
  _account_type E <> BinanceAccountType.ISOLATED_MARGIN ->
  exists ep arg,
    forall st, _keep_alive_listen_key E listen_key st
               = request_put E ep arg st.
Proof.
  intros Ha. unfold _keep_alive_listen_key.
  destruct (_account_type E); try done; simpl; by eexists _, _.
Qed.

(** Starting the stream is one POST request, whose listen key or
    exception is the outcome; isolated margin has no branch. *)
Lemma _start_user_data_stream_isolated E st :
  _account_type E = BinanceAccountType.ISOLATED_MARGIN ->
  _start_user_data_stream E st = (Raise UnboundLocalError, st).
Proof. intros Ha. unfold _start_user_data_stream. by rewrite Ha. Qed.

Lemma _start_user_data_stream_request E :
  _account_type E <> BinanceAccountType.ISOLATED_MARGIN ->
  exists ep,
    forall st,
      _start_user_data_stream E st
      = (api_post E (requests st) ep,
         State (events st ++ [Request ep None]) (S (requests st))).
Proof.
  intros Ha. unfold _start_user_data_stream.
  destruct (_account_type E); try done; simpl;
    match goal with
    | |- context [request_post E ?ep] => exists ep
    end;
    intros st; rewrite !M_bind_run; unfold request_post; simpl;
    by destruct (api_post E _ _).
Qed.

(** Closes a goal that assumes a [Subscribe] among events that hold
    none. *)
Ltac no_subscribe :=
  intros;
  match goal with
  | |- _ ∉ _ => intros ?
  | _ => idtac
  end;
  repeat match goal with
         | H : _ ∈ _ :: _ |- _ => apply elem_of_cons in H as [H|H]
         | H : _ ∈ [] |- _ => by apply elem_of_nil in H
         | H : Subscribe _ = _ |- _ => discriminate H
         end.

Section Pass.
Variable E : env.
Variables (listen_key : string) (interval max_retry : Z).
Variables (ep : endpoint) (arg : option string).
Hypothesis Hrequest :
  forall st, _keep_alive_listen_key E listen_key st = request_put E ep arg st.

(** A pass whose request is answered resets the retry count. *)
Lemma keep_alive_pass_answered retry_count st :
  api_put E (requests st) ep = Ok tt ->
  exists st',
    keep_alive_pass E listen_key interval max_retry retry_count st
    = (Ok (0, false), st') /\
    requests st' = S (requests st).
Proof.
  intros Hok. unfold keep_alive_pass. rewrite M_bind_run. simpl.
  unfold try_except. rewrite M_bind_run, Hrequest.
  unfold request_put. simpl. rewrite Hok. by eexists.
Qed.

(** A pass whose request raises counts one more retry, and breaks out
    of the loop when the count reaches [max_retry]. *)
Lemma keep_alive_pass_raised retry_count st e :
  api_put E (requests st) ep = Raise e ->
  exists st',
    keep_alive_pass E listen_key interval max_retry retry_count st
    = (Ok (retry_count + 1, negb (retry_count + 1 <? max_retry)), st') /\
    requests st' = S (requests st).
Proof.
  intros Hraise. unfold keep_alive_pass. rewrite M_bind_run. simpl.
  unfold try_except. rewrite M_bind_run, Hrequest.
  unfold request_put. simpl. rewrite Hraise.
  rewrite M_bind_run. simpl.
  destruct (retry_count + 1 <? max_retry); simpl; by eexists.
Qed.

Lemma keep_alive_loop_gives_up (n : nat) :
  forall retry_count st fuel,
    0 <= retry_count ->
    Z.of_nat n = max_retry - retry_count ->
    (0 < n)%nat ->
    (forall i, (i < n)%nat ->
               is_ok (api_put E (requests st + i) ep) = false) ->
    (n <= fuel)%nat ->
    exists st',
      keep_alive_loop E fuel listen_key interval max_retry retry_count st
      = (Ok Stopped, st') /\
      requests st' = (requests st + n)%nat.
Proof.
  induction n as [|n IH]; intros r st fuel Hr Hn Hpos Hfail Hfuel; [lia|].
  destruct fuel as [|fuel]; [lia|]. simpl.
  rewrite (proj2 (Z.ltb_lt r max_retry)) by lia.
  rewrite M_bind_run.
  pose proof (Hfail 0%nat ltac:(lia)) as H0. rewrite Nat.add_0_r in H0.
  destruct (api_put E (requests st) ep) as [[]|e] eqn:Hput; [done|].
  destruct (keep_alive_pass_raised r st e Hput) as (st1 & -> & Hreq1).
  destruct (Z.ltb_spec (r + 1) max_retry) as [Hlt|Hge]; simpl.
  - destruct (IH (r + 1) st1 fuel) as (st' & Hrun & Hreq'); try lia.
    { intros i Hi. rewrite Hreq1.
      replace (S (requests st) + i)%nat with (requests st + S i)%nat by lia.
      apply Hfail. lia. }
    exists st'. split; [exact Hrun|]. lia.
  - exists st1. split; [done|]. lia.
Qed.

Lemma keep_alive_loop_keeps_running (fuel : nat) :
  forall retry_count st,
    0 <= retry_count < max_retry ->
    ((Z.to_nat (max_retry - retry_count) <= fuel)%nat ->
     exists j, (j < Z.to_nat (max_retry - retry_count))%nat /\
               api_put E (requests st + j) ep = Ok tt) ->
    (forall i, (i + Z.to_nat max_retry <= fuel)%nat ->
               exists j, (i <= j < i + Z.to_nat max_retry)%nat /\
                         api_put E (requests st + j) ep = Ok tt) ->
    exists retry_count' st',
      keep_alive_loop E fuel listen_key interval max_retry retry_count st
      = (Ok (Running retry_count'), st') /\
      0 <= retry_count' < max_retry /\
      requests st' = (requests st + fuel)%nat.
Proof.
  induction fuel as [|fuel IH]; intros r st Hr Hfirst Hwin; simpl;
    rewrite (proj2 (Z.ltb_lt r max_retry)) by lia.
  - exists r, st. split; [done|]. split; [lia|lia].
  - rewrite M_bind_run.
    assert (Hshift : forall st1,
               requests st1 = S (requests st) ->
               forall i, (i + Z.to_nat max_retry <= fuel)%nat ->
                 exists j, (i <= j < i + Z.to_nat max_retry)%nat /\
                           api_put E (requests st1 + j) ep = Ok tt).
    { intros st1 Hreq1 i Hi.
      destruct (Hwin (S i) ltac:(lia)) as (j & Hj & Hok).
      exists (j - 1)%nat. split; [lia|].
      rewrite Hreq1.
      by replace (S (requests st) + (j - 1))%nat
        with (requests st + j)%nat by lia. }
    destruct (api_put E (requests st) ep) as [[]|e] eqn:Hput.
    + destruct (keep_alive_pass_answered r st Hput) as (st1 & -> & Hreq1).
      simpl.
      destruct (IH 0 st1) as (r' & st' & Hrun & Hr' & Hreq'); [lia| |by auto|].
      { intros Hle. rewrite Z.sub_0_r in Hle |- *.
        destruct (Hshift st1 Hreq1 0%nat ltac:(lia)) as (j & Hj & Hok).
        exists j. split; [lia|done]. }
      exists r', st'. split; [exact Hrun|]. split; [done|]. lia.
    + destruct (keep_alive_pass_raised r st e Hput) as (st1 & -> & Hreq1).
      destruct (Z.ltb_spec (r + 1) max_retry) as [Hlt|Hge]; simpl.
      * destruct (IH (r + 1) st1) as (r' & st' & Hrun & Hr' & Hreq');
          [lia| |by auto|].
        { intros Hle.
          destruct Hfirst as (j & Hj & Hok); [lia|].
          destruct j as [|j].
          { rewrite Nat.add_0_r in Hok. congruence. }
          exists j. split; [lia|]. rewrite Hreq1.
          by replace (S (requests st) + j)%nat
            with (requests st + S j)%nat by lia. }
        exists r', st'. split; [exact Hrun|]. split; [done|]. lia.
      * destruct Hfirst as (j & Hj & Hok); [lia|].
        assert (j = 0%nat) as -> by lia.
        rewrite Nat.add_0_r in Hok. congruence.
Qed.
End Pass.

End StreamFacts.

(** Isolated margin is left out of both listen-key chains.  For an
    isolated-margin account [_start_user_data_stream] sends no request
    and raises [UnboundLocalError] when it reads the unassigned [res],
    and [_keep_alive_listen_key] returns without sending anything.  For
    every other account type each of them sends exactly one request, and
    its outcome is that of the request. *)
Theorem isolated_margin_has_no_listen_key
    (E : UserDataStream.env) (st : UserDataStream.state)
    (listen_key : string) :
  (UserDataStream._account_type E = BinanceAccountType.ISOLATED_MARGIN ->
   UserDataStream._start_user_data_stream E st
     = (Raise UnboundLocalError, st) /\
   UserDataStream._keep_alive_listen_key E listen_key st = (Ok tt, st)) /\
  (UserDataStream._account_type E <> BinanceAccountType.ISOLATED_MARGIN ->
   (exists ep,
      UserDataStream._start_user_data_stream E st
      = (UserDataStream.api_post E (UserDataStream.requests st) ep,
         UserDataStream.State
           (UserDataStream.events st ++ [UserDataStream.Request ep None])
           (S (UserDataStream.requests st)))) /\
   (exists ep arg,
      UserDataStream._keep_alive_listen_key E listen_key st
      = (UserDataStream.api_put E (UserDataStream.requests st) ep,
         UserDataStream.State
           (UserDataStream.events st ++ [UserDataStream.Request ep arg])
           (S (UserDataStream.requests st))))).
Proof.
  split.
  - intros Ha. split.
    + by apply StreamFacts._start_user_data_stream_isolated.
    + unfold UserDataStream._keep_alive_listen_key. by rewrite Ha.
  - intros Ha. split.
    + destruct (StreamFacts._start_user_data_stream_request E Ha)
        as (ep & Hreq).
      exists ep. by rewrite Hreq.
    + destruct (StreamFacts._keep_alive_listen_key_request E listen_key Ha)
        as (ep & arg & Hreq).
      exists ep, arg. by rewrite Hreq.
Qed.

Lemma isolated_margin_has_no_listen_key_witness :
  UserDataStream._start_user_data_stream Scenario.isolated_stream
    UserDataStream.initial_state
  = (Raise UnboundLocalError, UserDataStream.initial_state) /\
  (UserDataStream.connect Scenario.isolated_stream
     UserDataStream.initial_state).1 = Raise UnboundLocalError.
Proof.
  destruct (isolated_margin_has_no_listen_key Scenario.isolated_stream
              UserDataStream.initial_state "key") as [Hiso _].
  split; [apply Hiso; reflexivity | reflexivity].
Defined.

(** [connect] subscribes to the user data stream only once the base
    class has connected and the exchange has answered the listen-key
    request with a non-empty key, the one it subscribes with and for
    which it has handed the keep-alive task to the task manager.  It
    returns normally only if it has subscribed; an isolated-margin
    connector never subscribes. *)
Theorem connect_subscribes_with_listen_key
    (E : UserDataStream.env) (st : UserDataStream.state) :
  exists new,
    UserDataStream.events (UserDataStream.connect E st).2
      = (UserDataStream.events st ++ new)%list /\
    (forall k,
        UserDataStream.Subscribe k ∈ new ->
        k <> "" /\
        UserDataStream.super_connect E = Ok tt /\
        (exists ep,
           UserDataStream.api_post E (UserDataStream.requests st) ep = Ok k) /\
        UserDataStream.CreateTask k ∈ new) /\
    ((UserDataStream.connect E st).1 = Ok tt ->
     exists k, UserDataStream.Subscribe k ∈ new) /\
    (UserDataStream._account_type E = BinanceAccountType.ISOLATED_MARGIN ->
     forall k, UserDataStream.Subscribe k ∉ new).
Proof.
  unfold UserDataStream.connect. rewrite StreamFacts.M_bind_run.
  unfold UserDataStream.connect_base.
  destruct (UserDataStream.super_connect E) as [[]|e0] eqn:Hsuper; simpl.
  2:{ exists [UserDataStream.SuperConnect]. split; [done|].
      split; [|split; [done|]]; StreamFacts.no_subscribe. }
  rewrite StreamFacts.M_bind_run.
  set (st0 := UserDataStream.State _ _).
  destruct (decide (UserDataStream._account_type E
                    = BinanceAccountType.ISOLATED_MARGIN)) as [Ha|Ha].
  { rewrite (StreamFacts._start_user_data_stream_isolated E st0 Ha).
    exists [UserDataStream.SuperConnect]. split; [done|].
    split; [|split; [done|]]; StreamFacts.no_subscribe. }
  destruct (StreamFacts._start_user_data_stream_request E Ha)
    as (ep & ->).
  change (UserDataStream.requests st0) with (UserDataStream.requests st).
  destruct (UserDataStream.api_post E (UserDataStream.requests st) ep)
    as [k|e1] eqn:Hpost; simpl.
  2:{ exists [UserDataStream.SuperConnect; UserDataStream.Request ep None].
      split; [by rewrite <- app_assoc|].
      split; [|split; [done|]]; StreamFacts.no_subscribe. }
  destruct (bool_decide (k = "")) eqn:Hk; simpl.
  { exists [UserDataStream.SuperConnect; UserDataStream.Request ep None].
    split; [by rewrite <- app_assoc|].
    split; [|split; [done|]]; StreamFacts.no_subscribe. }
  apply bool_decide_eq_false in Hk.
  exists [UserDataStream.SuperConnect; UserDataStream.Request ep None;
          UserDataStream.CreateTask k; UserDataStream.Subscribe k].
  split; [by rewrite <- !app_assoc|].
  split; [|split; [|done]].
  - intros k' Hin. rewrite !elem_of_cons, elem_of_nil in Hin.
    destruct Hin as [Hin|[Hin|[Hin|[Hin|[]]]]]; try discriminate Hin.
    injection Hin as ->.
    repeat split; [done|by exists ep|].
    rewrite !elem_of_cons. auto.
  - intros _. exists k. rewrite !elem_of_cons. auto.
Qed.

(** [_keep_alive_user_data_stream] gives up for good after [max_retry]
    failures in a row.  From a retry count [retry_count], once the next
    [max_retry - retry_count] keep-alive requests all raise, the loop
    has stopped, having sent exactly those requests: no later request is
    ever sent, so the listen key is left to expire. *)
Theorem keep_alive_gives_up
    (E : UserDataStream.env) (listen_key : string)
    (interval max_retry retry_count : Z) (st : UserDataStream.state)
    (fuel : nat) :
  UserDataStream._account_type E <> BinanceAccountType.ISOLATED_MARGIN ->
  0 <= retry_count < max_retry ->
  let n := Z.to_nat (max_retry - retry_count) in
  (forall i ep,
      (i < n)%nat ->
      is_ok (UserDataStream.api_put E (UserDataStream.requests st + i) ep)
      = false) ->
  (n <= fuel)%nat ->
  exists st',
    UserDataStream.keep_alive_loop E fuel listen_key interval max_retry
      retry_count st = (Ok UserDataStream.Stopped, st') /\
    UserDataStream.requests st' = (UserDataStream.requests st + n)%nat.
Proof.
  intros Ha Hr n Hfail Hfuel.
  destruct (StreamFacts._keep_alive_listen_key_request E listen_key Ha)
    as (ep & arg & Hreq).
  apply (StreamFacts.keep_alive_loop_gives_up E listen_key interval
           max_retry ep arg Hreq n); subst n; try lia.
  intros i Hi. by apply Hfail.
Qed.

(** With every request failing and [max_retry = 3], the loop started by
    [connect] stops after three requests, however long it is given. *)
Lemma keep_alive_gives_up_witness :
  exists st',
    UserDataStream._keep_alive_user_data_stream (Scenario.stream true)
      10 "key" 20 3 UserDataStream.initial_state
    = (Ok UserDataStream.Stopped, st') /\
    UserDataStream.requests st' = 3%nat.
Proof.
  apply (keep_alive_gives_up (Scenario.stream true) "key" 20 3 0
           UserDataStream.initial_state 10).
  - discriminate.
  - lia.
  - intros i ep _. reflexivity.
  - simpl. lia.
Defined.

(** A success resets the retry count: as long as every [max_retry]
    requests in a row hold one that is answered, the loop never stops.
    After [fuel] passes it is still running, with a retry count below
    [max_retry], and has sent one request per pass. *)
Theorem keep_alive_keeps_running
    (E : UserDataStream.env) (listen_key : string)
    (interval max_retry : Z) (st : UserDataStream.state) (fuel : nat) :
  UserDataStream._account_type E <> BinanceAccountType.ISOLATED_MARGIN ->
  0 < max_retry ->
  (forall i,
      (i + Z.to_nat max_retry <= fuel)%nat ->
      exists j,
        (i <= j < i + Z.to_nat max_retry)%nat /\
        forall ep,
          UserDataStream.api_put E (UserDataStream.requests st + j) ep
          = Ok tt) ->
  exists retry_count st',
    UserDataStream._keep_alive_user_data_stream E fuel listen_key interval
      max_retry st = (Ok (UserDataStream.Running retry_count), st') /\
    0 <= retry_count < max_retry /\
    UserDataStream.requests st' = (UserDataStream.requests st + fuel)%nat.
Proof.
  intros Ha Hmax Hwin.
  destruct (StreamFacts._keep_alive_listen_key_request E listen_key Ha)
    as (ep & arg & Hreq).
  apply (StreamFacts.keep_alive_loop_keeps_running E listen_key interval
           max_retry ep arg Hreq fuel 0 st); [lia| |].
  - rewrite Z.sub_0_r. intros Hle.
    destruct (Hwin 0%nat ltac:(lia)) as (j & Hj & Hok).
    exists j. split; [lia|apply Hok].
  - intros i Hi. destruct (Hwin i Hi) as (j & Hj & Hok).
    exists j. split; [done|apply Hok].
Qed.

(** With every third request failing and [max_retry = 2], the loop is
    still running after seven passes. *)
Lemma keep_alive_keeps_running_witness :
  exists retry_count st',
    UserDataStream._keep_alive_user_data_stream (Scenario.stream false)
      7 "key" 20 2 UserDataStream.initial_state
    = (Ok (UserDataStream.Running retry_count), st') /\
    0 <= retry_count < 2 /\
    UserDataStream.requests st' = 7%nat.
Proof.
  apply (keep_alive_keeps_running (Scenario.stream false) "key" 20 2
           UserDataStream.initial_state 7).
  - discriminate.
  - lia.
  - intros i Hi. simpl in Hi.
    destruct i as [|[|[|[|[|[|i]]]]]];
      [exists 0%nat|exists 1%nat|exists 3%nat|exists 3%nat|exists 4%nat
      |exists 6%nat|lia];
      (split; [simpl; lia | intros ep; reflexivity]).
Defined.

(** ** The order submit queues *)

Module QueueFacts.
Import BinanceExecutionManagementSystem.

(** [_build_order_submit_queues] gives every connector an empty queue
    and leaves the other queues alone. *)
Lemma build_queues_lookup (connectors : gset BinanceAccountType.t)
    (queues : gmap BinanceAccountType.t (list OrderSubmit.t)) a :
  set_fold (fun account_type qs => <[account_type := []]> qs)
           queues connectors !! a
  = if bool_decide (a ∈ connectors) then Some [] else queues !! a.
Proof.
  revert a.
  pose proof
    (set_fold_ind_L
       (fun r (X : gset BinanceAccountType.t) =>
          forall a, r !! a
                    = if bool_decide (a ∈ X) then Some [] else queues !! a)
       (fun account_type qs => <[account_type := []]> qs) queues) as Hind.
  apply Hind; clear Hind.
  - intros a. rewrite bool_decide_eq_false_2; [done|].
    apply not_elem_of_empty.
  - intros x X r Hx IH a.
    destruct (decide (a = x)) as [->|Hne].
    + rewrite lookup_insert_eq, bool_decide_eq_true_2; [done|].
      apply elem_of_union_l. by apply elem_of_singleton.
    + rewrite lookup_insert_ne by done. rewrite IH.
      destruct (decide (a ∈ X)) as [Hin|Hin].
      * rewrite !bool_decide_eq_true_2; [done| |done].
        by apply elem_of_union_r.
      * rewrite !bool_decide_eq_false_2; [done| |done].
        intros [Ha%elem_of_singleton|Ha]%elem_of_union; done.
Qed.

Lemma built_queue connectors a :
  _order_submit_queues (EmsRun.built connectors) !! a
  = if bool_decide (a ∈ connectors) then Some [] else None.
Proof.
  unfold EmsRun.built, _build_order_submit_queues. simpl.
  rewrite build_queues_lookup.
  assert (Hset : _private_connectors (_set_account_type (init connectors))
                 = connectors /\
                 _order_submit_queues (_set_account_type (init connectors))
                 = ∅).
  { unfold _set_account_type, init. simpl.
    by destruct (bool_decide
                   (BinanceAccountType.PORTFOLIO_MARGIN ∈ connectors)). }
  destruct Hset as [-> ->].
  by destruct (bool_decide (a ∈ connectors)).
Qed.

(** Building the queues does not change the routing. *)
Lemma built_route connectors i :
  _instrument_id_to_account_type (EmsRun.built connectors) i
  = _instrument_id_to_account_type (_set_account_type (init connectors)) i.
Proof. reflexivity. Qed.

(** What [_submit_order] does, given where the submission is bound. *)
Lemma _submit_order_bound self order account_type a :
  match account_type with
  | Some a' => Some a'
  | None => _instrument_id_to_account_type self (OrderSubmit.instrument_id order)
  end = Some a ->
  _submit_order self order account_type
  = match _order_submit_queues self !! a with
    | Some queue =>
        Ok (Build (_private_connectors self)
                  (_binance_spot_account_type self)
                  (_binance_linear_account_type self)
                  (_binance_inverse_account_type self)
                  (_binance_pm_account_type self)
                  (<[a := (queue ++ [order])%list]>
                     (_order_submit_queues self)))
    | None => Raise KeyError
    end.
Proof. unfold _submit_order. by intros ->. Qed.

End QueueFacts.

(** Once the account types are set and the queues are built, a
    submission that names no account type is enqueued exactly when the
    account type its instrument is routed to has a connector: it is then
    alone in that queue and the other queues are untouched.  Otherwise
    [_submit_order] raises [KeyError].  So, without a portfolio-margin
    connector, a linear instrument cannot be submitted unless a USD-M
    futures connector, live or testnet, is configured. *)
Theorem submission_needs_routed_connector
    (connectors : gset BinanceAccountType.t) (order : OrderSubmit.t) :
  let ems := EmsRun.built connectors in
  let route :=
    BinanceExecutionManagementSystem._instrument_id_to_account_type ems
      (OrderSubmit.instrument_id order) in
  (forall a,
      route = Some a -> a ∈ connectors ->
      exists ems',
        BinanceExecutionManagementSystem._submit_order ems order None
          = Ok ems' /\
        BinanceExecutionManagementSystem._order_submit_queues ems' !! a
          = Some [order] /\
        forall b,
          b <> a ->
          BinanceExecutionManagementSystem._order_submit_queues ems' !! b
          = BinanceExecutionManagementSystem._order_submit_queues ems !! b) /\
  ((route = None \/ exists a, route = Some a /\ a ∉ connectors) ->
   BinanceExecutionManagementSystem._submit_order ems order None
     = Raise KeyError) /\
  (BinanceAccountType.PORTFOLIO_MARGIN ∉ connectors ->
   BinanceAccountType.USD_M_FUTURE ∉ connectors ->
   BinanceAccountType.USD_M_FUTURE_TESTNET ∉ connectors ->
   InstrumentId.is_linear (OrderSubmit.instrument_id order) = true ->
   BinanceExecutionManagementSystem._submit_order ems order None
     = Raise KeyError).
Proof.
  intros ems route.
  assert (Hnone : route = None ->
            BinanceExecutionManagementSystem._submit_order ems order None
            = Raise KeyError).
  { intros Hroute.
    unfold BinanceExecutionManagementSystem._submit_order.
    fold route. by rewrite Hroute. }
  assert (Hmissing : forall a, route = Some a -> a ∉ connectors ->
            BinanceExecutionManagementSystem._submit_order ems order None
            = Raise KeyError).
  { intros a Hroute Ha.
    rewrite (QueueFacts._submit_order_bound ems order None a Hroute).
    subst ems. rewrite QueueFacts.built_queue.
    by rewrite bool_decide_eq_false_2. }
  repeat apply conj.
  - intros a Hroute Ha.
    rewrite (QueueFacts._submit_order_bound ems order None a Hroute).
    subst ems. rewrite QueueFacts.built_queue.
    rewrite bool_decide_eq_true_2 by done.
    eexists. split; [reflexivity|]. simpl. split.
    + by rewrite lookup_insert_eq.
    + intros b Hb. by rewrite lookup_insert_ne.
  - intros [Hroute|(a & Hroute & Ha)]; [by apply Hnone|by eapply Hmissing].
  - intros Hpm Hlive Htest Hlinear.
    apply (Hmissing BinanceAccountType.USD_M_FUTURE); [|done].
    subst route ems. rewrite QueueFacts.built_route.
    unfold BinanceExecutionManagementSystem._instrument_id_to_account_type,
      BinanceExecutionManagementSystem._set_account_type,
      BinanceExecutionManagementSystem.init.
    rewrite (bool_decide_eq_false_2 _ Hpm). simpl.
    rewrite (bool_decide_eq_false_2 _ Htest).
    unfold InstrumentId.is_spot, InstrumentId.is_linear in *.
    apply bool_decide_eq_true in Hlinear. rewrite Hlinear.
    by rewrite bool_decide_eq_false_2, bool_decide_eq_true_2.
Qed.

(** Submissions bound for one queue wait there in the order they were
    made: after any number of calls to [_submit_order] naming the account
    type of an existing queue, that queue holds what it held followed by
    the submissions in call order, and every other queue and the routing
    are as before. *)
Theorem submissions_keep_their_order
    (self : BinanceExecutionManagementSystem.t)
    (a : BinanceAccountType.t) (queue : list OrderSubmit.t)
    (orders : list OrderSubmit.t) :
  BinanceExecutionManagementSystem._order_submit_queues self !! a
    = Some queue ->
  exists self',
    EmsRun.submit_orders self orders (Some a) = Ok self' /\
    BinanceExecutionManagementSystem._order_submit_queues self' !! a
      = Some (queue ++ orders)%list /\
    (forall b,
        b <> a ->
        BinanceExecutionManagementSystem._order_submit_queues self' !! b
        = BinanceExecutionManagementSystem._order_submit_queues self !! b) /\
    (forall i,
        BinanceExecutionManagementSystem._instrument_id_to_account_type
          self' i
        = BinanceExecutionManagementSystem._instrument_id_to_account_type
            self i).
Proof.
  revert self queue. induction orders as [|order orders IH];
    intros self queue Hqueue; simpl.
  - exists self. by rewrite app_nil_r.
  - rewrite (QueueFacts._submit_order_bound self order (Some a) a eq_refl).
    rewrite Hqueue. simpl.
    set (self1 := BinanceExecutionManagementSystem.Build _ _ _ _ _ _).
    destruct (IH self1 (queue ++ [order])%list) as (self' & Hrun & Hq & Hother & Hroute).
    { subst self1. simpl. by rewrite lookup_insert_eq. }
    exists self'. split; [exact Hrun|]. split.
    { by rewrite Hq, <- app_assoc. }
    split.
    + intros b Hb. rewrite (Hother b Hb). subst self1. simpl.
      by rewrite lookup_insert_ne.
    + intros i. by rewrite Hroute.
Qed.

(** Three submissions to the USD-M futures queue of the sample EMS. *)
Lemma submissions_keep_their_order_witness :
  let o1 := Scenario.submission "a" SubmitType.CREATE in
  let o2 := Scenario.submission "b" SubmitType.TWAP in
  let o3 := Scenario.submission "a" SubmitType.CANCEL in
  exists self',
    EmsRun.submit_orders Sample.ems [o1; o2; o3]
      (Some BinanceAccountType.USD_M_FUTURE) = Ok self' /\
    BinanceExecutionManagementSystem._order_submit_queues self'
      !! BinanceAccountType.USD_M_FUTURE = Some [o1; o2; o3].
Proof.
  intros o1 o2 o3.
  destruct (submissions_keep_their_order Sample.ems
              BinanceAccountType.USD_M_FUTURE [] [o1; o2; o3] eq_refl)
    as (self' & Hrun & Hq & _).
  by exists self'.
Defined.

(** ** Request parameters *)

Section DictUpdates.
Context {K V : Type} `{EqDecision K}.
Implicit Types (d : dict K V) (k : K) (v : V).

Lemma dict_get_not_key d k : k ∉ d.*1 -> dict_get d k = None.
Proof.
  induction d as [|[k0 v0] d IH]; simpl; [done|].
  rewrite not_elem_of_cons. intros [Hne Hnotin].
  by rewrite decide_False by done; auto.
Qed.

Lemma dict_del_keys d k k' : k' ∈ (dict_del d k).*1 -> k' ∈ d.*1.
Proof.
  induction d as [|[k0 v0] d IH]; simpl; [done|].
  case_decide; simpl; rewrite !elem_of_cons; [auto|].
  intros [->|Hin]; auto.
Qed.

Lemma dict_del_NoDup d k : NoDup d.*1 -> NoDup (dict_del d k).*1.
Proof.
  induction d as [|[k0 v0] d IH]; simpl; [done|].
  rewrite NoDup_cons. intros [Hnotin Hnd].
  case_decide; simpl; [done|].
  apply NoDup_cons. split; [|auto].
  intros Hin. by apply Hnotin, (dict_del_keys d k).
Qed.

(** [del d[k]] removes the key and nothing else. *)
Lemma dict_get_del d k k' :
  NoDup d.*1 ->
  dict_get (dict_del d k) k' = if decide (k = k') then None else dict_get d k'.
Proof.
  induction d as [|[k0 v0] d IH]; simpl.
  - by case_decide.
  - rewrite NoDup_cons. intros [Hnotin Hnd].
    destruct (decide (k0 = k)) as [->|Hne]; simpl.
    + destruct (decide (k = k')) as [->|Hne']; [|done].
      by apply dict_get_not_key.
    + rewrite IH by done.
      destruct (decide (k0 = k')) as [->|Hne'];
        by repeat case_decide; try congruence.
  Qed.

(** [d.update(other)]: the values of [other] win, the other keys keep
    theirs. *)
Lemma dict_get_update d (other : dict K V) k :
  NoDup other.*1 ->
  dict_get (dict_update d other) k
  = match dict_get other k with
    | Some v => Some v
    | None => dict_get d k
    end.
Proof.
  unfold dict_update. revert d.
  induction other as [|[k0 v0] other IH]; intros d; simpl; [done|].
  rewrite NoDup_cons. intros [Hnotin Hnd].
  rewrite IH by done. rewrite dict_get_set.
  destruct (decide (k0 = k)) as [->|Hne]; [|done].
  by rewrite (dict_get_not_key other k).
Qed.

(** [d.pop(k, default)] *)
Lemma dict_pop_get d k default k' :
  NoDup d.*1 ->
  dict_get (dict_pop d k default).2 k'
  = if decide (k = k') then None else dict_get d k'.
Proof.
  intros Hnd. unfold dict_pop.
  destruct (dict_get d k) as [v|] eqn:Hk; simpl.
  - by apply dict_get_del.
  - case_decide; congruence.
Qed.

Lemma dict_pop_NoDup d k default :
  NoDup d.*1 -> NoDup (dict_pop d k default).2.*1.
Proof.
  intros Hnd. unfold dict_pop.
  destruct (dict_get d k); simpl; [by apply dict_del_NoDup|done].
Qed.
End DictUpdates.

Module ParamsFacts.
Import BinancePrivateConnector.

(** What the two pops of [pop_reduce_only] leave of [kwargs]. *)
Lemma pop_reduce_only_spec (kwargs : params) :
  NoDup kwargs.*1 ->
  let given k :=
    match dict_get kwargs k with Some v => py_truthy v | None => false end in
  py_truthy (pop_reduce_only kwargs).1
    = given "reduceOnly" || given "reduce_only" /\
  NoDup (pop_reduce_only kwargs).2.*1 /\
  dict_get (pop_reduce_only kwargs).2 "reduceOnly" = None /\
  dict_get (pop_reduce_only kwargs).2 "reduce_only"
    = (if given "reduceOnly" then dict_get kwargs "reduce_only" else None) /\
  (forall k, k <> "reduceOnly" -> k <> "reduce_only" ->
             dict_get (pop_reduce_only kwargs).2 k = dict_get kwargs k).
Proof.
  intros Hnd given. unfold pop_reduce_only.
  pose proof (dict_pop_NoDup kwargs "reduceOnly" (PBool false) Hnd) as Hnd1.
  pose proof (fun k => dict_pop_get kwargs "reduceOnly" (PBool false) k Hnd)
    as Hget1.
  assert (Hv1 : py_truthy (dict_pop kwargs "reduceOnly" (PBool false)).1
                = given "reduceOnly").
  { subst given. unfold dict_pop. simpl.
    by destruct (dict_get kwargs "reduceOnly"). }
  destruct (dict_pop kwargs "reduceOnly" (PBool false)) as [v1 kwargs1].
  simpl in *. rewrite <- Hv1.
  destruct (py_truthy v1) eqn:Htruthy; simpl.
  - rewrite Htruthy.
    repeat apply conj;
      first [ done
            | by rewrite Hget1
            | intros k Hk1 Hk2; rewrite Hget1; by rewrite decide_False ].
  - pose proof (dict_pop_NoDup kwargs1 "reduce_only" (PBool false) Hnd1)
      as Hnd2.
    pose proof (fun k =>
                  dict_pop_get kwargs1 "reduce_only" (PBool false) k Hnd1)
      as Hget2.
    assert (Hv2 : py_truthy (dict_pop kwargs1 "reduce_only" (PBool false)).1
                  = given "reduce_only").
    { subst given. unfold dict_pop. simpl.
      assert (dict_get kwargs1 "reduce_only"
              = dict_get kwargs "reduce_only") as -> by apply Hget1.
      by destruct (dict_get kwargs "reduce_only"). }
    destruct (dict_pop kwargs1 "reduce_only" (PBool false)) as [v2 kwargs2].
    simpl in *.
    repeat apply conj;
      first [ done
            | by rewrite Hget2, ?Hget1
            | intros k Hk1 Hk2; rewrite Hget2, Hget1;
              by rewrite !decide_False ].
Qed.

(** The request of [create_order] is what the call computes, without
    either spelling of the reduce-only flag, then the flag, then the
    keyword arguments left. *)
Lemma create_order_params_inv market side type amount price tif pside
    (kwargs : params) ps :
  create_order_params market side type amount price tif pside kwargs
    = Ok ps ->
  exists computed : params,
    dict_get computed "reduceOnly" = None /\
    dict_get computed "reduce_only" = None /\
    ps = dict_update
           (if py_truthy (pop_reduce_only kwargs).1
            then dict_set computed "reduceOnly" (PBool true) else computed)
           (pop_reduce_only kwargs).2.
Proof.
  unfold create_order_params. intros H.
  apply bind_Ok in H as (bside & _ & H).
  apply bind_Ok in H as (btype & _ & H).
  apply bind_Ok in H as (ps1 & Hps1 & H).
  apply bind_Ok in H as (ps2 & Hps2 & H).
  destruct (pop_reduce_only kwargs) as [ro kw]. injection H as <-.
  exists ps2. split; [|split; [|done]].
  - destruct pside as [s|]; [apply bind_Ok in Hps2 as (bps & _ & Hps2)|];
      injection Hps2 as <-;
      (destruct (decide (type = OrderType.LIMIT));
       [destruct price as [pr|]; [|done];
        destruct (negb (Dec.truthy pr)); [done|];
        apply bind_Ok in Hps1 as (btif & _ & Hps1)|];
       injection Hps1 as <-; by rewrite ?dict_get_set).
  - destruct pside as [s|]; [apply bind_Ok in Hps2 as (bps & _ & Hps2)|];
      injection Hps2 as <-;
      (destruct (decide (type = OrderType.LIMIT));
       [destruct price as [pr|]; [|done];
        destruct (negb (Dec.truthy pr)); [done|];
        apply bind_Ok in Hps1 as (btif & _ & Hps1)|];
       injection Hps1 as <-; by rewrite ?dict_get_set).
Qed.

End ParamsFacts.

(** [create_order] sends the reduce-only flag under one spelling.  The
    request carries [reduceOnly = True] exactly when the caller passed a
    truthy [reduceOnly] or, failing that, a truthy [reduce_only]; a falsy
    flag is dropped.  The spelling [reduce_only] never reaches the
    request, except when a truthy [reduceOnly] came with it: the second
    pop is then skipped and [reduce_only] is sent along as it was
    given. *)
Theorem reduce_only_is_normalised
    (market : BinanceMarket.t) side type amount price tif pside
    (kwargs ps : BinancePrivateConnector.params) :
  NoDup kwargs.*1 ->
  BinancePrivateConnector.create_order_params market side type amount price
    tif pside kwargs = Ok ps ->
  let given k :=
    match dict_get kwargs k with Some v => py_truthy v | None => false end in
  dict_get ps "reduceOnly"
    = (if given "reduceOnly" || given "reduce_only"
       then Some (PBool true) else None) /\
  dict_get ps "reduce_only"
    = (if given "reduceOnly" then dict_get kwargs "reduce_only" else None).
Proof.
  intros Hnd Hps given.
  destruct (ParamsFacts.create_order_params_inv _ _ _ _ _ _ _ _ _ Hps)
    as (computed & Hro & Hro' & ->).
  destruct (ParamsFacts.pop_reduce_only_spec kwargs Hnd)
    as (Htruthy & Hnd' & Hkw & Hkw' & _).
  subst given. cbv beta.
  rewrite !dict_get_update by done. rewrite Hkw, Hkw', Htruthy.
  destruct (dict_get kwargs "reduceOnly") as [v1|];
    destruct (dict_get kwargs "reduce_only") as [v2|];
    try destruct (py_truthy v1); try destruct (py_truthy v2); simpl;
    by rewrite ?dict_get_set.
Qed.

(** A caller that passes [reduce_only=True] gets [reduceOnly] in the
    request; one that passes both spellings gets both. *)
Lemma reduce_only_is_normalised_witness :
  (exists ps,
     BinancePrivateConnector.create_order_params Sample.btc_perp
       OrderSide.SELL OrderType.MARKET Sample.one_btc None TimeInForce.GTC
       None [("reduce_only", PBool true)] = Ok ps /\
     dict_get ps "reduceOnly" = Some (PBool true) /\
     dict_get ps "reduce_only" = None) /\
  (exists ps,
     BinancePrivateConnector.create_order_params Sample.btc_perp
       OrderSide.SELL OrderType.MARKET Sample.one_btc None TimeInForce.GTC
       None [("reduceOnly", PBool true); ("reduce_only", PBool true)]
     = Ok ps /\
     dict_get ps "reduceOnly" = Some (PBool true) /\
     dict_get ps "reduce_only" = Some (PBool true)).
Proof.
  split.
  - eexists. split; [reflexivity|].
    apply (reduce_only_is_normalised Sample.btc_perp OrderSide.SELL
             OrderType.MARKET Sample.one_btc None TimeInForce.GTC None
             [("reduce_only", PBool true)]); [|reflexivity].
    apply (bool_decide_unpack _). vm_compute. reflexivity.
  - eexists. split; [reflexivity|].
    apply (reduce_only_is_normalised Sample.btc_perp OrderSide.SELL
             OrderType.MARKET Sample.one_btc None TimeInForce.GTC None
             [("reduceOnly", PBool true); ("reduce_only", PBool true)]);
      [|reflexivity].
    apply (bool_decide_unpack _). vm_compute. reflexivity.
Defined.



(** ** The private connector: dispatch, symbols, partial updates *)

Module DispatchFacts.
Import BinancePrivateConnector ConnectorFacts.

(** Does the market trade on the connector's account type? *)
Lemma _execute_order_request_cases E market symbol ps st :
  let a := _account_type E in
  let r := _execute_order_request E market symbol ps st in
  if BinanceAccountType.is_spot a && BinanceMarket.spot market
     || BinanceAccountType.is_isolated_margin_or_margin a
        && BinanceMarket.margin market
     || BinanceAccountType.is_linear a && BinanceMarket.linear market
     || BinanceAccountType.is_inverse a && BinanceMarket.inverse market
     || BinanceAccountType.is_portfolio_margin a
        && (BinanceMarket.margin market || BinanceMarket.linear market
            || BinanceMarket.inverse market)
  then exists ep,
         r = (match api_order E ep ps with
              | Ok x => Ok (Some x)
              | Raise e => Raise e
              end,
              State (st_cache st) (st_published st)
                    (st_rest_calls st ++ [(ep, ps)])
                    (st_errors st) (st_limiter_acquired st))
  else r = (Raise ValueError, st) \/ r = (Ok None, st).
Proof.
  intros a r. subst a r. unfold _execute_order_request.
  destruct market as [id sp mg li inv cmin amin]. simpl.
  destruct (_account_type E), sp, mg, li, inv; simpl;
    first [ by left | by right
          | rewrite M_bind_unfold; unfold rest_order; simpl;
            match goal with
            | |- context [api_order E ?ep ps] =>
                exists ep; by destruct (api_order E ep ps)
            end ].
Qed.

(** The same for [_execute_cancel_order_request]. *)
Lemma _execute_cancel_order_request_cases E market symbol ps st :
  let r := _execute_cancel_order_request E market symbol ps st in
  (exists ep,
     r = (match api_order E ep ps with
          | Ok x => Ok (Some x)
          | Raise e => Raise e
          end,
          State (st_cache st) (st_published st)
                (st_rest_calls st ++ [(ep, ps)])
                (st_errors st) (st_limiter_acquired st))) \/
  r = (Raise ValueError, st) \/ r = (Ok None, st).
Proof.
  intros r. subst r. unfold _execute_cancel_order_request.
  destruct market as [id sp mg li inv cmin amin]. simpl.
  destruct (_account_type E), sp, mg, li, inv; simpl;
    first [ by right; left | by right; right
          | left; rewrite M_bind_unfold; unfold rest_order; simpl;
            match goal with
            | |- context [api_order E ?ep ps] =>
                exists ep; by destruct (api_order E ep ps)
            end ].
Qed.

Lemma canceling_order_inv E symbol res o :
  canceling_order E symbol res = Ok o ->
  Order.symbol o = symbol /\ Order.status o = OrderStatus.CANCELING.
Proof.
  intros H. unfold canceling_order in H. ok_inv H. by injection H as <-.
Qed.

Lemma pending_order_symbol E symbol side type amount tif res o :
  pending_order E symbol side type amount tif res = Ok o ->
  Order.symbol o = symbol.
Proof.
  intros H. unfold pending_order in H. ok_inv H. by injection H as <-.
Qed.

(** The loop over the positions of an account update: it applies the
    positions built from a prefix of the entries, and stops at the first
    entry it cannot build a position from. *)
Lemma apply_positions_prefix E fs l st :
  exists n ps,
    Forall2 (fun x p => position_of_update E fs x = Ok p) (take n l) ps /\
    positions (st_cache (apply_positions E fs l st).2)
      = Spec.positions_applied ps (positions (st_cache st)) /\
    balances (st_cache (apply_positions E fs l st).2)
      = balances (st_cache st) /\
    match (apply_positions E fs l st).1 with
    | Ok _ => n = length l
    | Raise e =>
        exists x, l !! n = Some x /\ position_of_update E fs x = Raise e
    end.
Proof.
  revert st. induction l as [|x l IH]; intros st; simpl.
  - exists 0%nat, []. repeat split; constructor.
  - rewrite M_bind_unfold. unfold lift.
    destruct (position_of_update E fs x) as [p|e] eqn:Hp.
    + rewrite M_bind_unfold. simpl.
      destruct (IH (_apply_position p st).2) as (n & ps & Hall & Hpos & Hbal & Hres).
      exists (S n), (p :: ps). simpl. repeat split.
      * by constructor.
      * exact Hpos.
      * exact Hbal.
      * destruct (apply_positions E fs l _).1; [by f_equal|done].
    + exists 0%nat, []. simpl. repeat split; [constructor|].
      by exists x.
Qed.

End DispatchFacts.

(** [create_order] for a listed symbol whose request parameters can be
    built always returns an order, and sends at most one REST request:
    exactly one, carrying the parameters built, when the market trades on
    the connector's account type, and none when it does not -- the order
    returned is then the FAILED one.  A portfolio-margin connector takes
    margin, linear and inverse markets. *)
Theorem create_order_sends_at_most_one_request
    (E : BinancePrivateConnector.env) (symbol : string)
    (market : BinanceMarket.t) (st : BinancePrivateConnector.state)
    side type amount price tif pside kwargs ps :
  BinancePrivateConnector._market E !! symbol = Some market ->
  BinancePrivateConnector.create_order_params market side type amount price
    tif pside kwargs = Ok ps ->
  let a := BinancePrivateConnector._account_type E in
  exists o st',
    BinancePrivateConnector.create_order E symbol side type amount price tif
      pside kwargs st = (Ok o, st') /\
    if BinanceAccountType.is_spot a && BinanceMarket.spot market
       || BinanceAccountType.is_isolated_margin_or_margin a
          && BinanceMarket.margin market
       || BinanceAccountType.is_linear a && BinanceMarket.linear market
       || BinanceAccountType.is_inverse a && BinanceMarket.inverse market
       || BinanceAccountType.is_portfolio_margin a
          && (BinanceMarket.margin market || BinanceMarket.linear market
              || BinanceMarket.inverse market)
    then exists ep,
           BinancePrivateConnector.st_rest_calls st'
           = (BinancePrivateConnector.st_rest_calls st ++ [(ep, ps)])%list
    else BinancePrivateConnector.st_rest_calls st'
         = BinancePrivateConnector.st_rest_calls st /\
         Order.status o = OrderStatus.FAILED.
Proof.
  intros Hmarket Hps a.
  rewrite (SubmissionFacts.create_order_unfold E symbol st market Hmarket
             _ _ _ _ _ _ _ ps Hps).
  pose proof (ConnectorFacts.limiter_acquire_rest_calls E st) as Hcalls.
  set (st1 := (BinancePrivateConnector.limiter_acquire E st).2) in *.
  unfold BinancePrivateConnector.try_except,
    BinancePrivateConnector.create_order_attempt.
  rewrite ConnectorFacts.M_bind_unfold.
  pose proof (DispatchFacts._execute_order_request_cases E market symbol ps
                st1) as Hcases.
  cbv zeta in Hcases. fold a in Hcases.
  destruct (_ || _) in Hcases |- *.
  - destruct Hcases as (ep & ->).
    destruct (BinancePrivateConnector.api_order E ep ps) as [x|e];
      unfold BinancePrivateConnector.lift;
      [destruct (BinancePrivateConnector.pending_order _ _ _ _ _ _ _)|];
      eexists _, _; (split; [reflexivity|]); exists ep; simpl;
      by rewrite Hcalls.
  - destruct Hcases as [-> | ->]; eexists _, _;
      (split; [reflexivity|]); simpl; by rewrite Hcalls.
Qed.

(** A spot connector asked to trade a perpetual sends nothing and
    returns the FAILED order. *)
Lemma create_order_sends_at_most_one_request_witness :
  let E :=
    BinancePrivateConnector.Env BinanceAccountType.SPOT
      {[ "BTC/USDT:USDT" := Sample.btc_perp ]}
      {[ "BTCUSDT_linear" := "BTC/USDT:USDT" ]}
      "binance" false Sample.api_up Sample.no_account 1700000000123
      Sample.is_market Sample.is_limit
      BinanceEnumParser.parse_order_type
      BinanceEnumParser.parse_order_type in
  exists o st',
    BinancePrivateConnector.create_order E "BTC/USDT:USDT" OrderSide.BUY
      OrderType.MARKET Sample.one_btc None TimeInForce.GTC None []
      BinancePrivateConnector.initial_state = (Ok o, st') /\
    BinancePrivateConnector.st_rest_calls st' = [] /\
    Order.status o = OrderStatus.FAILED.
Proof.
  intros E.
  destruct (create_order_sends_at_most_one_request E "BTC/USDT:USDT"
              Sample.btc_perp BinancePrivateConnector.initial_state
              OrderSide.BUY OrderType.MARKET Sample.one_btc None
              TimeInForce.GTC None [] _ eq_refl eq_refl)
    as (o & st' & Hrun & Hcalls).
  by exists o, st'.
Defined.

(** [cancel_order] and [create_order] name the market differently in
    the orders they return.  For a listed symbol every order
    [cancel_order] returns, CANCELING or FAILED, carries the exchange's
    own id of the market as its symbol, and the FAILED one the order id it
    was asked to cancel; every order [create_order] returns carries the
    symbol it was called with. *)
Theorem cancel_order_reports_native_symbol
    (E : BinancePrivateConnector.env) (symbol : string)
    (market : BinanceMarket.t) (st : BinancePrivateConnector.state) :
  BinancePrivateConnector._market E !! symbol = Some market ->
  (forall order_id kwargs,
      exists o st',
        BinancePrivateConnector.cancel_order E symbol order_id kwargs st
          = (Ok o, st') /\
        Order.symbol o = BinanceMarket.id market /\
        (Order.status o = OrderStatus.CANCELING \/
         Order.status o = OrderStatus.FAILED /\
         Order.id o = Some order_id)) /\
  (forall side type amount price tif pside kwargs o st',
      BinancePrivateConnector.create_order E symbol side type amount price
        tif pside kwargs st = (Ok o, st') ->
      Order.symbol o = symbol).
Proof.
  intros Hmarket. split.
  - intros order_id kwargs.
    rewrite (SubmissionFacts.cancel_order_unfold E symbol st market Hmarket).
    unfold BinancePrivateConnector.try_except,
      BinancePrivateConnector.cancel_order_attempt.
    rewrite ConnectorFacts.M_bind_unfold.
    destruct (BinancePrivateConnector._execute_cancel_order_request _ _ _ _ _)
      as [[res|e] st1]; [|by eexists _, _; eauto].
    unfold BinancePrivateConnector.lift.
    destruct (BinancePrivateConnector.canceling_order E _ res) as [o|e]
      eqn:Ho; [|by eexists _, _; eauto].
    apply DispatchFacts.canceling_order_inv in Ho as [Hsym Hstatus].
    eexists _, _. eauto.
  - intros side type amount price tif pside kwargs o st' Hrun.
    apply OrderFacts.create_order_Ok_inv in Hrun as [[res Hp]| ->];
      [by eapply DispatchFacts.pending_order_symbol|done].
Qed.

(** Cancelling on the sample futures connector: the order comes back
    under the exchange id BTCUSDT, not under BTC/USDT:USDT. *)
Lemma cancel_order_reports_native_symbol_witness :
  exists o st',
    BinancePrivateConnector.cancel_order (Sample.futures Sample.api_up)
      "BTC/USDT:USDT" 42 [] BinancePrivateConnector.initial_state
    = (Ok o, st') /\
    Order.symbol o = "BTCUSDT".
Proof.
  destruct (cancel_order_reports_native_symbol
              (Sample.futures Sample.api_up) "BTC/USDT:USDT" Sample.btc_perp
              BinancePrivateConnector.initial_state eq_refl) as [Hcancel _].
  destruct (Hcancel 42 []) as (o & st' & Hrun & Hsym & _).
  by exists o, st'.
Defined.

(** An account update is not applied atomically.  [_parse_account_update]
    first replaces the balances of the account type, then applies the
    positions entry by entry; at the first entry it cannot build a position
    from (an unlisted symbol, a malformed number) it raises, and the
    balances and the positions of the entries before that one stay applied.
    The exception is not one [_ws_msg_handler] catches. *)
Theorem account_update_stops_at_first_bad_entry
    (E : BinancePrivateConnector.env)
    (res : BinanceFuturesUpdateMsg.t) (st : BinancePrivateConnector.state) :
  let run :=
    BinancePrivateConnector._ws_msg_handler E
      (BinancePrivateConnector.AccountUpdate res) st in
  let entries := BinanceFuturesUpdateMsg.a_P res in
  let build :=
    BinancePrivateConnector.position_of_update E
      (BinanceFuturesUpdateMsg.fs res) in
  exists n ps,
    Forall2 (fun x p => build x = Ok p) (take n entries) ps /\
    BinancePrivateConnector.positions
      (BinancePrivateConnector.st_cache run.2)
    = Spec.positions_applied ps
        (BinancePrivateConnector.positions
           (BinancePrivateConnector.st_cache st)) /\
    BinancePrivateConnector.balances
      (BinancePrivateConnector.st_cache run.2)
    = <[BinancePrivateConnector._account_type E
        := BinanceFuturesUpdateMsg.a_balances res]>
        (BinancePrivateConnector.balances
           (BinancePrivateConnector.st_cache st)) /\
    match run.1 with
    | Ok _ => n = length entries
    | Raise e => exists x, entries !! n = Some x /\ build x = Raise e
    end.
Proof.
  intros run entries build. subst run. simpl.
  unfold BinancePrivateConnector._parse_account_update.
  rewrite ConnectorFacts.M_bind_unfold. simpl.
  match goal with
  | |- context [BinancePrivateConnector.apply_positions E ?fs ?l ?s] =>
      destruct (DispatchFacts.apply_positions_prefix E fs l s)
        as (n & ps & Hall & Hpos & Hbal & Hres)
  end.
  exists n, ps. by rewrite Hpos, Hbal.
Qed.

(** [_init_account_balance] has no request for a portfolio-margin
    account: it raises [UnboundLocalError] when it reads the unassigned
    [res], having sent nothing and changed nothing.  For every other
    account type it sends exactly one account request, and when that
    request raises, the exception is what the call raises and the cache
    is as it was. *)
Theorem portfolio_margin_balance_is_never_loaded
    (E : BinancePrivateConnector.env) (st : BinancePrivateConnector.state) :
  let run := BinancePrivateConnector._init_account_balance E st in
  (BinancePrivateConnector._account_type E
     = BinanceAccountType.PORTFOLIO_MARGIN ->
   run = (Raise UnboundLocalError, st)) /\
  (BinancePrivateConnector._account_type E
     <> BinanceAccountType.PORTFOLIO_MARGIN ->
   exists ep,
     BinancePrivateConnector.st_rest_calls run.2
       = (BinancePrivateConnector.st_rest_calls st ++ [(ep, [])])%list /\
     forall e,
       BinancePrivateConnector.api_account E ep = Raise e ->
       run.1 = Raise e /\
       BinancePrivateConnector.st_cache run.2
         = BinancePrivateConnector.st_cache st).
Proof.
  intros run. subst run.
  unfold BinancePrivateConnector._init_account_balance. split.
  - by intros ->.
  - intros Ha.
    assert (Hloop : forall l st0,
               BinancePrivateConnector.st_rest_calls
                 (BinancePrivateConnector.init_positions E l st0).2
               = BinancePrivateConnector.st_rest_calls st0).
    { induction l as [|x l IH]; intros st0; simpl; [done|].
      rewrite ConnectorFacts.M_bind_unfold.
      unfold BinancePrivateConnector.lift.
      destruct (BinancePrivateConnector.position_of_info E x); [|done].
      rewrite ConnectorFacts.M_bind_unfold. simpl. by rewrite IH. }
    destruct (BinancePrivateConnector._account_type E); try done; simpl;
      rewrite !ConnectorFacts.M_bind_unfold;
      unfold BinancePrivateConnector.rest_account; simpl;
      match goal with
      | |- context [BinancePrivateConnector.api_account E ?ep] =>
          exists ep;
          destruct (BinancePrivateConnector.api_account E ep) as [r|e0];
          simpl
      end;
      try (split; [done|by intros e [= ->]]);
      (split; [|done]);
      rewrite ?ConnectorFacts.M_bind_unfold; simpl;
      try done;
      destruct (BinanceAccountInfo.positions r); simpl;
      by rewrite ?Hloop.
Qed.

(** Every call of [create_order] and of [cancel_order] takes one slot of
    the rate limiter when a limiter is configured, and none otherwise,
    whatever becomes of the call: a call refused for an unknown symbol, or
    whose request fails, has used its slot all the same. *)
Theorem every_call_takes_one_rate_limit_slot
    (E : BinancePrivateConnector.env) (st : BinancePrivateConnector.state) :
  let slots := if BinancePrivateConnector._limiter E then 1%nat else 0%nat in
  (forall symbol side type amount price tif pside kwargs,
      BinancePrivateConnector.st_limiter_acquired
        (BinancePrivateConnector.create_order E symbol side type amount
           price tif pside kwargs st).2
      = (BinancePrivateConnector.st_limiter_acquired st + slots)%nat) /\
  (forall symbol order_id kwargs,
      BinancePrivateConnector.st_limiter_acquired
        (BinancePrivateConnector.cancel_order E symbol order_id kwargs st).2
      = (BinancePrivateConnector.st_limiter_acquired st + slots)%nat).
Proof.
  intros slots.
  assert (Hlim : exists st1,
             BinancePrivateConnector.limiter_acquire E st = (Ok tt, st1) /\
             BinancePrivateConnector.st_limiter_acquired st1
             = (BinancePrivateConnector.st_limiter_acquired st + slots)%nat).
  { subst slots. unfold BinancePrivateConnector.limiter_acquire.
    destruct (BinancePrivateConnector._limiter E); eexists;
      (split; [reflexivity|]); simpl; lia. }
  destruct Hlim as (st1 & Hlim & <-). split.
  - intros symbol side type amount price tif pside kwargs.
    unfold BinancePrivateConnector.create_order.
    rewrite ConnectorFacts.M_bind_unfold, Hlim.
    destruct (BinancePrivateConnector._market E !! symbol) as [market|];
      [|done].
    rewrite ConnectorFacts.M_bind_unfold.
    unfold BinancePrivateConnector.lift.
    destruct (BinancePrivateConnector.create_order_params _ _ _ _ _ _ _ _)
      as [ps|e]; [|done].
    unfold BinancePrivateConnector.try_except,
      BinancePrivateConnector.create_order_attempt.
    rewrite ConnectorFacts.M_bind_unfold.
    pose proof (DispatchFacts._execute_order_request_cases E market symbol
                  ps st1) as Hcases.
    cbv zeta in Hcases.
    destruct (_ || _) in Hcases.
    + destruct Hcases as (ep & ->).
      destruct (BinancePrivateConnector.api_order E ep ps) as [x|e];
        unfold BinancePrivateConnector.lift;
        [destruct (BinancePrivateConnector.pending_order _ _ _ _ _ _ _)|];
        done.
    + by destruct Hcases as [-> | ->].
  - intros symbol order_id kwargs.
    unfold BinancePrivateConnector.cancel_order.
    rewrite ConnectorFacts.M_bind_unfold, Hlim.
    destruct (BinancePrivateConnector._market E !! symbol) as [market|];
      [|done].
    unfold BinancePrivateConnector.try_except,
      BinancePrivateConnector.cancel_order_attempt.
    rewrite ConnectorFacts.M_bind_unfold.
    destruct (DispatchFacts._execute_cancel_order_request_cases E market
                (BinanceMarket.id market)
                (BinancePrivateConnector.cancel_order_params
                   (BinanceMarket.id market) order_id kwargs) st1)
      as [(ep & ->)|[-> | ->]]; [|done..].
    destruct (BinancePrivateConnector.api_order E ep _) as [x|e];
      unfold BinancePrivateConnector.lift;
      [destruct (BinancePrivateConnector.canceling_order _ _ _)|];
      done.
Qed.

(** ** Take-profit and stop-loss orders *)

Module TriggerFacts.
Import BinancePrivateConnector TriggerOrders.

(** The request of [create_take_profit_order], as that of
    [create_order]: what the call computes, the reduce-only flag, the
    keyword arguments left. *)
Lemma take_profit_params_inv T market side type amount trigger_price
    trigger_type price tif pside (kwargs : params) ps :
  take_profit_params T market side type amount trigger_price trigger_type
    price tif pside kwargs = Ok ps ->
  exists (bside : BinanceOrderSide.t) (computed : params),
    BinanceEnumParser.to_binance_order_side side = Ok bside /\
    (BinanceMarket.inverse market || BinanceMarket.linear market
     || BinanceMarket.spot market = true) /\
    (OrderType_is_limit T type = true ->
     dict_get computed "price" = Some (pyval_of_price price)) /\
    ps = dict_update
           (if py_truthy (pop_reduce_only kwargs).1
            then dict_set computed "reduceOnly" (PBool true) else computed)
           (pop_reduce_only kwargs).2.
Proof.
  unfold take_profit_params. intros H.
  apply bind_Ok in H as (binance_type & Hbt & H).
  apply bind_Ok in H as (bside & Hbside & H).
  apply bind_Ok in H as (btype & Hbtype & H).
  apply bind_Ok in H as (working & _ & H).
  apply bind_Ok in H as (ps1 & Hps1 & H).
  apply bind_Ok in H as (ps2 & Hps2 & H).
  destruct (pop_reduce_only kwargs) as [ro kw]. injection H as <-.
  exists bside, ps2. split; [done|]. split; [|split; [|done]].
  - destruct binance_type as [x|]; [|done].
    destruct (BinanceMarket.inverse market || BinanceMarket.linear market);
      [done|].
    by destruct (BinanceMarket.spot market).
  - intros Hlimit. rewrite Hlimit in Hps1.
    apply bind_Ok in Hps1 as (btif & _ & Hps1). injection Hps1 as <-.
    destruct pside as [s|]; [apply bind_Ok in Hps2 as (bps & _ & Hps2)|];
      injection Hps2 as <-; reflexivity.
Qed.

(** Once the request is built, the [try] statement makes the call
    return an order. *)
Lemma create_take_profit_order_returns T symbol market st side type amount
    trigger_price trigger_type price tif pside kwargs ps :
  _market (connector T) !! symbol = Some market ->
  take_profit_params T market side type amount trigger_price trigger_type
    price tif pside kwargs = Ok ps ->
  exists o st',
    create_take_profit_order T symbol side type amount trigger_price
      trigger_type price tif pside kwargs st = (Ok o, st').
Proof.
  intros Hmarket Hps. unfold create_take_profit_order.
  rewrite ConnectorFacts.M_bind_unfold.
  pose proof (SubmissionFacts.limiter_acquire_Ok (connector T) st) as Hok.
  destruct (limiter_acquire (connector T) st) as [r st1].
  simpl in Hok. subst r. rewrite Hmarket.
  rewrite ConnectorFacts.M_bind_unfold. unfold lift at 1. rewrite Hps.
  apply ConnectorFacts.try_except_returns.
  intros e st2. by eexists _, _.
Qed.

End TriggerFacts.

(** [create_take_profit_order] and [create_stop_loss_order] assign the
    native order type for inverse, linear and spot markets only.  For a
    listed market that is none of the three, margin or not, they raise
    [UnboundLocalError] as soon as the side is translated: before the
    [try], so to the caller, and before any REST request. *)
Theorem trigger_order_on_other_market_raises
    (T : TriggerOrders.env) (symbol : string) (market : BinanceMarket.t)
    (st : BinancePrivateConnector.state)
    side bside type amount trigger_price trigger_type price tif pside
    kwargs :
  BinancePrivateConnector._market (TriggerOrders.connector T) !! symbol
    = Some market ->
  BinanceMarket.spot market = false ->
  BinanceMarket.linear market = false ->
  BinanceMarket.inverse market = false ->
  BinanceEnumParser.to_binance_order_side side = Ok bside ->
  let st1 :=
    (BinancePrivateConnector.limiter_acquire (TriggerOrders.connector T)
       st).2 in
  TriggerOrders.create_take_profit_order T symbol side type amount
    trigger_price trigger_type price tif pside kwargs st
    = (Raise UnboundLocalError, st1) /\
  TriggerOrders.create_stop_loss_order T symbol side type amount
    trigger_price trigger_type price tif pside kwargs st
    = (Raise UnboundLocalError, st1) /\
  BinancePrivateConnector.st_rest_calls st1
    = BinancePrivateConnector.st_rest_calls st.
Proof.
  intros Hmarket Hspot Hlinear Hinverse Hside st1.
  assert (Hrun : TriggerOrders.create_take_profit_order T symbol side type
                   amount trigger_price trigger_type price tif pside kwargs
                   st = (Raise UnboundLocalError, st1)).
  { unfold TriggerOrders.create_take_profit_order.
    rewrite ConnectorFacts.M_bind_unfold.
    pose proof (SubmissionFacts.limiter_acquire_Ok
                  (TriggerOrders.connector T) st) as Hok.
    subst st1.
    destruct (BinancePrivateConnector.limiter_acquire _ st) as [r st1].
    simpl in Hok. subst r. rewrite Hmarket.
    rewrite ConnectorFacts.M_bind_unfold.
    unfold BinancePrivateConnector.lift, TriggerOrders.take_profit_params.
    by rewrite Hspot, Hlinear, Hinverse, Hside. }
  split; [exact Hrun|]. split; [exact Hrun|].
  apply ConnectorFacts.limiter_acquire_rest_calls.
Qed.

(** [create_order] refuses a LIMIT order without a price with
    [ValueError]; [create_take_profit_order] has no such check.  For an
    order type that is a limit type and no price, the request it builds
    carries [price = None], and the call returns an order: the request
    is left to the exchange to refuse. *)
Theorem trigger_limit_order_without_price_is_sent
    (T : TriggerOrders.env) (symbol : string) (market : BinanceMarket.t)
    (st : BinancePrivateConnector.state)
    side type amount trigger_price trigger_type tif pside
    (kwargs ps : BinancePrivateConnector.params) :
  BinancePrivateConnector._market (TriggerOrders.connector T) !! symbol
    = Some market ->
  TriggerOrders.OrderType_is_limit T type = true ->
  NoDup kwargs.*1 ->
  dict_get kwargs "price" = None ->
  TriggerOrders.take_profit_params T market side type amount trigger_price
    trigger_type None tif pside kwargs = Ok ps ->
  dict_get ps "price" = Some PNone /\
  (exists o st',
     TriggerOrders.create_take_profit_order T symbol side type amount
       trigger_price trigger_type None tif pside kwargs st = (Ok o, st')) /\
  (BinancePrivateConnector.create_order (TriggerOrders.connector T) symbol
     side OrderType.LIMIT amount None tif pside kwargs st).1
  = Raise ValueError.
Proof.
  intros Hmarket Hlimit Hnd Hprice Hps. repeat apply conj.
  - destruct (TriggerFacts.take_profit_params_inv _ _ _ _ _ _ _ _ _ _ _ _ Hps)
      as (bside & computed & _ & _ & Hcomputed & ->).
    destruct (ParamsFacts.pop_reduce_only_spec kwargs Hnd)
      as (_ & Hnd' & _ & _ & Hkw).
    rewrite dict_get_update by done.
    rewrite (Hkw "price") by done. rewrite Hprice.
    destruct (py_truthy _); rewrite ?dict_get_set; simpl; by apply Hcomputed.
  - by eapply TriggerFacts.create_take_profit_order_returns.
  - destruct (TriggerFacts.take_profit_params_inv _ _ _ _ _ _ _ _ _ _ _ _ Hps)
      as (bside & _ & Hside & _).
    unfold BinancePrivateConnector.create_order.
    rewrite ConnectorFacts.M_bind_unfold.
    pose proof (SubmissionFacts.limiter_acquire_Ok
                  (TriggerOrders.connector T) st) as Hok.
    destruct (BinancePrivateConnector.limiter_acquire _ st) as [r st1].
    simpl in Hok. subst r. rewrite Hmarket.
    rewrite ConnectorFacts.M_bind_unfold.
    unfold BinancePrivateConnector.lift,
      BinancePrivateConnector.create_order_params.
    by rewrite Hside.
Qed.

(** A take-profit order on the option of [Scenario]: the call raises. *)
Lemma trigger_order_on_other_market_raises_witness :
  exists st1,
    TriggerOrders.create_take_profit_order Scenario.trigger
      "BTC/USDT:USDT-250627-100000-C" OrderSide.SELL
      Scenario.TAKE_PROFIT_MARKET Sample.one_btc Scenario.strike
      TriggerType.LAST_PRICE None TimeInForce.GTC None []
      BinancePrivateConnector.initial_state
    = (Raise UnboundLocalError, st1) /\
    BinancePrivateConnector.st_rest_calls st1 = [].
Proof.
  eexists. split.
  - apply (trigger_order_on_other_market_raises Scenario.trigger
             "BTC/USDT:USDT-250627-100000-C" Scenario.btc_option
             BinancePrivateConnector.initial_state OrderSide.SELL
             BinanceOrderSide.SELL); reflexivity.
  - reflexivity.
Defined.

(** A limit take-profit order without a price on the perpetual: the
    request goes out with [price = None]. *)
Lemma trigger_limit_order_without_price_is_sent_witness :
  exists ps o st',
    TriggerOrders.take_profit_params Scenario.trigger Sample.btc_perp
      OrderSide.SELL Scenario.TAKE_PROFIT_LIMIT Sample.one_btc
      Scenario.strike TriggerType.LAST_PRICE None TimeInForce.GTC None []
    = Ok ps /\
    dict_get ps "price" = Some PNone /\
    TriggerOrders.create_take_profit_order Scenario.trigger "BTC/USDT:USDT"
      OrderSide.SELL Scenario.TAKE_PROFIT_LIMIT Sample.one_btc
      Scenario.strike TriggerType.LAST_PRICE None TimeInForce.GTC None []
      BinancePrivateConnector.initial_state = (Ok o, st') /\
    BinancePrivateConnector.st_rest_calls st'
    = [(BinancePrivateConnector.post_fapi_v1_order, ps)].
Proof.
  assert (Hps : exists ps,
             TriggerOrders.take_profit_params Scenario.trigger
               Sample.btc_perp OrderSide.SELL Scenario.TAKE_PROFIT_LIMIT
               Sample.one_btc Scenario.strike TriggerType.LAST_PRICE None
               TimeInForce.GTC None [] = Ok ps)
    by (eexists; reflexivity).
  destruct Hps as (ps & Hps).
  destruct (trigger_limit_order_without_price_is_sent Scenario.trigger
              "BTC/USDT:USDT" Sample.btc_perp
              BinancePrivateConnector.initial_state OrderSide.SELL
              Scenario.TAKE_PROFIT_LIMIT Sample.one_btc Scenario.strike
              TriggerType.LAST_PRICE TimeInForce.GTC None [] ps
              eq_refl eq_refl (NoDup_nil_2 : NoDup []) eq_refl Hps)
    as (Hprice & _ & _).
  exists ps. eexists _, _. split; [exact Hps|]. split; [exact Hprice|].
  vm_compute in Hps. injection Hps as <-. split; reflexivity.
Defined.

(** ** The public connector *)

Module PublicFacts.
Import BinancePublicConnector PublicRun.

Lemma M_bind_lift {A} (inner : result A) (k : A -> M unit) st :
  (lift inner ≫= k) st =
  match inner with
  | Ok a => k a st
  | Raise e => (Raise e, st)
  end.
Proof. by destruct inner. Qed.

Lemma symbol_of_inv E s symbol :
  symbol_of E s = Ok symbol ->
  exists suffix,
    market_type E = Ok suffix /\
    _market_id E !! (s +:+ suffix) = Some symbol.
Proof.
  unfold symbol_of. intros H. apply bind_Ok in H as (suffix & Hsuffix & H).
  exists suffix. split; [done|].
  destruct (_market_id E !! (s +:+ suffix)); [by injection H as ->|done].
Qed.

Lemma listed_intro E s (m : message) :
  symbol_of E s = Ok (message_symbol m) ->
  message_exchange m = _exchange_id E ->
  listed E m.
Proof.
  intros Hs Hex. split; [done|].
  destruct (symbol_of_inv E s _ Hs) as (suffix & Hm & Hl).
  by exists s, suffix.
Qed.

Lemma sound_nothing E st r : sound E st (r, st).
Proof.
  exists []. simpl. rewrite app_nil_r. repeat split; try done; [lia|].
  intros m1 m2 Hin. by apply elem_of_nil in Hin.
Qed.

Lemma sound_logged E st what : sound E st (log_error what st).
Proof.
  exists []. simpl. rewrite app_nil_r. repeat split; try done; [lia|].
  intros m1 m2 Hin. by apply elem_of_nil in Hin.
Qed.

Lemma sound_one E st topic (m : message) s :
  symbol_of E s = Ok (message_symbol m) ->
  message_exchange m = _exchange_id E ->
  sound E st (publish topic m st).
Proof.
  intros Hs Hex. exists [(topic, m)]. simpl.
  repeat split; try done; [lia| |].
  - constructor; [|constructor]. by eapply listed_intro.
  - intros m1 m2 Hin1%list_elem_of_singleton Hin2%list_elem_of_singleton.
    by subst.
Qed.

(** A parser that builds one value and publishes it. *)
Lemma sound_parser {A} E (inner : result A) topic (msg : A -> message) s st :
  (forall a, inner = Ok a ->
             symbol_of E s = Ok (message_symbol (msg a)) /\
             message_exchange (msg a) = _exchange_id E) ->
  sound E st ((lift inner ≫= fun a => publish topic (msg a)) st).
Proof.
  intros Hinner. rewrite M_bind_lift.
  destruct inner as [a|e]; [|apply sound_nothing].
  destruct (Hinner a eq_refl). by eapply sound_one.
Qed.

Lemma _parse_trade_sound E res st : sound E st (_parse_trade E res st).
Proof.
  apply (sound_parser E _ _ OfTrade (BinanceTradeData.s res)).
  intros a H. ok_inv H. by injection H as <-.
Qed.

Lemma _parse_kline_sound E res st : sound E st (_parse_kline E res st).
Proof.
  apply (sound_parser E _ _ OfKline (BinanceKline.s res)).
  intros a H. ok_inv H. by injection H as <-.
Qed.

Lemma _parse_spot_book_ticker_sound E res st :
  sound E st (_parse_spot_book_ticker E res st).
Proof.
  apply (sound_parser E _ _ OfBookL1 (BinanceSpotBookTicker.s res)).
  intros a H. ok_inv H. by injection H as <-.
Qed.

Lemma _parse_futures_book_ticker_sound E res st :
  sound E st (_parse_futures_book_ticker E res st).
Proof.
  apply (sound_parser E _ _ OfBookL1 (BinanceFuturesBookTicker.s res)).
  intros a H. ok_inv H. by injection H as <-.
Qed.

Lemma _parse_mark_price_sound E res st :
  sound E st (_parse_mark_price E res st).
Proof.
  unfold _parse_mark_price. rewrite M_bind_lift.
  match goal with
  | |- sound _ _ (match ?inner with _ => _ end) =>
      destruct inner as [[[mp fr] ip]|e] eqn:H
  end; [|apply sound_nothing].
  ok_inv H. injection H as <- <- <-.
  eexists [(_, _); (_, _); (_, _)]. simpl.
  repeat split; try done; [by rewrite <- !app_assoc| |].
  - rewrite !Forall_cons, Forall_nil.
    repeat apply conj; try done; by eapply listed_intro.
  - intros m1 m2 Hin1 Hin2.
    rewrite !elem_of_cons, elem_of_nil in Hin1, Hin2.
    destruct Hin1 as [->|[->|[->|[]]]], Hin2 as [->|[->|[->|[]]]]; done.
Qed.

Lemma _ws_msg_handler_sound E raw st :
  sound E st (_ws_msg_handler E raw st).
Proof.
  unfold _ws_msg_handler, decoded.
  destruct (general raw) as [[[e|] u]|]; [| |apply sound_logged].
  - destruct e; try apply sound_nothing.
    + destruct (trade raw); [apply _parse_trade_sound|apply sound_logged].
    + destruct (futures_book_ticker raw);
        [apply _parse_futures_book_ticker_sound|apply sound_logged].
    + destruct (kline raw); [apply _parse_kline_sound|apply sound_logged].
    + destruct (mark_price raw);
        [apply _parse_mark_price_sound|apply sound_logged].
  - destruct (match u with Some n => negb (n =? 0) | None => false end);
      [|apply sound_nothing].
    destruct (spot_book_ticker raw);
      [apply _parse_spot_book_ticker_sound|apply sound_logged].
Qed.

End PublicFacts.

(** The constructor of the public connector takes the spot and futures
    account types and raises [ValueError] for the margin and
    portfolio-margin ones; for every connector it builds, the
    [market_type] property returns one of the three market suffixes and
    never raises. *)
Theorem public_connector_has_market_type
    (account_type : BinanceAccountType.t)
    (market : gmap string BinanceMarket.t) (market_id : gmap string string)
    (exchange_id : string) (clock : Z)
    (parse : BinanceKlineInterval.t -> result KlineInterval.t)
    (to_binance : KlineInterval.t -> result BinanceKlineInterval.t) :
  match BinancePublicConnector.__init__ account_type market market_id
          exchange_id clock parse to_binance with
  | Ok E =>
      BinancePublicConnector._account_type E = account_type /\
      BinancePublicConnector._market_id E = market_id /\
      exists suffix,
        BinancePublicConnector.market_type E = Ok suffix /\
        suffix ∈ ["_spot"; "_linear"; "_inverse"]
  | Raise e =>
      e = ValueError /\
      BinanceAccountType.is_isolated_margin_or_margin account_type
      || BinanceAccountType.is_portfolio_margin account_type = true
  end.
Proof.
  destruct account_type; simpl; try done;
    (split; [done|]; split; [done|]); eexists; (split; [reflexivity|]);
    rewrite !elem_of_cons; auto.
Qed.

(** Whatever the frame, [_ws_msg_handler] of the public connector puts
    at most three messages on the bus, and none if it raises: a mark
    price update is published as its three messages or not at all.  Every
    message published names the connector's exchange and a canonical
    symbol that the market-id table lists under a native id with the
    connector's market suffix, and the messages of one frame name the
    same symbol.  A frame without event type is parsed as a spot book
    ticker only if its update id is set and not zero; otherwise it is
    dropped without a trace. *)
Theorem public_messages_carry_listed_symbols
    (E : BinancePublicConnector.env) (raw : BinancePublicConnector.ws_message)
    (st : BinancePublicConnector.state) :
  let run := BinancePublicConnector._ws_msg_handler E raw st in
  (exists new,
     BinancePublicConnector.published run.2
       = (BinancePublicConnector.published st ++ new)%list /\
     (is_ok run.1 = false -> new = []) /\
     (length new <= 3)%nat /\
     Forall (fun m : string * BinancePublicConnector.message =>
               BinancePublicConnector.message_exchange m.2
                 = BinancePublicConnector._exchange_id E /\
               exists s suffix,
                 BinancePublicConnector.market_type E = Ok suffix /\
                 BinancePublicConnector._market_id E !! (s +:+ suffix)
                   = Some (BinancePublicConnector.message_symbol m.2))
            new /\
     (forall m1 m2,
         m1 ∈ new -> m2 ∈ new ->
         BinancePublicConnector.message_symbol m1.2
         = BinancePublicConnector.message_symbol m2.2)) /\
  (forall u,
      BinancePublicConnector.general raw = Some (None, u) ->
      u = None \/ u = Some 0 ->
      run = (Ok tt, st)).
Proof.
  intros run. split.
  - apply PublicFacts._ws_msg_handler_sound.
  - intros u Hgeneral Hu. subst run.
    unfold BinancePublicConnector._ws_msg_handler. rewrite Hgeneral.
    by destruct Hu as [-> | ->].
Qed.


(** ** Hosts, subscriptions and the engine's checks *)

(** Every Binance account type has a REST host and a stream host:
    [base_url] and [ws_url] never raise [KeyError].  A testnet account
    type shares neither host with a live one, and two account types with
    the same stream host are of the same family (spot or margin, linear,
    inverse, portfolio margin). *)
Theorem every_account_type_has_its_hosts (a : BinanceAccountType.t) :
  exists base ws,
    BinanceUrls.base_url a = Ok base /\
    BinanceUrls.ws_url a = Ok ws /\
    forall b base' ws',
      BinanceUrls.base_url b = Ok base' ->
      BinanceUrls.ws_url b = Ok ws' ->
      (BinanceAccountType.is_testnet a <> BinanceAccountType.is_testnet b ->
       base <> base' /\ ws <> ws') /\
      (ws = ws' ->
       BinanceAccountType.is_spot_or_margin a
         = BinanceAccountType.is_spot_or_margin b /\
       BinanceAccountType.is_linear a = BinanceAccountType.is_linear b /\
       BinanceAccountType.is_inverse a = BinanceAccountType.is_inverse b /\
       BinanceAccountType.is_portfolio_margin a
         = BinanceAccountType.is_portfolio_margin b).
Proof.
  destruct a; eexists _, _; (split; [reflexivity|]); (split; [reflexivity|]);
    intros b base' ws' Hbase Hws; destruct b;
    vm_compute in Hbase, Hws; injection Hbase as <-; injection Hws as <-;
    (split; [intros Ht; first [by destruct Ht | split; discriminate]
            |intros Heq; first [discriminate Heq | done]]).
Qed.

Module SubscriptionFacts.
Import StrategyCore.

Lemma foldl_add_bookl1 {Core} (symbols : list string) (self : t Core) :
  foldl add_bookl1 self symbols =
  Build (_subscriptions_BOOKL1 self ∪ list_to_set symbols)
        (_subscriptions_TRADE self) (_subscriptions_KLINE self)
        (_initialized self) (core self) (topics self) (endpoints self)
        (jobs self).
Proof.
  revert self. induction symbols as [|symbol symbols IH]; intros self.
  - destruct self. simpl. by rewrite (right_id_L ∅ (∪)).
  - simpl. rewrite IH. simpl. by rewrite (assoc_L (∪)).
Qed.

Lemma foldl_add_trade {Core} (symbols : list string) (self : t Core) :
  foldl add_trade self symbols =
  Build (_subscriptions_BOOKL1 self)
        (_subscriptions_TRADE self ∪ list_to_set symbols)
        (_subscriptions_KLINE self)
        (_initialized self) (core self) (topics self) (endpoints self)
        (jobs self).
Proof.
  revert self. induction symbols as [|symbol symbols IH]; intros self.
  - destruct self. simpl. by rewrite (right_id_L ∅ (∪)).
  - simpl. rewrite IH. simpl. by rewrite (assoc_L (∪)).
Qed.

Lemma foldl_set_kline {Core} interval (symbols : list string)
    (self : t Core) :
  let self' := foldl (set_kline interval) self symbols in
  (forall symbol,
      _subscriptions_KLINE self' !! symbol =
      if bool_decide (symbol ∈ symbols) then Some interval
      else _subscriptions_KLINE self !! symbol) /\
  _subscriptions_BOOKL1 self' = _subscriptions_BOOKL1 self /\
  _subscriptions_TRADE self' = _subscriptions_TRADE self /\
  _initialized self' = _initialized self.
Proof.
  revert self. induction symbols as [|s symbols IH]; intros self; simpl.
  - done.
  - destruct (IH (set_kline interval self s)) as (Hk & Hb & Ht & Hi).
    repeat split; try done.
    intros symbol. rewrite Hk. simpl.
    destruct (decide (symbol ∈ symbols)) as [Hin|Hin].
    + rewrite !bool_decide_eq_true_2; [done| |done].
      rewrite elem_of_cons. by right.
    + rewrite (bool_decide_eq_false_2 _ Hin).
      destruct (decide (symbol = s)) as [->|Hne].
      * rewrite bool_decide_eq_true_2 by (rewrite elem_of_cons; by left).
        by rewrite lookup_insert_eq.
      * rewrite bool_decide_eq_false_2
          by (rewrite elem_of_cons; by intros [?|?]).
        by rewrite lookup_insert_ne.
Qed.

End SubscriptionFacts.

(** On an initialised strategy the book and trade subscriptions are
    sets: after [subscribe_bookl1] (or [subscribe_trade]) of one list and
    then of another, the strategy holds the union of what it held and of
    both lists, so that neither the order nor a repetition of a symbol
    tells, and nothing else of the strategy has changed. *)
Theorem book_and_trade_subscriptions_are_sets
    {Core : Type} (self : StrategyCore.t Core) (first second : list string) :
  StrategyCore._initialized self = true ->
  StrategyCore.and_then (StrategyCore.subscribe_bookl1 first self)
                        (StrategyCore.subscribe_bookl1 second)
  = StrategyCore.Done
      (StrategyCore.Build
         (StrategyCore._subscriptions_BOOKL1 self
            ∪ list_to_set first ∪ list_to_set second)
         (StrategyCore._subscriptions_TRADE self)
         (StrategyCore._subscriptions_KLINE self)
         true (StrategyCore.core self) (StrategyCore.topics self)
         (StrategyCore.endpoints self) (StrategyCore.jobs self)) /\
  StrategyCore.and_then (StrategyCore.subscribe_trade first self)
                        (StrategyCore.subscribe_trade second)
  = StrategyCore.Done
      (StrategyCore.Build
         (StrategyCore._subscriptions_BOOKL1 self)
         (StrategyCore._subscriptions_TRADE self
            ∪ list_to_set first ∪ list_to_set second)
         (StrategyCore._subscriptions_KLINE self)
         true (StrategyCore.core self) (StrategyCore.topics self)
         (StrategyCore.endpoints self) (StrategyCore.jobs self)).
Proof.
  intros Hinit.
  unfold StrategyCore.subscribe_bookl1, StrategyCore.subscribe_trade.
  rewrite Hinit. simpl.
  rewrite !SubscriptionFacts.foldl_add_bookl1,
          !SubscriptionFacts.foldl_add_trade.
  simpl. by rewrite Hinit.
Qed.

Lemma book_and_trade_subscriptions_are_sets_witness :
  StrategyCore.and_then
    (StrategyCore.subscribe_bookl1
       ["BTC/USDT-BINANCE"; "ETH/USDT-BINANCE"] Scenario.started)
    (StrategyCore.subscribe_bookl1 ["ETH/USDT-BINANCE"])
  = StrategyCore.and_then
      (StrategyCore.subscribe_bookl1
         ["ETH/USDT-BINANCE"; "BTC/USDT-BINANCE"; "BTC/USDT-BINANCE"]
         Scenario.started)
      (StrategyCore.subscribe_bookl1 ["ETH/USDT-BINANCE"]).
Proof.
  rewrite (proj1 (book_and_trade_subscriptions_are_sets
                    Scenario.started
                    ["BTC/USDT-BINANCE"; "ETH/USDT-BINANCE"]
                    ["ETH/USDT-BINANCE"] eq_refl)).
  rewrite (proj1 (book_and_trade_subscriptions_are_sets
                    Scenario.started
                    ["ETH/USDT-BINANCE"; "BTC/USDT-BINANCE";
                     "BTC/USDT-BINANCE"]
                    ["ETH/USDT-BINANCE"] eq_refl)).
  do 2 f_equal; apply set_eq; intros x;
    rewrite !elem_of_union, !elem_of_list_to_set, !elem_of_cons,
      !elem_of_nil;
    tauto.
Defined.

(** A symbol has one kline interval: on an initialised strategy, after
    [subscribe_kline] of one list with an interval and then of another
    list with another interval, a symbol of the second list has the
    second interval, also if it was in the first list; a symbol of the
    first list only has the first interval; any other symbol has what it
    had.  The book and trade subscriptions are as they were. *)
Theorem kline_subscription_keeps_last_interval
    {Core : Type} (self : StrategyCore.t Core) (first second : list string)
    (interval1 interval2 : KlineInterval.t) :
  StrategyCore._initialized self = true ->
  exists self',
    StrategyCore.and_then
      (StrategyCore.subscribe_kline first interval1 self)
      (StrategyCore.subscribe_kline second interval2)
    = StrategyCore.Done self' /\
    (forall symbol,
        StrategyCore._subscriptions_KLINE self' !! symbol =
        if bool_decide (symbol ∈ second) then Some interval2
        else if bool_decide (symbol ∈ first) then Some interval1
        else StrategyCore._subscriptions_KLINE self !! symbol) /\
    StrategyCore._subscriptions_BOOKL1 self'
      = StrategyCore._subscriptions_BOOKL1 self /\
    StrategyCore._subscriptions_TRADE self'
      = StrategyCore._subscriptions_TRADE self.
Proof.
  intros Hinit.
  destruct (SubscriptionFacts.foldl_set_kline interval1 first self)
    as (Hk1 & Hb1 & Ht1 & Hi1).
  unfold StrategyCore.subscribe_kline. rewrite Hinit. simpl.
  rewrite Hi1, Hinit. simpl.
  eexists. split; [reflexivity|].
  destruct (SubscriptionFacts.foldl_set_kline interval2 second
              (foldl (StrategyCore.set_kline interval1) self first))
    as (Hk2 & Hb2 & Ht2 & _).
  repeat split; [|congruence|congruence].
  intros symbol. by rewrite Hk2, Hk1.
Qed.

Lemma kline_subscription_keeps_last_interval_witness :
  exists self',
    StrategyCore.and_then
      (StrategyCore.subscribe_kline ["BTC/USDT-BINANCE"]
         KlineInterval.MINUTE_1 Scenario.started)
      (StrategyCore.subscribe_kline ["BTC/USDT-BINANCE"]
         KlineInterval.HOUR_1)
    = StrategyCore.Done self' /\
    StrategyCore._subscriptions_KLINE self' !! "BTC/USDT-BINANCE"
    = Some KlineInterval.HOUR_1.
Proof.
  destruct (kline_subscription_keeps_last_interval Scenario.started
              ["BTC/USDT-BINANCE"] ["BTC/USDT-BINANCE"]
              KlineInterval.MINUTE_1 KlineInterval.HOUR_1 eq_refl)
    as (self' & Hrun & Hk & _).
  exists self'. split; [exact Hrun|]. by rewrite Hk.
Defined.

Module EngineFacts.
Import Engine EngineCheck.

Lemma check_testnet_Done E exchange is_testnet :
  check_testnet E exchange is_testnet = Done tt <->
  basic_config E exchange = Some is_testnet.
Proof.
  unfold check_testnet.
  destruct (basic_config E exchange) as [testnet|]; [|done].
  destruct testnet, is_testnet; simpl; split; intros H; congruence.
Qed.

Lemma check_testnet_cases E exchange is_testnet :
  check_testnet E exchange is_testnet = Done tt \/
  check_testnet E exchange is_testnet = Raised EngineBuildError.
Proof.
  unfold check_testnet.
  destruct (basic_config E exchange) as [testnet|]; [|by right].
  destruct (negb _); auto.
Qed.

Lemma check_key_Done E count key count' :
  check_key E count key = Done count' <->
  accepted E key /\
  (if is_okx key then (count <= 1)%nat /\ count' = (count + 1)%nat
   else count' = count).
Proof.
  destruct key as [a|a|a|name]; simpl.
  - destruct (decide (a = BybitAccountType.UNIFIED)) as [->|Hu].
    { simpl. split; [done|]. by intros [[? _] _]. }
    rewrite (bool_decide_eq_false_2 _ Hu). simpl.
    destruct (decide (a = BybitAccountType.UNIFIED_TESTNET)) as [->|Hut].
    { simpl. split; [done|]. by intros [(_ & ? & _) _]. }
    rewrite (bool_decide_eq_false_2 _ Hut).
    pose proof (check_testnet_Done E ExchangeType.BYBIT
                  (bybit_is_testnet E a)) as Hc.
    destruct (check_testnet_cases E ExchangeType.BYBIT
                (bybit_is_testnet E a)) as [Hd|Hr].
    + rewrite Hd. split.
      * intros [= <-]. repeat split; try done. by apply Hc.
      * by intros [_ ->].
    + rewrite Hr. split; [done|]. intros [(_ & _ & Hcfg) _].
      apply Hc in Hcfg. congruence.
  - destruct (BinanceAccountType.is_isolated_margin_or_margin a
              || BinanceAccountType.is_portfolio_margin a) eqn:Hm.
    { split; [done|]. by intros [[? _] _]. }
    pose proof (check_testnet_Done E ExchangeType.BINANCE
                  (BinanceAccountType.is_testnet a)) as Hc.
    destruct (check_testnet_cases E ExchangeType.BINANCE
                (BinanceAccountType.is_testnet a)) as [Hd|Hr].
    + rewrite Hd. split.
      * intros [= <-]. repeat split; try done. by apply Hc.
      * by intros [_ ->].
    + rewrite Hr. split; [done|]. intros [(_ & Hcfg) _].
      apply Hc in Hcfg. congruence.
  - destruct (1 <? count)%nat eqn:Hcount.
    { apply Nat.ltb_lt in Hcount. split; [done|]. intros [_ [? _]]. lia. }
    apply Nat.ltb_ge in Hcount.
    pose proof (check_testnet_Done E ExchangeType.OKX
                  (OkxAccountType.is_testnet a)) as Hc.
    destruct (check_testnet_cases E ExchangeType.OKX
                (OkxAccountType.is_testnet a)) as [Hd|Hr].
    + rewrite Hd. split.
      * intros [= <-]. repeat split; try done. by apply Hc.
      * by intros [_ [_ ->]].
    + rewrite Hr. split; [done|]. intros [Hcfg _].
      apply Hc in Hcfg. congruence.
  - split; [done|]. by intros [[] _].
Qed.

Lemma check_keys_Done E keys : forall count,
  check_keys E count keys = Done tt <->
  Forall (accepted E) keys /\
  (filter (fun key => is_okx key = true) keys = [] \/
   (count + length (filter (fun key => is_okx key = true) keys) <= 2)%nat).
Proof.
  induction keys as [|key keys IH]; intros count; simpl.
  - split; [|done]. intros _. split; [constructor|by left].
  - destruct (check_key E count key) as [count'|e] eqn:Hkey.
    + apply check_key_Done in Hkey as [Hacc Hcount].
      rewrite IH, Forall_cons. rewrite filter_cons.
      destruct (is_okx key); simpl.
      * destruct Hcount as [Hle ->].
        split.
        -- intros [Hall [Hnil|Hlen]]; (split; [done|]); right.
           ++ rewrite Hnil. simpl. lia.
           ++ lia.
        -- intros [[_ Hall] [Hnil|Hlen]]; [done|]. split; [done|].
           right. lia.
      * subst count'. tauto.
    + split; [done|]. intros [Hall Hlen].
      apply Forall_cons in Hall as [Hacc Hall].
      assert (forall count', check_key E count key <> Done count') as Hno
        by (intros count'; by rewrite Hkey).
      rewrite filter_cons in Hlen. exfalso.
      destruct (is_okx key) eqn:Hokx; simpl in Hlen.
      * apply (Hno (count + 1)%nat). apply check_key_Done.
        rewrite Hokx. repeat split; [done|].
        destruct Hlen as [?|?]; [done|lia].
      * apply (Hno count). apply check_key_Done. by rewrite Hokx.
Qed.

End EngineFacts.

(** [_public_connector_check] passes exactly when every key passes on
    its own and at most two keys are OKX account types: a Bybit key is
    not a unified account, a Binance key is neither a margin nor a
    portfolio-margin account, no key is of another class, and the
    [testnet] flag of the exchange's basic configuration is set and is
    the key's [is_testnet].  A second OKX connector is not refused; a
    third one is. *)
Theorem public_connector_check_accepts
    (E : Engine.env) (keys : list Engine.account_type) :
  Engine._public_connector_check E keys = Engine.Done tt <->
  (forall a,
      Engine.OfBybit a ∈ keys ->
      a <> BybitAccountType.UNIFIED /\
      a <> BybitAccountType.UNIFIED_TESTNET /\
      Engine.basic_config E ExchangeType.BYBIT
        = Some (Engine.bybit_is_testnet E a)) /\
  (forall a,
      Engine.OfBinance a ∈ keys ->
      (BinanceAccountType.is_isolated_margin_or_margin a
       || BinanceAccountType.is_portfolio_margin a) = false /\
      Engine.basic_config E ExchangeType.BINANCE
        = Some (BinanceAccountType.is_testnet a)) /\
  (forall a,
      Engine.OfOkx a ∈ keys ->
      Engine.basic_config E ExchangeType.OKX
        = Some (OkxAccountType.is_testnet a)) /\
  (forall name, Engine.Unsupported name ∉ keys) /\
  (length (filter (fun key => Engine.is_okx key = true) keys) <= 2)%nat.
Proof.
  unfold Engine._public_connector_check.
  rewrite EngineFacts.check_keys_Done, Forall_forall.
  split.
  - intros [Hall Hlen]. split; [|split; [|split; [|split]]].
    + intros a Hin. apply (Hall _ Hin).
    + intros a Hin. apply (Hall _ Hin).
    + intros a Hin. apply (Hall _ Hin).
    + intros name Hin. apply (Hall _ Hin).
    + destruct Hlen as [-> | Hlen]; simpl; lia.
  - intros (Hbybit & Hbinance & Hokx & Hother & Hlen). split.
    + intros [a|a|a|name] Hin; simpl.
      * by apply Hbybit.
      * by apply Hbinance.
      * by apply Hokx.
      * by apply (Hother name).
    + right. lia.
Qed.

(** A Binance instrument is routed to an account type the rest of the
    code takes: for a spot, linear or inverse instrument
    [_instrument_id_to_account_type] returns a Binance account type whose
    [is_testnet] is the configured flag, that passes
    [_public_connector_check], that the public connector's constructor
    accepts, and whose market suffix is the one of the instrument's kind.
    Any other instrument raises [ValueError], and without a basic
    configuration for Binance the call raises [EngineBuildError]. *)
Theorem binance_instruments_route_to_public_account_types
    (E : Engine.env) (instrument_id : InstrumentId.t)
    (market : gmap string BinanceMarket.t) (market_id : gmap string string)
    (exchange_id : string) (clock : Z)
    (parse : BinanceKlineInterval.t -> result KlineInterval.t)
    (to_binance : KlineInterval.t -> result BinanceKlineInterval.t) :
  InstrumentId.exchange instrument_id = ExchangeType.BINANCE ->
  match Engine._instrument_id_to_account_type E instrument_id with
  | Engine.Done (Engine.OfBinance a) =>
      Engine.basic_config E ExchangeType.BINANCE
        = Some (BinanceAccountType.is_testnet a) /\
      Engine._public_connector_check E [Engine.OfBinance a]
        = Engine.Done tt /\
      exists C,
        BinancePublicConnector.__init__ a market market_id exchange_id
          clock parse to_binance = Ok C /\
        BinancePublicConnector.market_type C =
        match InstrumentId.type instrument_id with
        | InstrumentId.SPOT => Ok "_spot"
        | InstrumentId.LINEAR => Ok "_linear"
        | InstrumentId.INVERSE => Ok "_inverse"
        | InstrumentId.OPTION => Raise ValueError
        end
  | Engine.Done _ => False
  | Engine.Raised e =>
      (Engine.basic_config E ExchangeType.BINANCE = None /\
       e = Engine.EngineBuildError) \/
      (InstrumentId.type instrument_id = InstrumentId.OPTION /\
       e = Engine.Builtin ValueError)
  end.
Proof.
  intros Hex. unfold Engine._instrument_id_to_account_type. rewrite Hex.
  destruct (Engine.basic_config E ExchangeType.BINANCE) as [testnet|] eqn:Hc;
    [|by left].
  unfold InstrumentId.is_spot, InstrumentId.is_linear,
    InstrumentId.is_inverse.
  destruct (InstrumentId.type instrument_id) eqn:Hty; simpl;
    try (by right);
    destruct testnet; simpl;
    (split; [done|]);
    (split; [unfold Engine._public_connector_check; simpl;
             unfold Engine.check_testnet; by rewrite Hc|]);
    by eexists.
Qed.

Lemma binance_instruments_route_to_public_account_types_witness :
  exists a,
    Engine._instrument_id_to_account_type Scenario.live_engine
      Sample.btc_perp_id
    = Engine.Done (Engine.OfBinance a) /\
    Engine._public_connector_check Scenario.live_engine [Engine.OfBinance a]
    = Engine.Done tt.
Proof.
  pose proof (binance_instruments_route_to_public_account_types
                Scenario.live_engine Sample.btc_perp_id ∅ ∅ "binance" 0
                (fun _ => Raise KeyError) (fun _ => Raise KeyError)
                eq_refl) as H.
  destruct (Engine._instrument_id_to_account_type Scenario.live_engine
              Sample.btc_perp_id) as [[a|a|a|name]|e] eqn:Hrun;
    try done.
  exists a. by destruct H as (_ & ? & _).
Defined.


(** A strategy is initialised once.  After [_init_core] the strategy is
    initialised, and a second [_init_core], whatever it is handed, changes
    nothing: the first core is kept and no handler is subscribed or
    registered a second time.  On a strategy that was not initialised the
    call stores what it is handed, subscribes the three data topics and
    registers the nine endpoints, and leaves the subscriptions and the
    jobs alone.  Until then [subscribe_bookl1], [subscribe_trade] and
    [subscribe_kline] raise [StrategyBuildError] and [schedule] raises
    [RuntimeError], whatever their arguments. *)
Theorem strategy_core_is_initialised_once
    {Core : Type} (c1 c2 : Core) (self : StrategyCore.t Core) :
  let started := StrategyCore._init_core c1 self in
  StrategyCore._initialized started = true /\
  StrategyCore._init_core c2 started = started /\
  (StrategyCore._initialized self = false ->
   started =
   StrategyCore.Build
     (StrategyCore._subscriptions_BOOKL1 self)
     (StrategyCore._subscriptions_TRADE self)
     (StrategyCore._subscriptions_KLINE self)
     true (Some c1)
     (StrategyCore.topics self ++ ["trade"; "bookl1"; "kline"])
     (StrategyCore.endpoints self ++
        ["pending"; "accepted"; "partially_filled"; "filled"; "canceling";
         "canceled"; "failed"; "cancel_failed"; "balance"])
     (StrategyCore.jobs self) /\
   forall symbols interval f trigger kwargs,
     StrategyCore.subscribe_bookl1 symbols self
       = StrategyCore.Raised StrategyCore.StrategyBuildError /\
     StrategyCore.subscribe_trade symbols self
       = StrategyCore.Raised StrategyCore.StrategyBuildError /\
     StrategyCore.subscribe_kline symbols interval self
       = StrategyCore.Raised StrategyCore.StrategyBuildError /\
     StrategyCore.schedule f trigger kwargs self
       = StrategyCore.Raised (StrategyCore.Builtin RuntimeError)).
Proof.
  intros started. subst started.
  assert (StrategyCore._initialized (StrategyCore._init_core c1 self) = true)
    as Hstarted.
  { unfold StrategyCore._init_core.
    by destruct (StrategyCore._initialized self) eqn:Hinit. }
  split; [done|]. split.
  { unfold StrategyCore._init_core at 1. by rewrite Hstarted. }
  intros Hinit.
  unfold StrategyCore._init_core, StrategyCore.subscribe_bookl1,
    StrategyCore.subscribe_trade, StrategyCore.subscribe_kline,
    StrategyCore.schedule.
  by rewrite Hinit.
Qed.
